(** * A shallow embedding of the node_redis client core (index.js)

    The development follows [index.js]: the command pipeline
    ([send_command]), reply dispatch ([return_reply], [return_error]),
    the reconnection logic ([connection_gone]) and the restoration of
    modal state ([on_ready]).  The client object is a record that is
    threaded through every operation; everything the client makes
    observable (events emitted, callbacks invoked) is appended to its
    [trace], and everything written to the transport to [written].

    Conventions of the embedding:
    - a JavaScript string is carried by the byte string of its UTF-8
      encoding, so that [Buffer.byteLength] is [String.length] and what
      [stream.write] puts on the wire is the string itself; a Buffer is
      the byte string of its content;
    - numbers are the integers that a double holds ([Z]), with [2^1024]
      standing for [Infinity]; counters and lengths stay far below
      [2^53], where the arithmetic of doubles is exact, but the retry
      delay grows by the factor 1.7 at every loss, so the product that
      makes the next delay and the sum of the delays are computed as
      binary64 computes them ([double_floor]);
    - user callbacks are opaque: they are identified by a number, their
      invocation is recorded, they do not call back into the client,
      and what they return is an opaque value ([Returned_by]); the
      closures that the client itself creates ([select], the
      resubscription counter of [on_ready]) are constructors of
      [callback] with their bodies in [invoke];
    - an [error] listener is installed, so that emitting [error] does
      not raise; [process.domain] is unset. *)

From Stdlib Require Import ZArith List String Ascii Bool Lia.
From stdpp Require Import base strings gmap list pretty.
Import ListNotations.

Set Warnings "-register-all".

Open Scope string_scope.
Open Scope Z_scope.
Open Scope list_scope.

(** ** Pieces of the JavaScript runtime *)

Definition dquote : ascii := ascii_of_nat 34.
Definition backslash : ascii := ascii_of_nat 92.
Definition CRLF : string := String (ascii_of_nat 13) (String (ascii_of_nat 10) EmptyString).

Definition is_ascii_char (c : ascii) : bool := Nat.ltb (nat_of_ascii c) 128.

Fixpoint all_ascii (s : string) : bool :=
  match s with
  | EmptyString => true
  | String c s' => is_ascii_char c && all_ascii s'
  end.

(** Replies as the parser delivers them.  [RUndef] is JavaScript's
    [undefined]: the parser never produces it, reading an array past its
    end does. *)
Inductive reply :=
| RUndef
| RNull
| RStr (s : string)
| RBuf (b : string)
| RInt (n : Z)
| RArr (l : list reply).

(** What an assignment [obj[key] = v] does when [key] is not a
    property of [obj] itself and the prototype of [obj] is a Buffer or
    an array: it makes the property, does nothing, or raises (the file
    is in strict mode), as the properties that [obj] inherits have
    it. *)
Inductive assign_effect := Assign | Ignore | Raise.

(** What the host supplies and the program does not define: UTF-8
    decoding of a buffer that holds non-ASCII bytes, upper-casing of
    non-ASCII text, the source text of a function value, the text of a
    number beyond [2^53], whether what a function of the user returns
    is truthy, and the properties that an object inherits from a Buffer
    or an array. *)
Record host := {
  utf8_decode : string -> string;
  upper_unicode : string -> string;
  function_text : nat -> string;
  number_text : Z -> string;
  returns_truthy : nat -> bool;
  inherited_assign : reply -> string -> assign_effect
}.

(** [String(n)]: an integer below [2^53] is written with all its
    digits. *)
Definition number_String (h : host) (n : Z) : string :=
  if Z.abs n <? 2 ^ 53 then pretty n else number_text h n.

(** [buf.toString('binary')]: byte [n] becomes code point [n]. *)
Fixpoint latin1_decode (b : string) : string :=
  match b with
  | EmptyString => EmptyString
  | String c b' =>
      let n := nat_of_ascii c in
      if Nat.ltb n 128 then String c (latin1_decode b')
      else String (ascii_of_nat (192 + n / 64))
             (String (ascii_of_nat (128 + n mod 64)) (latin1_decode b'))
  end.

(** [s.length]: the number of UTF-16 code units of [s]. *)
Fixpoint js_length (s : string) : nat :=
  match s with
  | EmptyString => 0
  | String c s' =>
      let n := nat_of_ascii c in
      ((if Nat.leb 128 n && Nat.ltb n 192 then 0 else 1)
       + (if Nat.leb 240 n then 1 else 0) + js_length s')%nat
  end.

Definition upper_char (c : ascii) : ascii :=
  let n := nat_of_ascii c in
  if Nat.leb 97 n && Nat.leb n 122 then ascii_of_nat (n - 32) else c.

Fixpoint upper_ascii (s : string) : string :=
  match s with
  | EmptyString => EmptyString
  | String c s' => String (upper_char c) (upper_ascii s')
  end.

Definition toUpperCase (h : host) (s : string) : string :=
  if all_ascii s then upper_ascii s else upper_unicode h s.

(** [buf.toString()] *)
Definition buffer_toString (h : host) (b : string) : string :=
  if all_ascii b then b else utf8_decode h b.

Fixpoint join (sep : string) (l : list string) : string :=
  match l with
  | [] => ""
  | [x] => x
  | x :: l' => x +:+ sep +:+ join sep l'
  end.

Fixpoint rev_string (acc s : string) : string :=
  match s with
  | EmptyString => acc
  | String c s' => rev_string (String c acc) s'
  end.

(** [s.split(sep)] for a non-empty separator; [skip] counts the
    characters of a separator still to be passed over, [cur] holds the
    current piece in reverse. *)
Fixpoint split_aux (sep s : string) (skip : nat) (cur : string) : list string :=
  match s with
  | EmptyString => [rev_string "" cur]
  | String c s' =>
      match skip with
      | S k => split_aux sep s' k cur
      | O =>
          if String.prefix sep s
          then rev_string "" cur :: split_aux sep s' (String.length sep - 1) ""
          else split_aux sep s' 0 (String c cur)
      end
  end.

Definition split (sep s : string) : list string := split_aux sep s 0 "".

(** [s.replace(/pat/g, rep)] for a literal, non-empty pattern. *)
Fixpoint replace_aux (pat rep s : string) (skip : nat) : string :=
  match s with
  | EmptyString => EmptyString
  | String c s' =>
      match skip with
      | S k => replace_aux pat rep s' k
      | O =>
          if String.prefix pat s
          then rep +:+ replace_aux pat rep s' (String.length pat - 1)
          else String c (replace_aux pat rep s' 0)
      end
  end.

Definition replace_all (pat rep s : string) : string := replace_aux pat rep s 0.

(** [s.indexOf(pat)], -1 when absent. *)
Definition indexOf (pat s : string) : Z :=
  match String.index 0 pat s with
  | Some i => Z.of_nat i
  | None => -1
  end.

(** [s.slice(from, to)] with JavaScript's treatment of negative and
    out-of-range indices.  Positions count bytes; they are the
    positions of JavaScript, which counts UTF-16 units, on ASCII
    text. *)
Definition slice (s : string) (from to : Z) : string :=
  let len := Z.of_nat (String.length s) in
  let clamp i := if i <? 0 then Z.max (len + i) 0 else Z.min i len in
  let a := clamp from in
  let b := clamp to in
  String.substring (Z.to_nat a) (Z.to_nat (b - a)) s.

(** ** Values *)

(** Arguments of a command as the caller passes them.  [AFun] is a
    function value, which the variadic calling convention allows in the
    last position.  A value of another kind (a number that is no
    integer, a boolean, an object) acts in this program only through
    [String(value)] and is carried by [AStr] of that text. *)
Inductive arg :=
| AUndef
| ANull
| AStr (s : string)
| ABuf (b : string)
| ANum (n : Z)
| AArr (l : list arg)
| AFun (f : nat).

Definition isBuffer (a : arg) : bool :=
  match a with ABuf _ => true | _ => false end.

Definition isArray (a : arg) : bool :=
  match a with AArr _ => true | _ => false end.

(** [String(a)], which is also what [+] with a string applies to [a]. *)
Fixpoint js_String (h : host) (a : arg) : string :=
  match a with
  | AUndef => "undefined"
  | ANull => "null"
  | AStr s => s
  | ABuf b => buffer_toString h b
  | ANum n => number_String h n
  | AArr l =>
      join "," (List.map (fun x => match x with
                                   | AUndef | ANull => ""
                                   | _ => js_String h x
                                   end) l)
  | AFun f => function_text h f
  end.

Definition truthy (r : reply) : bool :=
  match r with
  | RUndef | RNull => false
  | RStr s => negb (String.eqb s "")
  | RInt n => negb (n =? 0)
  | RBuf _ | RArr _ => true
  end.


(** [r[i]] on an array *)
Definition at_index (l : list reply) (i : nat) : reply := nth i l RUndef.

(** [String(r)] *)
Fixpoint reply_String (h : host) (r : reply) : string :=
  match r with
  | RUndef => "undefined"
  | RNull => "null"
  | RStr s => s
  | RBuf b => buffer_toString h b
  | RInt n => number_String h n
  | RArr l =>
      join "," (List.map (fun x => match x with
                                   | RUndef | RNull => ""
                                   | _ => reply_String h x
                                   end) l)
  end.

(** [r.toString()]; [None] stands for the [TypeError] raised on
    [null] and [undefined]. *)
Definition reply_toString (h : host) (r : reply) : option string :=
  match r with
  | RUndef | RNull => None
  | _ => Some (reply_String h r)
  end.

(** [r.toString('binary')]: only a Buffer looks at the argument; a
    number takes it for a radix and raises. *)
Definition reply_toString_binary (h : host) (r : reply) : option string :=
  match r with
  | RUndef | RNull | RInt _ => None
  | RBuf b => Some (latin1_decode b)
  | _ => Some (reply_String h r)
  end.

(** The prototype of an object: [Object.prototype], as [{}] has it,
    [null], or a Buffer or an array. *)
Inductive prototype :=
| Object_prototype
| Null_prototype
| Value_prototype (r : reply).

(** A plain object created by [{}] and filled by assignment: its own
    properties and its prototype. *)
Record object := {
  own : gmap string reply;
  proto : prototype
}.

Definition empty_object : object := {| own := ∅; proto := Object_prototype |}.

Definition set_own (key : string) (v : reply) (o : object) : object :=
  {| own := <[key := v]> (own o); proto := proto o |}.

(** The setter of [__proto__] on [Object.prototype]: an object or
    [null] becomes the prototype, any other value is ignored. *)
Definition set_prototype (v : reply) (o : object) : object :=
  match v with
  | RNull => {| own := own o; proto := Null_prototype |}
  | RBuf _ | RArr _ => {| own := own o; proto := Value_prototype v |}
  | _ => o
  end.

(** [obj[key] = v]; [None] stands for the [TypeError] of an
    assignment that strict mode refuses.  While [Object.prototype] is
    in the chain, [__proto__] goes to its setter and makes no property;
    under the prototype [null] it is a key like any other. *)
Definition object_set (h : host) (key : string) (v : reply) (o : object)
  : option object :=
  match proto o with
  | Null_prototype => Some (set_own key v o)
  | Object_prototype =>
      if String.eqb key "__proto__" then Some (set_prototype v o)
      else Some (set_own key v o)
  | Value_prototype p =>
      if String.eqb key "__proto__" then Some (set_prototype v o)
      else
        match own o !! key with
        | Some _ => Some (set_own key v o)
        | None =>
            match inherited_assign h p key with
            | Assign => Some (set_own key v o)
            | Ignore => Some o
            | Raise => None
            end
        end
  end.

(** What a callback receives as its second argument. *)
Inductive value :=
| VReply (r : reply)
| VObject (o : object).

Definition undefined : value := VReply RUndef.

Record error := {
  message : string;
  command_used : option string
}.

Definition new_Error (msg : string) : error :=
  {| message := msg; command_used := None |}.

Definition TypeError : error := new_Error "TypeError".

(** ** Callbacks, command records, events *)

Inductive callback :=
| CbUser (f : nat)
| CbSelect (db : arg) (user : option nat)
| CbResubscribe (counter : nat).

(** What [send_command] returns: [undefined], a boolean, or what a
    function of the user returned. *)
Inductive returned :=
| Undefined
| Bool (b : bool)
| Returned_by (f : nat).

(** The value of a call of a callback: the closures of the client
    return nothing. *)
Definition callback_result (cb : callback) : returned :=
  match cb with
  | CbUser f => Returned_by f
  | CbSelect _ _ | CbResubscribe _ => Undefined
  end.

Record Command := {
  command : string;
  args : list arg;
  sub_command : bool;
  buffer_args : bool;
  callback_of : option callback
}.

Inductive event :=
| Emit_error (e : error)
| Emit_idle
| Emit_drain
| Emit_end
| Emit_ready
| Emit_reconnecting (delay attempt : Z)
| Emit_message (channel : string) (payload : reply)
| Emit_pmessage (pattern channel : string) (payload : reply)
| Emit_subscription (kind : string) (channel : reply) (count : reply)
| Emit_monitor (timestamp : string) (margs : list string)
| Called (cb : callback) (err : option error) (res : value)
| Called_by_select (f : nat) (err : option error) (res : value).

(** Modelled from the spec: the FIFO of lib/queue.js (section 4.3:
    operations push, shift and length).  [shift] on an empty queue
    yields [undefined]. *)
Module Queue.
Definition t := list Command.
Definition empty : t := [].
Definition push (c : Command) (q : t) : t := q ++ [c].
Definition shift (q : t) : option Command * t :=
  match q with
  | [] => (None, [])
  | c :: q' => (Some c, q')
  end.
Definition length (q : t) : Z := Z.of_nat (List.length q).
End Queue.

(** ** The client object *)

(** The transport as the client sees it: [stream.writable], the chunks
    passed to [stream.write] so far, and what the n-th [stream.write]
    answers ([false]: the chunk was buffered in user memory). *)
Record Stream := {
  writable : bool;
  accepts : nat -> bool;
  written : list string
}.

(** The snapshot taken by [connection_gone]. *)
Record saved_state := {
  saved_monitoring : bool;
  saved_pub_sub_mode : bool;
  saved_selected_db : option arg
}.

Record client := {
  stream : Stream;  (* the transport *)
  detect_buffers : bool;  (* options.detect_buffers *)
  address : string;
  connected : bool;
  ready : bool;
  should_buffer : bool;
  command_queue_high_water : Z;
  command_queue_low_water : Z;
  max_attempts : option Z;  (* None: the field is not set *)
  command_queue : Queue.t;  (* sent commands, to de-pipeline them *)
  offline_queue : Queue.t;  (* commands issued but not able to be sent *)
  commands_sent : Z;
  connect_timeout : Z;
  enable_offline_queue : bool;
  retry_max_delay : option Z;  (* None: null *)
  retry_timer : option Z;  (* Some d: a timer of d ms is pending *)
  retry_totaltime : Z;
  retry_delay : Z;
  attempts : Z;
  pub_sub_mode : bool;
  subscription_set : list string;  (* the keys, in insertion order *)
  monitoring : bool;
  closing : bool;
  selected_db : option arg;  (* None: null *)
  old_state : option saved_state;  (* None: null *)
  send_anyway : bool;
  emitted_end : bool;
  callback_count : list Z;  (* the counters of on_ready's closures *)
  trace : list event  (* events emitted and callbacks invoked *)
}.

Definition set_stream (v : Stream) (c : client) : client :=
  {| stream := v; detect_buffers := detect_buffers c; address := address c; connected :=
     connected c; ready := ready c; should_buffer := should_buffer c; command_queue_high_water
     := command_queue_high_water c; command_queue_low_water := command_queue_low_water c;
     max_attempts := max_attempts c; command_queue := command_queue c; offline_queue :=
     offline_queue c; commands_sent := commands_sent c; connect_timeout := connect_timeout c;
     enable_offline_queue := enable_offline_queue c; retry_max_delay := retry_max_delay c;
     retry_timer := retry_timer c; retry_totaltime := retry_totaltime c; retry_delay :=
     retry_delay c; attempts := attempts c; pub_sub_mode := pub_sub_mode c; subscription_set :=
     subscription_set c; monitoring := monitoring c; closing := closing c; selected_db :=
     selected_db c; old_state := old_state c; send_anyway := send_anyway c; emitted_end :=
     emitted_end c; callback_count := callback_count c; trace := trace c |}.

Definition set_connected (v : bool) (c : client) : client :=
  {| stream := stream c; detect_buffers := detect_buffers c; address := address c; connected :=
     v; ready := ready c; should_buffer := should_buffer c; command_queue_high_water :=
     command_queue_high_water c; command_queue_low_water := command_queue_low_water c;
     max_attempts := max_attempts c; command_queue := command_queue c; offline_queue :=
     offline_queue c; commands_sent := commands_sent c; connect_timeout := connect_timeout c;
     enable_offline_queue := enable_offline_queue c; retry_max_delay := retry_max_delay c;
     retry_timer := retry_timer c; retry_totaltime := retry_totaltime c; retry_delay :=
     retry_delay c; attempts := attempts c; pub_sub_mode := pub_sub_mode c; subscription_set :=
     subscription_set c; monitoring := monitoring c; closing := closing c; selected_db :=
     selected_db c; old_state := old_state c; send_anyway := send_anyway c; emitted_end :=
     emitted_end c; callback_count := callback_count c; trace := trace c |}.

Definition set_ready (v : bool) (c : client) : client :=
  {| stream := stream c; detect_buffers := detect_buffers c; address := address c; connected :=
     connected c; ready := v; should_buffer := should_buffer c; command_queue_high_water :=
     command_queue_high_water c; command_queue_low_water := command_queue_low_water c;
     max_attempts := max_attempts c; command_queue := command_queue c; offline_queue :=
     offline_queue c; commands_sent := commands_sent c; connect_timeout := connect_timeout c;
     enable_offline_queue := enable_offline_queue c; retry_max_delay := retry_max_delay c;
     retry_timer := retry_timer c; retry_totaltime := retry_totaltime c; retry_delay :=
     retry_delay c; attempts := attempts c; pub_sub_mode := pub_sub_mode c; subscription_set :=
     subscription_set c; monitoring := monitoring c; closing := closing c; selected_db :=
     selected_db c; old_state := old_state c; send_anyway := send_anyway c; emitted_end :=
     emitted_end c; callback_count := callback_count c; trace := trace c |}.

Definition set_should_buffer (v : bool) (c : client) : client :=
  {| stream := stream c; detect_buffers := detect_buffers c; address := address c; connected :=
     connected c; ready := ready c; should_buffer := v; command_queue_high_water :=
     command_queue_high_water c; command_queue_low_water := command_queue_low_water c;
     max_attempts := max_attempts c; command_queue := command_queue c; offline_queue :=
     offline_queue c; commands_sent := commands_sent c; connect_timeout := connect_timeout c;
     enable_offline_queue := enable_offline_queue c; retry_max_delay := retry_max_delay c;
     retry_timer := retry_timer c; retry_totaltime := retry_totaltime c; retry_delay :=
     retry_delay c; attempts := attempts c; pub_sub_mode := pub_sub_mode c; subscription_set :=
     subscription_set c; monitoring := monitoring c; closing := closing c; selected_db :=
     selected_db c; old_state := old_state c; send_anyway := send_anyway c; emitted_end :=
     emitted_end c; callback_count := callback_count c; trace := trace c |}.

Definition set_command_queue (v : Queue.t) (c : client) : client :=
  {| stream := stream c; detect_buffers := detect_buffers c; address := address c; connected :=
     connected c; ready := ready c; should_buffer := should_buffer c; command_queue_high_water
     := command_queue_high_water c; command_queue_low_water := command_queue_low_water c;
     max_attempts := max_attempts c; command_queue := v; offline_queue := offline_queue c;
     commands_sent := commands_sent c; connect_timeout := connect_timeout c;
     enable_offline_queue := enable_offline_queue c; retry_max_delay := retry_max_delay c;
     retry_timer := retry_timer c; retry_totaltime := retry_totaltime c; retry_delay :=
     retry_delay c; attempts := attempts c; pub_sub_mode := pub_sub_mode c; subscription_set :=
     subscription_set c; monitoring := monitoring c; closing := closing c; selected_db :=
     selected_db c; old_state := old_state c; send_anyway := send_anyway c; emitted_end :=
     emitted_end c; callback_count := callback_count c; trace := trace c |}.

Definition set_offline_queue (v : Queue.t) (c : client) : client :=
  {| stream := stream c; detect_buffers := detect_buffers c; address := address c; connected :=
     connected c; ready := ready c; should_buffer := should_buffer c; command_queue_high_water
     := command_queue_high_water c; command_queue_low_water := command_queue_low_water c;
     max_attempts := max_attempts c; command_queue := command_queue c; offline_queue := v;
     commands_sent := commands_sent c; connect_timeout := connect_timeout c;
     enable_offline_queue := enable_offline_queue c; retry_max_delay := retry_max_delay c;
     retry_timer := retry_timer c; retry_totaltime := retry_totaltime c; retry_delay :=
     retry_delay c; attempts := attempts c; pub_sub_mode := pub_sub_mode c; subscription_set :=
     subscription_set c; monitoring := monitoring c; closing := closing c; selected_db :=
     selected_db c; old_state := old_state c; send_anyway := send_anyway c; emitted_end :=
     emitted_end c; callback_count := callback_count c; trace := trace c |}.

Definition set_commands_sent (v : Z) (c : client) : client :=
  {| stream := stream c; detect_buffers := detect_buffers c; address := address c; connected :=
     connected c; ready := ready c; should_buffer := should_buffer c; command_queue_high_water
     := command_queue_high_water c; command_queue_low_water := command_queue_low_water c;
     max_attempts := max_attempts c; command_queue := command_queue c; offline_queue :=
     offline_queue c; commands_sent := v; connect_timeout := connect_timeout c;
     enable_offline_queue := enable_offline_queue c; retry_max_delay := retry_max_delay c;
     retry_timer := retry_timer c; retry_totaltime := retry_totaltime c; retry_delay :=
     retry_delay c; attempts := attempts c; pub_sub_mode := pub_sub_mode c; subscription_set :=
     subscription_set c; monitoring := monitoring c; closing := closing c; selected_db :=
     selected_db c; old_state := old_state c; send_anyway := send_anyway c; emitted_end :=
     emitted_end c; callback_count := callback_count c; trace := trace c |}.

Definition set_retry_timer (v : option Z) (c : client) : client :=
  {| stream := stream c; detect_buffers := detect_buffers c; address := address c; connected :=
     connected c; ready := ready c; should_buffer := should_buffer c; command_queue_high_water
     := command_queue_high_water c; command_queue_low_water := command_queue_low_water c;
     max_attempts := max_attempts c; command_queue := command_queue c; offline_queue :=
     offline_queue c; commands_sent := commands_sent c; connect_timeout := connect_timeout c;
     enable_offline_queue := enable_offline_queue c; retry_max_delay := retry_max_delay c;
     retry_timer := v; retry_totaltime := retry_totaltime c; retry_delay := retry_delay c;
     attempts := attempts c; pub_sub_mode := pub_sub_mode c; subscription_set :=
     subscription_set c; monitoring := monitoring c; closing := closing c; selected_db :=
     selected_db c; old_state := old_state c; send_anyway := send_anyway c; emitted_end :=
     emitted_end c; callback_count := callback_count c; trace := trace c |}.

Definition set_retry_totaltime (v : Z) (c : client) : client :=
  {| stream := stream c; detect_buffers := detect_buffers c; address := address c; connected :=
     connected c; ready := ready c; should_buffer := should_buffer c; command_queue_high_water
     := command_queue_high_water c; command_queue_low_water := command_queue_low_water c;
     max_attempts := max_attempts c; command_queue := command_queue c; offline_queue :=
     offline_queue c; commands_sent := commands_sent c; connect_timeout := connect_timeout c;
     enable_offline_queue := enable_offline_queue c; retry_max_delay := retry_max_delay c;
     retry_timer := retry_timer c; retry_totaltime := v; retry_delay := retry_delay c; attempts
     := attempts c; pub_sub_mode := pub_sub_mode c; subscription_set := subscription_set c;
     monitoring := monitoring c; closing := closing c; selected_db := selected_db c; old_state
     := old_state c; send_anyway := send_anyway c; emitted_end := emitted_end c; callback_count
     := callback_count c; trace := trace c |}.

Definition set_retry_delay (v : Z) (c : client) : client :=
  {| stream := stream c; detect_buffers := detect_buffers c; address := address c; connected :=
     connected c; ready := ready c; should_buffer := should_buffer c; command_queue_high_water
     := command_queue_high_water c; command_queue_low_water := command_queue_low_water c;
     max_attempts := max_attempts c; command_queue := command_queue c; offline_queue :=
     offline_queue c; commands_sent := commands_sent c; connect_timeout := connect_timeout c;
     enable_offline_queue := enable_offline_queue c; retry_max_delay := retry_max_delay c;
     retry_timer := retry_timer c; retry_totaltime := retry_totaltime c; retry_delay := v;
     attempts := attempts c; pub_sub_mode := pub_sub_mode c; subscription_set :=
     subscription_set c; monitoring := monitoring c; closing := closing c; selected_db :=
     selected_db c; old_state := old_state c; send_anyway := send_anyway c; emitted_end :=
     emitted_end c; callback_count := callback_count c; trace := trace c |}.

Definition set_attempts (v : Z) (c : client) : client :=
  {| stream := stream c; detect_buffers := detect_buffers c; address := address c; connected :=
     connected c; ready := ready c; should_buffer := should_buffer c; command_queue_high_water
     := command_queue_high_water c; command_queue_low_water := command_queue_low_water c;
     max_attempts := max_attempts c; command_queue := command_queue c; offline_queue :=
     offline_queue c; commands_sent := commands_sent c; connect_timeout := connect_timeout c;
     enable_offline_queue := enable_offline_queue c; retry_max_delay := retry_max_delay c;
     retry_timer := retry_timer c; retry_totaltime := retry_totaltime c; retry_delay :=
     retry_delay c; attempts := v; pub_sub_mode := pub_sub_mode c; subscription_set :=
     subscription_set c; monitoring := monitoring c; closing := closing c; selected_db :=
     selected_db c; old_state := old_state c; send_anyway := send_anyway c; emitted_end :=
     emitted_end c; callback_count := callback_count c; trace := trace c |}.

Definition set_pub_sub_mode (v : bool) (c : client) : client :=
  {| stream := stream c; detect_buffers := detect_buffers c; address := address c; connected :=
     connected c; ready := ready c; should_buffer := should_buffer c; command_queue_high_water
     := command_queue_high_water c; command_queue_low_water := command_queue_low_water c;
     max_attempts := max_attempts c; command_queue := command_queue c; offline_queue :=
     offline_queue c; commands_sent := commands_sent c; connect_timeout := connect_timeout c;
     enable_offline_queue := enable_offline_queue c; retry_max_delay := retry_max_delay c;
     retry_timer := retry_timer c; retry_totaltime := retry_totaltime c; retry_delay :=
     retry_delay c; attempts := attempts c; pub_sub_mode := v; subscription_set :=
     subscription_set c; monitoring := monitoring c; closing := closing c; selected_db :=
     selected_db c; old_state := old_state c; send_anyway := send_anyway c; emitted_end :=
     emitted_end c; callback_count := callback_count c; trace := trace c |}.

Definition set_subscription_set (v : list string) (c : client) : client :=
  {| stream := stream c; detect_buffers := detect_buffers c; address := address c; connected :=
     connected c; ready := ready c; should_buffer := should_buffer c; command_queue_high_water
     := command_queue_high_water c; command_queue_low_water := command_queue_low_water c;
     max_attempts := max_attempts c; command_queue := command_queue c; offline_queue :=
     offline_queue c; commands_sent := commands_sent c; connect_timeout := connect_timeout c;
     enable_offline_queue := enable_offline_queue c; retry_max_delay := retry_max_delay c;
     retry_timer := retry_timer c; retry_totaltime := retry_totaltime c; retry_delay :=
     retry_delay c; attempts := attempts c; pub_sub_mode := pub_sub_mode c; subscription_set :=
     v; monitoring := monitoring c; closing := closing c; selected_db := selected_db c;
     old_state := old_state c; send_anyway := send_anyway c; emitted_end := emitted_end c;
     callback_count := callback_count c; trace := trace c |}.

Definition set_monitoring (v : bool) (c : client) : client :=
  {| stream := stream c; detect_buffers := detect_buffers c; address := address c; connected :=
     connected c; ready := ready c; should_buffer := should_buffer c; command_queue_high_water
     := command_queue_high_water c; command_queue_low_water := command_queue_low_water c;
     max_attempts := max_attempts c; command_queue := command_queue c; offline_queue :=
     offline_queue c; commands_sent := commands_sent c; connect_timeout := connect_timeout c;
     enable_offline_queue := enable_offline_queue c; retry_max_delay := retry_max_delay c;
     retry_timer := retry_timer c; retry_totaltime := retry_totaltime c; retry_delay :=
     retry_delay c; attempts := attempts c; pub_sub_mode := pub_sub_mode c; subscription_set :=
     subscription_set c; monitoring := v; closing := closing c; selected_db := selected_db c;
     old_state := old_state c; send_anyway := send_anyway c; emitted_end := emitted_end c;
     callback_count := callback_count c; trace := trace c |}.

Definition set_closing (v : bool) (c : client) : client :=
  {| stream := stream c; detect_buffers := detect_buffers c; address := address c; connected :=
     connected c; ready := ready c; should_buffer := should_buffer c; command_queue_high_water
     := command_queue_high_water c; command_queue_low_water := command_queue_low_water c;
     max_attempts := max_attempts c; command_queue := command_queue c; offline_queue :=
     offline_queue c; commands_sent := commands_sent c; connect_timeout := connect_timeout c;
     enable_offline_queue := enable_offline_queue c; retry_max_delay := retry_max_delay c;
     retry_timer := retry_timer c; retry_totaltime := retry_totaltime c; retry_delay :=
     retry_delay c; attempts := attempts c; pub_sub_mode := pub_sub_mode c; subscription_set :=
     subscription_set c; monitoring := monitoring c; closing := v; selected_db := selected_db c;
     old_state := old_state c; send_anyway := send_anyway c; emitted_end := emitted_end c;
     callback_count := callback_count c; trace := trace c |}.

Definition set_selected_db (v : option arg) (c : client) : client :=
  {| stream := stream c; detect_buffers := detect_buffers c; address := address c; connected :=
     connected c; ready := ready c; should_buffer := should_buffer c; command_queue_high_water
     := command_queue_high_water c; command_queue_low_water := command_queue_low_water c;
     max_attempts := max_attempts c; command_queue := command_queue c; offline_queue :=
     offline_queue c; commands_sent := commands_sent c; connect_timeout := connect_timeout c;
     enable_offline_queue := enable_offline_queue c; retry_max_delay := retry_max_delay c;
     retry_timer := retry_timer c; retry_totaltime := retry_totaltime c; retry_delay :=
     retry_delay c; attempts := attempts c; pub_sub_mode := pub_sub_mode c; subscription_set :=
     subscription_set c; monitoring := monitoring c; closing := closing c; selected_db := v;
     old_state := old_state c; send_anyway := send_anyway c; emitted_end := emitted_end c;
     callback_count := callback_count c; trace := trace c |}.

Definition set_old_state (v : option saved_state) (c : client) : client :=
  {| stream := stream c; detect_buffers := detect_buffers c; address := address c; connected :=
     connected c; ready := ready c; should_buffer := should_buffer c; command_queue_high_water
     := command_queue_high_water c; command_queue_low_water := command_queue_low_water c;
     max_attempts := max_attempts c; command_queue := command_queue c; offline_queue :=
     offline_queue c; commands_sent := commands_sent c; connect_timeout := connect_timeout c;
     enable_offline_queue := enable_offline_queue c; retry_max_delay := retry_max_delay c;
     retry_timer := retry_timer c; retry_totaltime := retry_totaltime c; retry_delay :=
     retry_delay c; attempts := attempts c; pub_sub_mode := pub_sub_mode c; subscription_set :=
     subscription_set c; monitoring := monitoring c; closing := closing c; selected_db :=
     selected_db c; old_state := v; send_anyway := send_anyway c; emitted_end := emitted_end c;
     callback_count := callback_count c; trace := trace c |}.

Definition set_send_anyway (v : bool) (c : client) : client :=
  {| stream := stream c; detect_buffers := detect_buffers c; address := address c; connected :=
     connected c; ready := ready c; should_buffer := should_buffer c; command_queue_high_water
     := command_queue_high_water c; command_queue_low_water := command_queue_low_water c;
     max_attempts := max_attempts c; command_queue := command_queue c; offline_queue :=
     offline_queue c; commands_sent := commands_sent c; connect_timeout := connect_timeout c;
     enable_offline_queue := enable_offline_queue c; retry_max_delay := retry_max_delay c;
     retry_timer := retry_timer c; retry_totaltime := retry_totaltime c; retry_delay :=
     retry_delay c; attempts := attempts c; pub_sub_mode := pub_sub_mode c; subscription_set :=
     subscription_set c; monitoring := monitoring c; closing := closing c; selected_db :=
     selected_db c; old_state := old_state c; send_anyway := v; emitted_end := emitted_end c;
     callback_count := callback_count c; trace := trace c |}.

Definition set_emitted_end (v : bool) (c : client) : client :=
  {| stream := stream c; detect_buffers := detect_buffers c; address := address c; connected :=
     connected c; ready := ready c; should_buffer := should_buffer c; command_queue_high_water
     := command_queue_high_water c; command_queue_low_water := command_queue_low_water c;
     max_attempts := max_attempts c; command_queue := command_queue c; offline_queue :=
     offline_queue c; commands_sent := commands_sent c; connect_timeout := connect_timeout c;
     enable_offline_queue := enable_offline_queue c; retry_max_delay := retry_max_delay c;
     retry_timer := retry_timer c; retry_totaltime := retry_totaltime c; retry_delay :=
     retry_delay c; attempts := attempts c; pub_sub_mode := pub_sub_mode c; subscription_set :=
     subscription_set c; monitoring := monitoring c; closing := closing c; selected_db :=
     selected_db c; old_state := old_state c; send_anyway := send_anyway c; emitted_end := v;
     callback_count := callback_count c; trace := trace c |}.

Definition set_callback_count (v : list Z) (c : client) : client :=
  {| stream := stream c; detect_buffers := detect_buffers c; address := address c; connected :=
     connected c; ready := ready c; should_buffer := should_buffer c; command_queue_high_water
     := command_queue_high_water c; command_queue_low_water := command_queue_low_water c;
     max_attempts := max_attempts c; command_queue := command_queue c; offline_queue :=
     offline_queue c; commands_sent := commands_sent c; connect_timeout := connect_timeout c;
     enable_offline_queue := enable_offline_queue c; retry_max_delay := retry_max_delay c;
     retry_timer := retry_timer c; retry_totaltime := retry_totaltime c; retry_delay :=
     retry_delay c; attempts := attempts c; pub_sub_mode := pub_sub_mode c; subscription_set :=
     subscription_set c; monitoring := monitoring c; closing := closing c; selected_db :=
     selected_db c; old_state := old_state c; send_anyway := send_anyway c; emitted_end :=
     emitted_end c; callback_count := v; trace := trace c |}.

Definition set_trace (v : list event) (c : client) : client :=
  {| stream := stream c; detect_buffers := detect_buffers c; address := address c; connected :=
     connected c; ready := ready c; should_buffer := should_buffer c; command_queue_high_water
     := command_queue_high_water c; command_queue_low_water := command_queue_low_water c;
     max_attempts := max_attempts c; command_queue := command_queue c; offline_queue :=
     offline_queue c; commands_sent := commands_sent c; connect_timeout := connect_timeout c;
     enable_offline_queue := enable_offline_queue c; retry_max_delay := retry_max_delay c;
     retry_timer := retry_timer c; retry_totaltime := retry_totaltime c; retry_delay :=
     retry_delay c; attempts := attempts c; pub_sub_mode := pub_sub_mode c; subscription_set :=
     subscription_set c; monitoring := monitoring c; closing := closing c; selected_db :=
     selected_db c; old_state := old_state c; send_anyway := send_anyway c; emitted_end :=
     emitted_end c; callback_count := callback_count c; trace := v |}.

(** The result of an operation that can raise. *)
Inductive outcome :=
| Return (c : client)
| Throw (e : error) (c : client).

Definition state_of (o : outcome) : client :=
  match o with Return c => c | Throw _ c => c end.

(** ** Construction *)

Record options := {
  opt_detect_buffers : bool;
  opt_command_queue_high_water : option Z;
  opt_command_queue_low_water : option Z;
  opt_max_attempts : option Z;
  opt_connect_timeout : option Z;
  opt_enable_offline_queue : option bool;
  opt_retry_max_delay : option Z
}.

Definition default_options : options :=
  {| opt_detect_buffers := false; opt_command_queue_high_water := None;
     opt_command_queue_low_water := None; opt_max_attempts := None;
     opt_connect_timeout := None; opt_enable_offline_queue := None;
     opt_retry_max_delay := None |}.

(** [o || d] on an optional number *)
Definition or_default (o : option Z) (d : Z) : Z :=
  match o with
  | Some v => if v =? 0 then d else v
  | None => d
  end.

(** [o && o > 0] as the guard of an assignment *)
Definition if_positive (o : option Z) : option Z :=
  match o with
  | Some v => if 0 <? v then Some v else None
  | None => None
  end.

(** [new RedisClient(stream, options)], with [initialize_retry_vars]
    inlined, and the [address] that [createClient] assigns. *)
Definition RedisClient (s : Stream) (o : options) (addr : string) : client :=
  {| stream := s;
     detect_buffers := opt_detect_buffers o;
     address := addr;
     connected := false;
     ready := false;
     should_buffer := false;
     command_queue_high_water := or_default (opt_command_queue_high_water o) 1000;
     command_queue_low_water := or_default (opt_command_queue_low_water o) 0;
     max_attempts := if_positive (opt_max_attempts o);
     command_queue := Queue.empty;
     offline_queue := Queue.empty;
     commands_sent := 0;
     connect_timeout := or_default (opt_connect_timeout o) 86400000;
     enable_offline_queue :=
       match opt_enable_offline_queue o with Some false => false | _ => true end;
     retry_max_delay := if_positive (opt_retry_max_delay o);
     retry_timer := None;
     retry_totaltime := 0;
     retry_delay := 200;
     attempts := 1;
     pub_sub_mode := false;
     subscription_set := [];
     monitoring := false;
     closing := false;
     selected_db := None;
     old_state := None;
     send_anyway := false;
     emitted_end := false;
     callback_count := [];
     trace := [] |}.

(** [initialize_retry_vars] *)
Definition initialize_retry_vars (c : client) : client :=
  set_attempts 1 (set_retry_delay 200 (set_retry_totaltime 0 (set_retry_timer None c))).

(** ** Events and callbacks *)

Definition emit (e : event) (c : client) : client :=
  set_trace (trace c ++ [e]) c.

(** The body of a callback.  [CbSelect db user] is the closure that
    [select] passes to [send_command]; [CbResubscribe n] is the closure
    of [on_ready] that counts down the n-th [callback_count]. *)
Definition run_callback (cb : callback) (err : option error) (res : value)
    (c : client) : client :=
  match cb with
  | CbUser _ => c
  | CbSelect db user =>
      let c := match err with
               | None => set_selected_db (Some db) c
               | Some _ => c
               end in
      match user with
      | Some f => emit (Called_by_select f err res) c
      | None => match err with
                | Some e => emit (Emit_error e) c
                | None => c
                end
      end
  | CbResubscribe n =>
      let count := nth n (callback_count c) 0 - 1 in
      let c := set_callback_count (<[n := count]> (callback_count c)) c in
      if count =? 0 then emit Emit_ready c else c
  end.

(** A call of the callback of a command record. *)
Definition invoke (cb : callback) (err : option error) (res : value)
    (c : client) : client :=
  run_callback cb err res (emit (Called cb err res) c).

Definition invoke_if (cb : option callback) (err : option error) (res : value)
    (c : client) : client :=
  match cb with
  | Some f => invoke f err res c
  | None => c
  end.

(** ** The transport *)

(** [stream.write(chunk)] *)
Definition stream_write (chunk : string) (c : client) : bool * client :=
  let s := stream c in
  (accepts s (List.length (written s)),
   set_stream {| writable := writable s; accepts := accepts s;
                 written := written s ++ [chunk] |} c).

(** Writes the chunks in order and counts the writes that were
    buffered. *)
Fixpoint write_all (chunks : list string) (buffered_writes : Z) (c : client)
  : Z * client :=
  match chunks with
  | [] => (buffered_writes, c)
  | chunk :: rest =>
      let (ok, c) := stream_write chunk c in
      write_all rest (buffered_writes + (if ok then 0 else 1)) c
  end.

(** The listener installed on the stream's [drain] event. *)
Definition on_stream_drain (c : client) : client :=
  emit Emit_drain (set_should_buffer false c).

(** ** flush_and_error *)

Fixpoint flush_offline_queue (fuel : nat) (e : error) (c : client) : client :=
  match fuel with
  | O => c
  | S fuel' =>
      match Queue.shift (offline_queue c) with
      | (Some command_obj, q) =>
          let c := set_offline_queue q c in
          flush_offline_queue fuel' e (invoke_if (callback_of command_obj) (Some e) undefined c)
      | (None, _) => c
      end
  end.

Fixpoint flush_command_queue (fuel : nat) (e : error) (c : client) : client :=
  match fuel with
  | O => c
  | S fuel' =>
      match Queue.shift (command_queue c) with
      | (Some command_obj, q) =>
          let c := set_command_queue q c in
          flush_command_queue fuel' e (invoke_if (callback_of command_obj) (Some e) undefined c)
      | (None, _) => c
      end
  end.

(** Each loop runs while its queue is not empty; as a callback cannot
    add to a queue, the length of the queue bounds the iterations. *)
Definition flush_and_error (msg : string) (c : client) : client :=
  let e := new_Error msg in
  let c := flush_offline_queue (List.length (offline_queue c)) e c in
  let c := set_offline_queue Queue.empty c in
  let c := flush_command_queue (List.length (command_queue c)) e c in
  set_command_queue Queue.empty c.

(** ** connection_gone and the retry timer *)

(** [n / 2^s] rounded to the nearest integer, a tie to the even
    one. *)
Definition round_half_even (n s : Z) : Z :=
  let q := n / 2 ^ s in
  let r := n mod 2 ^ s in
  let half := 2 ^ (s - 1) in
  if r <? half then q
  else if half <? r then q + 1
  else if Z.even q then q else q + 1.

Definition infinity : Z := 2 ^ 1024.

(** [Math.floor] of the double nearest to [n / 2^p], for [n] that is
    not negative: below [2^53] the quotient is a double as it is, above
    the 53 leading bits are kept and the rest is rounded. *)
Definition double_floor (n p : Z) : Z :=
  if n <? 2 ^ 53 then n / 2 ^ p
  else
    let s := Z.log2 n - 52 in
    let v := round_half_even n s * 2 ^ s in
    if 2 ^ (1024 + p) <=? v then infinity else v / 2 ^ p.

(** [retry_backoff = 1.7]: the double nearest to 1.7 is
    [7656119366529843 / 2^52]. *)
Definition retry_backoff : Z := 7656119366529843.

(** [Math.floor(retry_delay * retry_backoff)] *)
Definition next_delay (retry_delay : Z) : Z :=
  double_floor (retry_delay * retry_backoff) 52.

(** [a + b] on doubles that hold integers *)
Definition js_add (a b : Z) : Z := double_floor (a + b) 0.

(** The delay that [setTimeout] uses for [d]: 1 ms when [d] is below
    1 or above [2^31 - 1]. *)
Definition timer_delay (d : Z) : Z :=
  if (d <? 1) || (2147483647 <? d) then 1 else d.

(** The snapshot of the modal state, taken unless one is still held. *)
Definition save_state (c : client) : client :=
  match old_state c with
  | None =>
      let state := {| saved_monitoring := monitoring c;
                      saved_pub_sub_mode := pub_sub_mode c;
                      saved_selected_db := selected_db c |} in
      set_selected_db None
        (set_pub_sub_mode false (set_monitoring false (set_old_state (Some state) c)))
  | Some _ => c
  end.

(** [end] is emitted once for the collapsed [end] and [close]. *)
Definition emit_end_once (c : client) : client :=
  if emitted_end c then c else set_emitted_end true (emit Emit_end c).

(** The last part of [connection_gone]: no retry on a requested
    shutdown, else the next delay, the check of [max_attempts], the
    [reconnecting] event and the timer. *)
Definition schedule_retry (c : client) : client :=
  if closing c then set_retry_timer None c
  else
    let nextDelay := next_delay (retry_delay c) in
    let c :=
      match retry_max_delay c with
      | Some m => if m <? nextDelay then set_retry_delay m c else set_retry_delay nextDelay c
      | None => set_retry_delay nextDelay c
      end in
    if match max_attempts c with
       | Some m => negb (m =? 0) && (m <=? attempts c)
       | None => false
       end
    then
      emit (Emit_error (new_Error
        "Redis connection in broken state: maximum connection attempts exceeded."))
        (set_retry_timer None c)
    else
      let c := set_attempts (attempts c + 1) c in
      let c := emit (Emit_reconnecting (retry_delay c) (attempts c)) c in
      set_retry_timer (Some (timer_delay (retry_delay c))) c.

Definition connection_gone (why : string) (c : client) : client :=
  match retry_timer c with
  | Some _ => c
  | None =>
      schedule_retry
        (flush_and_error ("Redis connection gone from " +:+ why +:+ " event.")
           (emit_end_once (save_state (set_ready false (set_connected false c)))))
  end.

(** The function passed to [setTimeout].  [fresh] is the stream that
    [net.createConnection] returns.  In the timeout branch the function
    calls [this.emit], where [this] is the timer and not the client:
    the call raises. *)
Definition retry_timer_fired (fresh : Stream) (c : client) : outcome :=
  let c := set_retry_totaltime (js_add (retry_totaltime c) (retry_delay c)) c in
  if negb (connect_timeout c =? 0) && (connect_timeout c <=? retry_totaltime c)
  then Throw TypeError (set_retry_timer None c)
  else Return (set_retry_timer None (set_stream fresh c)).

(** [on_error], which the stream's [error] listener calls with the
    message of the error. *)
Definition on_error (msg : string) (c : client) : client :=
  if closing c then c
  else
    let message := "Redis connection to " +:+ address c +:+ " failed - " +:+ msg in
    let c := flush_and_error message c in
    let c := set_ready false (set_connected false c) in
    let c := emit (Emit_error (new_Error message)) c in
    connection_gone "error" c.

Section Dispatch.

Variable h : host.

(** ** return_error *)

(** The lines that [return_error] and [return_reply] share once the
    head of the queue was taken: [idle] when the queue ran empty
    outside pub/sub mode, [drain] when backpressure ends. *)
Definition after_shift (queue_len : Z) (c : client) : client :=
  let c := if negb (pub_sub_mode c) && (queue_len =? 0)
           then emit Emit_idle (set_command_queue Queue.empty c) else c in
  if should_buffer c && (queue_len <=? command_queue_low_water c)
  then set_should_buffer false (emit Emit_drain c) else c.

(** Reading [command_obj.command] raises when the queue was empty and
    [shift] returned [undefined]. *)
Definition return_error (err : error) (c : client) : outcome :=
  let (popped, q) := Queue.shift (command_queue c) in
  let c := set_command_queue q c in
  let queue_len := Queue.length (command_queue c) in
  match popped with
  | None => Throw TypeError c
  | Some command_obj =>
      let err := {| message := message err;
                    command_used := Some (toUpperCase h (command command_obj)) |} in
      let c := after_shift queue_len c in
      match callback_of command_obj with
      | Some cb => Return (invoke cb (Some err) undefined c)
      | None => Return (emit (Emit_error err) c)
      end
  end.

(** ** reply_to_object, reply_to_strings *)

(** The loop of [reply_to_object]; [None] when a key has no
    [toString('binary')] or an assignment is refused.  An array of odd
    length pairs its last key with [undefined]. *)
Fixpoint fill_object (l : list reply) (obj : object) : option object :=
  match l with
  | [] => Some obj
  | k :: rest =>
      match reply_toString_binary h k with
      | None => None
      | Some key =>
          match rest with
          | [] => object_set h key RUndef obj
          | val :: rest' =>
              match object_set h key val obj with
              | Some obj => fill_object rest' obj
              | None => None
              end
          end
      end
  end.

(** [None] stands for a raised [TypeError] or [RangeError]. *)
Definition reply_to_object (r : reply) : option value :=
  match r with
  | RUndef | RNull => None
  | RArr [] => Some (VReply RNull)
  | RArr l =>
      match fill_object l empty_object with
      | Some obj => Some (VObject obj)
      | None => None
      end
  | _ => Some (VReply RNull)
  end.

Definition reply_to_strings (r : reply) : reply :=
  match r with
  | RBuf b => RStr (buffer_toString h b)
  | RArr l =>
      RArr (List.map (fun x => match x with
                               | RUndef | RNull => x
                               | _ => RStr (reply_String h x)
                               end) l)
  | _ => r
  end.

(** ** return_reply *)

(** The [type] that the first lines of [return_reply] compute;
    [None] when it stays [undefined]. *)
Definition pushed_type (c : client) (r : reply) : option string :=
  match r with
  | RArr (first :: _) =>
      if pub_sub_mode c && truthy first then reply_toString h first else None
  | _ => None
  end.

Definition is_type (t : option string) (s : string) : bool :=
  match t with
  | Some t' => String.eqb t' s
  | None => false
  end.

(** The coercion of a reply to strings under [detect_buffers]. *)
Definition coerce (detect : bool) (command_obj : Command) (r : reply) : reply :=
  if detect && negb (buffer_args command_obj)
     && negb (String.eqb "exec" (command command_obj))
  then reply_to_strings r else r.

(** What the callback of [command_obj] is given for the reply [r];
    [None] when [reply_to_object] raises. *)
Definition convert (detect : bool) (command_obj : Command) (r : reply) : option value :=
  let r := coerce detect command_obj r in
  if truthy r && String.eqb "hgetall" (command command_obj)
  then reply_to_object r
  else Some (VReply r).

(** The branch for a command that is not a subscription command. *)
Definition deliver (command_obj : Command) (r : reply) (c : client) : outcome :=
  match callback_of command_obj with
  | Some cb =>
      match convert (detect_buffers c) command_obj r with
      | Some v => Return (invoke cb None v c)
      | None => Throw TypeError c
      end
  | None => Return c
  end.

Definition is_subscription_type (t : string) : bool :=
  String.eqb t "subscribe" || String.eqb t "unsubscribe"
  || String.eqb t "psubscribe" || String.eqb t "punsubscribe".

(** The branch taken in pub/sub mode or for a subscription command. *)
Definition pub_sub_reply (popped : option Command) (r : reply) (c : client) : outcome :=
  match r with
  | RArr l =>
      match reply_toString h (at_index l 0) with
      | None => Throw TypeError c
      | Some type =>
          if String.eqb type "message" then
            match reply_toString h (at_index l 1) with
            | Some channel => Return (emit (Emit_message channel (at_index l 2)) c)
            | None => Throw TypeError c
            end
          else if String.eqb type "pmessage" then
            match reply_toString h (at_index l 1), reply_toString h (at_index l 2) with
            | Some pattern, Some channel =>
                Return (emit (Emit_pmessage pattern channel (at_index l 3)) c)
            | _, _ => Throw TypeError c
            end
          else if is_subscription_type type then
            let c := match at_index l 2 with
                     | RInt 0 => set_pub_sub_mode false c
                     | _ => set_pub_sub_mode true c
                     end in
            match (match at_index l 1 with
                   | RNull => Some RNull
                   | x => option_map RStr (reply_toString h x)
                   end) with
            | None => Throw TypeError c
            | Some reply1String =>
                let c := match popped with
                         | Some command_obj =>
                             invoke_if (callback_of command_obj) None (VReply reply1String) c
                         | None => c
                         end in
                Return (emit (Emit_subscription type reply1String (at_index l 2)) c)
            end
          else
            Return (emit (Emit_error (new_Error
              ("subscriptions are active but got unknown reply type " +:+ type))) c)
      end
  | _ =>
      if closing c then Return c
      else Return (emit (Emit_error (new_Error
             ("subscriptions are active but got an invalid reply: " +:+ reply_String h r))) c)
  end.

(** The branch for a reply in monitoring mode; only a string has
    [indexOf], [slice] and a [slice] with [split]. *)
Definition monitor_reply (r : reply) (c : client) : outcome :=
  match r with
  | RStr s =>
      let len := indexOf " " s in
      let timestamp := slice s 0 len in
      let argindex := indexOf (String dquote "") s in
      let margs := List.map (replace_all (String backslash (String dquote ""))
                                         (String dquote ""))
                     (split (String dquote (String " " (String dquote "")))
                            (slice s (argindex + 1) (-1))) in
      Return (emit (Emit_monitor timestamp margs) c)
  | _ => Throw TypeError c
  end.

(** The head of the pending queue is taken unless the reply is a
    message pushed in pub/sub mode. *)
Definition take_head (r : reply) (c : client) : option Command * client :=
  let type := pushed_type c r in
  if pub_sub_mode c && (is_type type "message" || is_type type "pmessage")
  then (None, c)
  else let (o, q) := Queue.shift (command_queue c) in (o, set_command_queue q c).

(** The chain of branches at the end of [return_reply]. *)
Definition dispatch (popped : option Command) (r : reply) (c : client) : outcome :=
  match popped with
  | Some command_obj =>
      if negb (sub_command command_obj) then deliver command_obj r c
      else pub_sub_reply popped r c
  | None =>
      if pub_sub_mode c then pub_sub_reply popped r c
      else if monitoring c then monitor_reply r c
      else Return (emit (Emit_error (new_Error
             "node_redis command queue state error. If you can reproduce this, please report it.")) c)
  end.

Definition return_reply (r : reply) (c : client) : outcome :=
  let (popped, c) := take_head r c in
  dispatch popped r (after_shift (Queue.length (command_queue c)) c).

(** ** send_command *)

(** [subscription_set[key] = true]: a key that is present keeps its
    place. *)
Definition set_add (key : string) (s : list string) : list string :=
  if existsb (String.eqb key) s then s else s ++ [key].

(** [delete subscription_set[key]] *)
Definition set_delete (key : string) (s : list string) : list string :=
  List.filter (fun k => negb (String.eqb key k)) s.

Definition is_subscribe_family (cmd : string) : bool :=
  String.eqb cmd "subscribe" || String.eqb cmd "psubscribe"
  || String.eqb cmd "unsubscribe" || String.eqb cmd "punsubscribe".

(** [pub_sub_command]; the record with [sub_command] set is returned
    with the client. *)
Definition pub_sub_command (command_obj : Command) (c : client) : Command * client :=
  let c := set_pub_sub_mode true c in
  let command_obj := {| command := command command_obj; args := args command_obj;
                        sub_command := true; buffer_args := buffer_args command_obj;
                        callback_of := callback_of command_obj |} in
  let cmd := command command_obj in
  let keys key := List.map (fun a => key +:+ " " +:+ js_String h a) (args command_obj) in
  let s :=
    if String.eqb cmd "subscribe" || String.eqb cmd "psubscribe" then
      let key := if String.eqb cmd "subscribe" then "sub" else "psub" in
      fold_left (fun s k => set_add k s) (keys key) (subscription_set c)
    else
      let key := if String.eqb cmd "unsubscribe" then "sub" else "psub" in
      fold_left (fun s k => set_delete k s) (keys key) (subscription_set c) in
  (command_obj, set_subscription_set s c).

(** One argument in the multi-bulk framing. *)
Definition bulk (s : string) : string :=
  "$" +:+ pretty (Z.of_nat (String.length s)) +:+ CRLF +:+ s +:+ CRLF.

Definition command_header (cmd : string) (elem_count : nat) : string :=
  "*" +:+ pretty (Z.of_nat elem_count) +:+ CRLF +:+ "$"
      +:+ pretty (Z.of_nat (js_length cmd)) +:+ CRLF +:+ cmd +:+ CRLF.

(** The chunks that [send_command] passes to [stream.write], in
    order: a single one unless an argument is a Buffer. *)
Definition encode (cmd : string) (args : list arg) (buffer_args : bool) : list string :=
  let command_str := command_header cmd (List.length args + 1) in
  if negb buffer_args then
    [fold_left (fun s a => s +:+ bulk (js_String h a)) args command_str]
  else
    command_str ::
    List.concat (List.map (fun a =>
      match a with
      | ABuf b =>
          if (String.length b =? 0)%nat then ["$0" +:+ CRLF +:+ CRLF]
          else ["$" +:+ pretty (Z.of_nat (String.length b)) +:+ CRLF; b; CRLF]
      | _ => [bulk (js_String h a)]
      end) args).

Definition last_arg (args : list arg) : arg := List.last args AUndef.

Definition subscriber_mode_error : error :=
  new_Error "Connection in subscriber mode, only subscriber commands may be used".

Definition not_writeable_error : error :=
  new_Error "send_command: stream not writeable. enable_offline_queue is false".

(** The first lines of [send_command]: the argument list and the
    callback after a trailing function was taken for the callback and a
    trailing array of [sadd] or [srem] was spliced in. *)
Definition normalize (cmd : string) (args : option (list arg))
    (cb : option callback) : list arg * option callback :=
  let '(args, callback) :=
    match args with
    | None => ([], cb)
    | Some args =>
        match cb, last_arg args with
        | None, AFun f => (removelast args, Some (CbUser f))
        | _, _ => (args, cb)
        end
    end in
  let args :=
    if (String.eqb cmd "sadd" || String.eqb cmd "srem")
    then match last_arg args with
         | AArr l => removelast args ++ l
         | _ => args
         end
    else args in
  (args, callback).

(** The check of [set] and [setex]: [Some None] for the silent
    return on an empty argument list, [Some (Some err)] for the error on
    a missing value. *)
Definition validate (cmd : string) (args : list arg) : option (option error) :=
  if String.eqb cmd "set" || String.eqb cmd "setex" then
    match args with
    | [] => Some None
    | _ => match last_arg args with
           | AUndef | ANull =>
               Some (Some (new_Error ("send_command: " +:+ cmd
                             +:+ " value must not be undefined or null")))
           | _ => None
           end
    end
  else None.

(** The branch for a client that is not ready or a stream that is not
    writable. *)
Definition hold_back (command_obj : Command) (c : client) : returned * client :=
  if enable_offline_queue c then
    (Bool false,
     set_should_buffer true
       (set_offline_queue (Queue.push command_obj (offline_queue c)) c))
  else
    match callback_of command_obj with
    | Some cb => (Bool false, invoke cb (Some not_writeable_error) undefined c)
    | None => (Undefined, emit (Emit_error not_writeable_error) c)
    end.

(** The modal routing; [None] for a command refused in pub/sub
    mode. *)
Definition route (command_obj : Command) (c : client) : option (Command * client) :=
  let cmd := command command_obj in
  if is_subscribe_family cmd then Some (pub_sub_command command_obj c)
  else if String.eqb cmd "monitor" then Some (command_obj, set_monitoring true c)
  else if String.eqb cmd "quit" then Some (command_obj, set_closing true c)
  else if pub_sub_mode c then None
  else Some (command_obj, c).

(** The command goes onto the pending queue and onto the wire. *)
Definition transmit (command_obj : Command) (c : client) : returned * client :=
  let c := set_command_queue (Queue.push command_obj (command_queue c)) c in
  let c := set_commands_sent (commands_sent c + 1) c in
  let (buffered_writes, c) :=
    write_all (encode (command command_obj) (args command_obj) (buffer_args command_obj))
      0 c in
  let c :=
    if negb (buffered_writes =? 0)
       || (command_queue_high_water c <=? Queue.length (command_queue c))
    then set_should_buffer true c else c in
  (Bool (negb (should_buffer c)), c).

(** [send_command(command, args, callback)].  A missing value of
    [set] or [setex] ends in [return callback && callback(err)], which
    hands on what the callback returns. *)
Definition send_command (cmd : string) (args : option (list arg))
    (callback : option callback) (c : client) : returned * client :=
  let '(args, callback) := normalize cmd args callback in
  match validate cmd args with
  | Some None => (Undefined, c)
  | Some (Some err) =>
      match callback with
      | Some cb => (callback_result cb, invoke cb (Some err) undefined c)
      | None => (Undefined, emit (Emit_error err) c)
      end
  | None =>
      let command_obj := {| command := cmd; args := args; sub_command := false;
                            buffer_args := existsb isBuffer args;
                            callback_of := callback |} in
      if (negb (ready c) && negb (send_anyway c)) || negb (writable (stream c))
      then hold_back command_obj c
      else
        match route command_obj c with
        | None => (Undefined, emit (Emit_error subscriber_mode_error) c)
        | Some (command_obj, c) => transmit command_obj c
        end
  end.

(** [!result] *)
Definition js_not (r : returned) : bool :=
  match r with
  | Undefined => true
  | Bool b => negb b
  | Returned_by f => negb (returns_truthy h f)
  end.

(** ** send_offline_queue, on_ready, select *)

(** The loop of [send_offline_queue].  A command that [send_command]
    puts back on the offline queue keeps the loop running, so the loop
    takes fuel; [None] when the fuel runs out. *)
Fixpoint send_offline_loop (fuel : nat) (buffered_writes : Z) (c : client)
  : option (Z * client) :=
  match Queue.shift (offline_queue c) with
  | (None, _) => Some (buffered_writes, c)
  | (Some command_obj, q) =>
      match fuel with
      | O => None
      | S fuel' =>
          let c := set_offline_queue q c in
          let (r, c) := send_command (command command_obj) (Some (args command_obj))
                          (callback_of command_obj) c in
          send_offline_loop fuel' (buffered_writes + (if js_not r then 1 else 0)) c
      end
  end.

Definition send_offline_queue (fuel : nat) (c : client) : option client :=
  match send_offline_loop fuel 0 c with
  | None => None
  | Some (buffered_writes, c) =>
      let c := set_offline_queue Queue.empty c in
      if buffered_writes =? 0 then Some (emit Emit_drain (set_should_buffer false c))
      else Some c
  end.

(** One step of the [forEach] of [on_ready] over the keys of
    [subscription_set]; [n] names the [callback_count] of this call of
    [on_ready]. *)
Definition resubscribe (n : nat) (c : client) (key : string) : client :=
  let parts := split " " key in
  let c := set_callback_count
             (<[n := nth n (callback_count c) 0 + 1]> (callback_count c)) c in
  snd (send_command (nth 0 parts "undefined" +:+ "scribe")
         (Some [match parts with
                | _ :: channel :: _ => AStr channel
                | _ => AUndef
                end])
         (Some (CbResubscribe n)) c).

(** The modal state of the lost connection is taken back. *)
Definition restore_state (c : client) : client :=
  match old_state c with
  | Some s =>
      set_old_state None
        (set_selected_db (saved_selected_db s)
           (set_pub_sub_mode (saved_pub_sub_mode s)
              (set_monitoring (saved_monitoring s) c)))
  | None => c
  end.

(** [select] is sent with [pub_sub_mode] switched off for the call. *)
Definition reselect (c : client) : client :=
  match selected_db c with
  | Some db =>
      let pub_sub_mode' := pub_sub_mode c in
      let c := set_pub_sub_mode false c in
      let c := snd (send_command "select" (Some [db]) None c) in
      set_pub_sub_mode pub_sub_mode' c
  | None => c
  end.

(** The subscriptions are made again, counted by a new
    [callback_count]. *)
Definition resubscribe_all (c : client) : client :=
  let n := List.length (callback_count c) in
  let c := set_callback_count (callback_count c ++ [0]) c in
  fold_left (resubscribe n) (subscription_set c) c.

Definition on_ready (fuel : nat) (c : client) : option client :=
  let c := reselect (restore_state (set_ready true c)) in
  if pub_sub_mode c then Some (resubscribe_all c)
  else
    match (if monitoring c then Some (snd (send_command "monitor" (Some []) None c))
           else send_offline_queue fuel c) with
    | Some c => Some (emit Emit_ready c)
    | None => None
    end.

(** [select(db, callback)] *)
Definition select (db : arg) (callback : option nat) (c : client) : client :=
  snd (send_command "select" (Some [db]) (Some (CbSelect db callback)) c).

End Dispatch.

(** ** Runs and observations *)

Definition is_call (e : event) : bool :=
  match e with Called _ _ _ => true | _ => false end.

(** The calls of command callbacks recorded in a trace. *)
Definition calls (t : list event) : list event := List.filter is_call t.

Definition is_drain (e : event) : bool :=
  match e with Emit_drain => true | _ => false end.

(** The number of [drain] events in a trace. *)
Definition drains (t : list event) : nat := List.length (List.filter is_drain t).

Definition is_ready (e : event) : bool :=
  match e with Emit_ready => true | _ => false end.

(** Events that [after_shift] emits. *)
Definition housekeeping (e : event) : Prop := e = Emit_idle \/ e = Emit_drain.

(** The callbacks held by the records of a queue, in order. *)
Definition callbacks (q : Queue.t) : list callback := omap callback_of q.

(** One call of [send_command]. *)
Record call := {
  call_command : string;
  call_args : option (list arg);
  call_callback : option callback
}.

Definition submit (h : host) (s : call) (c : client) : returned * client :=
  send_command h (call_command s) (call_args s) (call_callback s) c.

(** The record that [send_command] builds for a call that is not a
    subscription command. *)
Definition record_of (s : call) : Command :=
  let '(args, callback) := normalize (call_command s) (call_args s) (call_callback s) in
  {| command := call_command s; args := args; sub_command := false;
     buffer_args := existsb isBuffer args; callback_of := callback |}.







(** The error as [return_error] hands it on: with the upper-cased
    name of the command. *)
Definition stamped (h : host) (co : Command) (e : error) : error :=
  {| message := message e; command_used := Some (toUpperCase h (command co)) |}.











(** Whether a write between the states [s] and [s'] of the stream was
    buffered. *)
Definition buffered_between (s s' : Stream) : bool :=
  existsb (fun i => negb (accepts s i))
    (seq (List.length (written s)) (List.length (written s') - List.length (written s))).

(** *** The backoff *)

Definition cap (max : option Z) (d : Z) : Z :=
  match max with
  | Some m => if m <? d then m else d
  | None => d
  end.

(** The delay after [k] losses in a row: 200, then
    [Math.floor(1.7 * d)] of the one before, capped. *)
Fixpoint nth_delay (max : option Z) (k : nat) : Z :=
  match k with
  | O => 200
  | S k' => cap max (next_delay (nth_delay max k'))
  end.

(** The time that the first [k] timers have added up. *)
Fixpoint total_delay (max : option Z) (k : nat) : Z :=
  match k with
  | O => 0
  | S k' => js_add (total_delay max k') (nth_delay max k)
  end.

(** The delay of the k-th reconnect as section 8 of the specification
    words it: min(200 * 1.7^(k-1), retry_max_delay), rounded down. *)
Definition spec_delay (max : option Z) (k : nat) : Z :=
  cap max (200 * 17 ^ (Z.of_nat k - 1) / 10 ^ (Z.of_nat k - 1)).

(** [k] losses of the connection in a row: after each but the last the
    timer fires and installs the stream [fresh], which is lost again. *)
Fixpoint reconnect_rounds (fresh : Stream) (why : string) (k : nat) (c : client)
  : outcome :=
  match k with
  | O => Return c
  | S k' =>
      match k' with
      | O => Return (connection_gone why c)
      | S _ =>
          match reconnect_rounds fresh why k' c with
          | Return c1 =>
              match retry_timer_fired fresh c1 with
              | Return c2 => Return (connection_gone why c2)
              | Throw e c2 => Throw e c2
              end
          | Throw e c1 => Throw e c1
          end
      end
  end.

(** *** Concrete clients *)

(** A host for text that is ASCII throughout. *)
Definition ascii_host : host :=
  {| utf8_decode := fun s => s;
     upper_unicode := fun s => s;
     function_text := fun _ => "function () {}";
     number_text := fun n => pretty n;
     returns_truthy := fun _ => false;
     inherited_assign := fun _ _ => Assign |}.

Definition open_stream : Stream :=
  {| writable := true; accepts := fun _ => true; written := [] |}.

Definition new_client : client :=
  RedisClient open_stream default_options "127.0.0.1:6379".

(** The client once connected and ready. *)
Definition ready_client : client := set_ready true (set_connected true new_client).

(** A ready client with a subscription to [ch1]. *)
Definition subscribed_client : client :=
  set_subscription_set ["sub ch1"] (set_pub_sub_mode true ready_client).

Definition get_foo (f : nat) : Command :=
  {| command := "get"; args := [AStr "foo"]; sub_command := false;
     buffer_args := false; callback_of := Some (CbUser f) |}.

(** A client that waits for its retry timer while a command sits in
    the offline queue. *)
Definition waiting_client : client :=
  set_offline_queue [get_foo 1]
    (set_retry_timer (Some 340) (set_retry_delay 340 (set_attempts 2 new_client))).

(** A client that lost a connection on which db 2 was selected and
    [ch1] subscribed, connected again. *)
Definition reconnected_client : client :=
  set_old_state (Some {| saved_monitoring := false; saved_pub_sub_mode := true;
                         saved_selected_db := Some (ANum 2) |})
    (set_subscription_set ["sub ch1"] (set_connected true new_client)).


(** *** Frames *)

(** The calls that flushing the queue [q] with the error [e] makes. *)
Definition error_calls (e : error) (q : Queue.t) : list event :=
  List.map (fun cb => Called cb (Some e) undefined) (callbacks q).

(** The fields that a callback cannot reach. *)
Definition same_pipeline (c c' : client) : Prop :=
  command_queue c' = command_queue c /\ offline_queue c' = offline_queue c
  /\ pub_sub_mode c' = pub_sub_mode c /\ should_buffer c' = should_buffer c
  /\ stream c' = stream c /\ detect_buffers c' = detect_buffers c
  /\ closing c' = closing c /\ monitoring c' = monitoring c
  /\ command_queue_low_water c' = command_queue_low_water c
  /\ command_queue_high_water c' = command_queue_high_water c.

(** The retry variables are out of its reach as well. *)
Definition same_retry (c c' : client) : Prop :=
  retry_timer c' = retry_timer c /\ retry_delay c' = retry_delay c
  /\ retry_totaltime c' = retry_totaltime c /\ attempts c' = attempts c
  /\ retry_max_delay c' = retry_max_delay c /\ max_attempts c' = max_attempts c
  /\ connect_timeout c' = connect_timeout c.

(** [connection_gone] up to the point where the queues are flushed. *)
Definition before_flush (c : client) : client :=
  emit_end_once (save_state (set_ready false (set_connected false c))).

(** The indices, among [count] writes from the [from]-th on, at which
    the stream [s] buffers. *)
Definition refused (s : Stream) (from count : nat) : list nat :=
  List.filter (fun i => negb (accepts s i)) (seq from count).

(** The record that [select(db, callback)] submits. *)
Definition select_record (db : arg) (user : option nat) : Command :=
  {| command := "select"; args := [db]; sub_command := false;
     buffer_args := existsb isBuffer [db];
     callback_of := Some (CbSelect db user) |}.

(** A step that emits no [drain] and leaves the backpressure flag and
    the queues alone. *)
Definition quiet (c c' : client) : Prop :=
  drains (trace c') = drains (trace c) /\ should_buffer c' = should_buffer c
  /\ command_queue c' = command_queue c /\ offline_queue c' = offline_queue c.




(** The first element of a message pushed in pub/sub mode. *)
Definition is_push_type (first : reply) : Prop :=
  first = RStr "message" \/ first = RBuf "message"
  \/ first = RStr "pmessage" \/ first = RBuf "pmessage".

(** A ready client whose pending queue is full with one command. *)
Definition one_deep_client : client :=
  set_ready true
    (RedisClient open_stream
       {| opt_detect_buffers := false; opt_command_queue_high_water := Some 1;
          opt_command_queue_low_water := None; opt_max_attempts := None;
          opt_connect_timeout := None; opt_enable_offline_queue := None;
          opt_retry_max_delay := None |} "127.0.0.1:6379").

(** ** Further observations *)

(** *** The wire *)

(** The bytes that a sequence of writes puts on the wire. *)
Definition wire (chunks : list string) : string := fold_right String.append "" chunks.

(** The bytes that stand for an argument: the content of a Buffer, the
    text of anything else. *)
Definition payload (h : host) (a : arg) : string :=
  match a with
  | ABuf b => b
  | _ => js_String h a
  end.

(** *** Reading a request back *)

Definition digit_of (c : ascii) : option N :=
  let n := nat_of_ascii c in
  if Nat.leb 48 n && Nat.leb n 57 then Some (N.of_nat (n - 48)) else None.

(** The number that the decimal digits at the front of [s] write, and
    what follows them. *)
Fixpoint read_digits (s : string) (acc : N) : N * string :=
  match s with
  | EmptyString => (acc, s)
  | String c s' =>
      match digit_of c with
      | Some d => read_digits s' (acc * 10 + d)%N
      | None => (acc, s)
      end
  end.

(** [s] without [p] in front of it. *)
Fixpoint strip_prefix (p s : string) : option string :=
  match p with
  | EmptyString => Some s
  | String a p' =>
      match s with
      | EmptyString => None
      | String b s' => if Ascii.eqb a b then strip_prefix p' s' else None
      end
  end.

(** A line that holds a number. *)
Definition read_count (s : string) : option (nat * string) :=
  let (n, rest) := read_digits s 0 in
  option_map (fun r => (N.to_nat n, r)) (strip_prefix CRLF rest).

Fixpoint take_bytes (n : nat) (s : string) : option (string * string) :=
  match n with
  | O => Some (EmptyString, s)
  | S n' =>
      match s with
      | EmptyString => None
      | String c s' => option_map (fun pr => (String c (fst pr), snd pr)) (take_bytes n' s')
      end
  end.

(** A bulk string: [$], the number of bytes, the bytes. *)
Definition read_bulk (s : string) : option (string * string) :=
  match strip_prefix "$" s with
  | None => None
  | Some s1 =>
      match read_count s1 with
      | None => None
      | Some (len, s2) =>
          match take_bytes len s2 with
          | None => None
          | Some (bytes, s3) => option_map (fun r => (bytes, r)) (strip_prefix CRLF s3)
          end
      end
  end.

Fixpoint read_bulks (n : nat) (s : string) : option (list string * string) :=
  match n with
  | O => Some ([], s)
  | S n' =>
      match read_bulk s with
      | None => None
      | Some (b, s') => option_map (fun lr => (b :: fst lr, snd lr)) (read_bulks n' s')
      end
  end.

(** A request in the multi-bulk framing: [*], the number of
    elements, the elements, and nothing after them. *)
Definition read_request (s : string) : option (list string) :=
  match strip_prefix "*" s with
  | None => None
  | Some s1 =>
      match read_count s1 with
      | None => None
      | Some (n, s2) =>
          match read_bulks n s2 with
          | Some (l, EmptyString) => Some l
          | _ => None
          end
      end
  end.

(** Neither an array nor a function. *)
Definition is_scalar (a : arg) : bool :=
  match a with
  | AArr _ | AFun _ => false
  | _ => true
  end.

(** The error of [set] and [setex] for a missing value. *)
Definition missing_value_error (cmd : string) : error :=
  new_Error ("send_command: " +:+ cmd +:+ " value must not be undefined or null").

(** *** Subscriptions *)

(** The keys of [subscription_set] for the arguments of a
    subscription command. *)
Definition subscription_keys (h : host) (kind : string) (args : list arg) : list string :=
  List.map (fun a => kind +:+ " " +:+ js_String h a) args.

(** The record of a subscription command once [pub_sub_command] has
    marked it. *)
Definition subscription_record (s : call) : Command :=
  {| command := command (record_of s); args := args (record_of s);
     sub_command := true; buffer_args := buffer_args (record_of s);
     callback_of := callback_of (record_of s) |}.


(** *** Reconnection *)

Definition is_reconnecting (e : event) : bool :=
  match e with Emit_reconnecting _ _ => true | _ => false end.

(** The number of [reconnecting] events in a trace. *)
Definition reconnects (t : list event) : nat :=
  List.length (List.filter is_reconnecting t).

Definition is_end (e : event) : bool :=
  match e with Emit_end => true | _ => false end.

(** The number of [end] events in a trace. *)
Definition ends (t : list event) : nat := List.length (List.filter is_end t).

(** The modal state that a snapshot holds. *)
Definition modal_state (c : client) : saved_state :=
  {| saved_monitoring := monitoring c; saved_pub_sub_mode := pub_sub_mode c;
     saved_selected_db := selected_db c |}.

Definition attempts_exceeded_error : error :=
  new_Error "Redis connection in broken state: maximum connection attempts exceeded.".

(** *** Replies *)


Definition queue_state_error : error :=
  new_Error "node_redis command queue state error. If you can reproduce this, please report it.".

(** *** The offline queue *)

(** A record as [send_command] files it in the offline queue and takes
    it back unchanged: normalizing its arguments again changes nothing,
    and it passes validation. *)
Definition replayable (co : Command) : Prop :=
  normalize (command co) (Some (args co)) (callback_of co) = (args co, callback_of co)
  /\ sub_command co = false
  /\ buffer_args co = existsb isBuffer (args co)
  /\ validate (command co) (args co) = None.

(** *** on_ready *)

(** No character of [s] is a space. *)
Fixpoint no_space (s : string) : bool :=
  match s with
  | EmptyString => true
  | String _ s' => negb (String.prefix " " s) && no_space s'
  end.

(** The part of [s] before its first space, all of [s] when it has
    none. *)
Fixpoint before_space (s : string) : string :=
  match s with
  | EmptyString => EmptyString
  | String x s' => if String.prefix " " s then EmptyString else String x (before_space s')
  end.

(** A subscription as [subscription_set] keys it: the kind, [sub] or
    [psub], and the channel or pattern. *)
Definition key_of_entry (entry : string * string) : string :=
  fst entry +:+ " " +:+ snd entry.

(** The keys that [pub_sub_command] makes. *)
Definition well_formed_entry (entry : string * string) : Prop :=
  fst entry = "sub" \/ fst entry = "psub".

(** The record that [on_ready] submits for a subscription; [n] names
    its [callback_count].  The key is split at every space, and what
    stands between the first and the second is taken for the
    channel. *)
Definition resubscription (n : nat) (entry : string * string) : Command :=
  {| command := fst entry +:+ "scribe"; args := [AStr (before_space (snd entry))];
     sub_command := true; buffer_args := false;
     callback_of := Some (CbResubscribe n) |}.

(** The chunks written for a record. *)
Definition encode_record (h : host) (co : Command) : list string :=
  encode h (command co) (args co) (buffer_args co).

(** The number of [ready] events in a trace. *)
Definition readies (t : list event) : nat := List.length (List.filter is_ready t).

(** [k] calls of a callback in a row, each with its own error and
    result. *)
Fixpoint invoke_times (cb : callback) (calls : list (option error * value)) (c : client)
  : client :=
  match calls with
  | [] => c
  | (err, res) :: rest => invoke_times cb rest (invoke cb err res c)
  end.

(** The state in which [on_ready] finds the client once it has taken
    back the modal state and sent [select]. *)
Definition after_reselect (h : host) (c : client) : client :=
  reselect h (restore_state (set_ready true c)).

(** The record of the [select] that [on_ready] sends. *)
Definition reselect_record (db : arg) : Command :=
  {| command := "select"; args := [db]; sub_command := false;
     buffer_args := existsb isBuffer [db]; callback_of := None |}.

(** Absent, or a function of the user. *)
Definition user_callback (cb : option callback) : Prop :=
  match cb with
  | Some (CbSelect _ _) | Some (CbResubscribe _) => False
  | _ => True
  end.

(** The fields that a command of the user which is no subscription
    command leaves alone, whatever becomes of it. *)
Definition same_session (c c' : client) : Prop :=
  ready c' = ready c /\ writable (stream c') = writable (stream c)
  /\ accepts (stream c') = accepts (stream c)
  /\ pub_sub_mode c' = pub_sub_mode c /\ subscription_set c' = subscription_set c
  /\ callback_count c' = callback_count c /\ selected_db c' = selected_db c
  /\ readies (trace c') = readies (trace c)
  /\ exists chunks, written (stream c') = written (stream c) ++ chunks.

(** * Properties *)

(** ** Frame lemmas: what emitting and calling leave alone *)

Lemma calls_app (t1 t2 : list event) : calls (t1 ++ t2) = calls t1 ++ calls t2.
Proof. unfold calls. apply List.filter_app. Qed.

Lemma drains_app (t1 t2 : list event) : drains (t1 ++ t2) = (drains t1 + drains t2)%nat.
Proof. unfold drains. rewrite List.filter_app. apply List.length_app. Qed.

Lemma trace_emit (e : event) (c : client) : trace (emit e c) = trace c ++ [e].
Proof. reflexivity. Qed.

Ltac callback_cases cb err :=
  unfold invoke_if, invoke, run_callback, emit;
  destruct cb as [f | db [f |] | n]; destruct err; simpl;
  repeat match goal with |- context [if ?b then _ else _] => destruct b end;
  simpl.

Lemma invoke_calls (cb : callback) (err : option error) (res : value) (c : client) :
  calls (trace (invoke cb err res c)) = calls (trace c) ++ [Called cb err res].
Proof.
  callback_cases cb err; rewrite ?calls_app; simpl; rewrite ?app_nil_r; reflexivity.
Qed.

Lemma invoke_drains (cb : callback) (err : option error) (res : value) (c : client) :
  drains (trace (invoke cb err res c)) = drains (trace c).
Proof.
  callback_cases cb err; rewrite ?drains_app; unfold drains; simpl; lia.
Qed.

Lemma same_pipeline_refl (c : client) : same_pipeline c c.
Proof. repeat split. Qed.

Lemma same_pipeline_trans (c1 c2 c3 : client) :
  same_pipeline c1 c2 -> same_pipeline c2 c3 -> same_pipeline c1 c3.
Proof.
  unfold same_pipeline. intros H1 H2.
  destruct H1 as (?&?&?&?&?&?&?&?&?&?), H2 as (?&?&?&?&?&?&?&?&?&?).
  repeat split; congruence.
Qed.

Lemma invoke_pipeline (cb : callback) (err : option error) (res : value) (c : client) :
  same_pipeline c (invoke cb err res c).
Proof. callback_cases cb err; repeat split. Qed.

Lemma invoke_retry (cb : callback) (err : option error) (res : value) (c : client) :
  same_retry c (invoke cb err res c).
Proof. callback_cases cb err; repeat split. Qed.

(** ** flush_and_error *)

Lemma error_calls_cons (e : error) (co : Command) (q : Queue.t) :
  error_calls e (co :: q) =
  match callback_of co with
  | Some cb => Called cb (Some e) undefined :: error_calls e q
  | None => error_calls e q
  end.
Proof. unfold error_calls, callbacks. simpl. destruct (callback_of co); reflexivity. Qed.

Lemma error_calls_app (e : error) (q1 q2 : Queue.t) :
  error_calls e (q1 ++ q2) = error_calls e q1 ++ error_calls e q2.
Proof. unfold error_calls, callbacks. rewrite omap_app. apply List.map_app. Qed.

Lemma invoke_if_calls (cb : option callback) (err : option error) (res : value)
    (c : client) :
  calls (trace (invoke_if cb err res c)) =
  calls (trace c) ++ match cb with Some f => [Called f err res] | None => [] end.
Proof.
  destruct cb; simpl; [apply invoke_calls | symmetry; apply app_nil_r].
Qed.

Lemma invoke_if_pipeline (cb : option callback) (err : option error) (res : value)
    (c : client) :
  same_pipeline c (invoke_if cb err res c).
Proof. destruct cb; simpl; [apply invoke_pipeline | apply same_pipeline_refl]. Qed.

Lemma invoke_if_retry (cb : option callback) (err : option error) (res : value)
    (c : client) :
  same_retry c (invoke_if cb err res c).
Proof. destruct cb; simpl; [apply invoke_retry | repeat split]. Qed.

Lemma flush_offline_queue_spec (e : error) (fuel : nat) : forall c : client,
  (List.length (offline_queue c) <= fuel)%nat ->
  let c' := flush_offline_queue fuel e c in
  offline_queue c' = [] /\ command_queue c' = command_queue c
  /\ calls (trace c') = calls (trace c) ++ error_calls e (offline_queue c)
  /\ same_retry c c' /\ closing c' = closing c.
Proof.
  induction fuel as [| fuel IH]; intros c Hlen; simpl.
  - destruct (offline_queue c) eqn:Hq; [| simpl in Hlen; lia].
    rewrite app_nil_r. repeat split.
  - destruct (offline_queue c) as [| co q] eqn:Hq; simpl.
    + rewrite Hq, app_nil_r. repeat split.
    + set (c1 := invoke_if (callback_of co) (Some e) undefined (set_offline_queue q c)).
      destruct (invoke_if_pipeline (callback_of co) (Some e) undefined (set_offline_queue q c))
        as (Hcq & Hoq & _ & _ & _ & _ & Hcl & _).
      destruct (invoke_if_retry (callback_of co) (Some e) undefined (set_offline_queue q c))
        as (R1 & R2 & R3 & R4 & R5 & R6 & R7).
      fold c1 in Hcq, Hoq, Hcl, R1, R2, R3, R4, R5, R6, R7. simpl in *.
      destruct (IH c1) as (H1 & H2 & H3 & (S1 & S2 & S3 & S4 & S5 & S6 & S7) & H5).
      { rewrite Hoq. simpl in Hlen. lia. }
      split; [exact H1 |]. split; [congruence |]. split.
      * rewrite H3, Hoq. unfold c1. rewrite invoke_if_calls. simpl.
        rewrite error_calls_cons. destruct (callback_of co); simpl.
        -- rewrite <- app_assoc. reflexivity.
        -- rewrite app_nil_r. reflexivity.
      * split; [repeat split; congruence | congruence].
Qed.

Lemma flush_command_queue_spec (e : error) (fuel : nat) : forall c : client,
  (List.length (command_queue c) <= fuel)%nat ->
  let c' := flush_command_queue fuel e c in
  command_queue c' = [] /\ offline_queue c' = offline_queue c
  /\ calls (trace c') = calls (trace c) ++ error_calls e (command_queue c)
  /\ same_retry c c' /\ closing c' = closing c.
Proof.
  induction fuel as [| fuel IH]; intros c Hlen; simpl.
  - destruct (command_queue c) eqn:Hq; [| simpl in Hlen; lia].
    rewrite app_nil_r. repeat split.
  - destruct (command_queue c) as [| co q] eqn:Hq; simpl.
    + rewrite Hq, app_nil_r. repeat split.
    + set (c1 := invoke_if (callback_of co) (Some e) undefined (set_command_queue q c)).
      destruct (invoke_if_pipeline (callback_of co) (Some e) undefined (set_command_queue q c))
        as (Hcq & Hoq & _ & _ & _ & _ & Hcl & _).
      destruct (invoke_if_retry (callback_of co) (Some e) undefined (set_command_queue q c))
        as (R1 & R2 & R3 & R4 & R5 & R6 & R7).
      fold c1 in Hcq, Hoq, Hcl, R1, R2, R3, R4, R5, R6, R7. simpl in *.
      destruct (IH c1) as (H1 & H2 & H3 & (S1 & S2 & S3 & S4 & S5 & S6 & S7) & H5).
      { rewrite Hcq. simpl in Hlen. lia. }
      split; [exact H1 |]. split; [congruence |]. split.
      * rewrite H3, Hcq. unfold c1. rewrite invoke_if_calls. simpl.
        rewrite error_calls_cons. destruct (callback_of co); simpl.
        -- rewrite <- app_assoc. reflexivity.
        -- rewrite app_nil_r. reflexivity.
      * split; [repeat split; congruence | congruence].
Qed.

Lemma flush_and_error_spec (msg : string) (c : client) :
  let c' := flush_and_error msg c in
  offline_queue c' = [] /\ command_queue c' = []
  /\ calls (trace c') =
     calls (trace c) ++ error_calls (new_Error msg) (offline_queue c ++ command_queue c)
  /\ same_retry c c' /\ closing c' = closing c.
Proof.
  unfold flush_and_error.
  set (e := new_Error msg).
  destruct (flush_offline_queue_spec e (List.length (offline_queue c)) c (le_n _))
    as (H1 & H2 & H3 & (S1 & S2 & S3 & S4 & S5 & S6 & S7) & H5).
  set (c1 := flush_offline_queue (List.length (offline_queue c)) e c) in *.
  set (c2 := set_offline_queue Queue.empty c1).
  destruct (flush_command_queue_spec e (List.length (command_queue c2)) c2 (le_n _))
    as (G1 & G2 & G3 & (T1 & T2 & T3 & T4 & T5 & T6 & T7) & G5).
  set (c3 := flush_command_queue (List.length (command_queue c2)) e c2) in *.
  simpl in *. repeat split; simpl; try congruence; try exact G2.
  rewrite G3, H3, H2, error_calls_app, app_assoc. reflexivity.
Qed.

(** ** connection_gone *)

Lemma before_flush_frame (c : client) :
  offline_queue (before_flush c) = offline_queue c
  /\ command_queue (before_flush c) = command_queue c
  /\ calls (trace (before_flush c)) = calls (trace c)
  /\ same_retry c (before_flush c) /\ closing (before_flush c) = closing c.
Proof.
  unfold before_flush, emit_end_once, save_state. simpl.
  destruct (old_state c); simpl; destruct (emitted_end c); simpl;
    rewrite ?calls_app, ?app_nil_r; repeat split.
Qed.

Lemma connection_gone_unfold (why : string) (c : client) :
  retry_timer c = None ->
  connection_gone why c =
  schedule_retry
    (flush_and_error ("Redis connection gone from " +:+ why +:+ " event.") (before_flush c)).
Proof. intros H. unfold connection_gone. rewrite H. reflexivity. Qed.

Lemma schedule_retry_frame (c : client) :
  offline_queue (schedule_retry c) = offline_queue c
  /\ command_queue (schedule_retry c) = command_queue c
  /\ calls (trace (schedule_retry c)) = calls (trace c).
Proof.
  unfold schedule_retry.
  destruct (closing c); simpl; [repeat split |].
  destruct (retry_max_delay c) as [m |]; simpl;
    [destruct (m <? next_delay (retry_delay c)); simpl |];
    destruct (max_attempts c) as [a |]; simpl;
    try destruct (negb (a =? 0) && (a <=? attempts c)); simpl;
    rewrite ?calls_app, ?app_nil_r; repeat split.
Qed.

(** C2, amended: when no retry timer is pending, [connection_gone]
    calls the callback of every command record of the offline queue and
    of the pending queue that has one exactly once, in queue order, with
    the one connection-gone error, and leaves both queues empty.  (With
    a retry timer pending it returns at once and touches neither
    queue.) *)
Theorem connection_gone_flushes (why : string) (c : client) :
  retry_timer c = None ->
  calls (trace (connection_gone why c)) =
    calls (trace c)
    ++ error_calls (new_Error ("Redis connection gone from " +:+ why +:+ " event."))
         (offline_queue c ++ command_queue c)
  /\ offline_queue (connection_gone why c) = []
  /\ command_queue (connection_gone why c) = [].
Proof.
  intros Htimer. rewrite (connection_gone_unfold why c Htimer).
  set (msg := "Redis connection gone from " +:+ why +:+ " event.").
  destruct (before_flush_frame c) as (B1 & B2 & B3 & _).
  destruct (flush_and_error_spec msg (before_flush c)) as (F1 & F2 & F3 & _).
  destruct (schedule_retry_frame (flush_and_error msg (before_flush c))) as (S1 & S2 & S3).
  rewrite S1, S2, S3, F1, F2, F3, B1, B2, B3. repeat split.
Qed.

Lemma connection_gone_flushes_witness :
  calls (trace (connection_gone "close" (set_command_queue [get_foo 1; get_foo 2] ready_client)))
  = [Called (CbUser 1) (Some (new_Error "Redis connection gone from close event.")) undefined;
     Called (CbUser 2) (Some (new_Error "Redis connection gone from close event.")) undefined].
Proof.
  pose proof (connection_gone_flushes "close"
                (set_command_queue [get_foo 1; get_foo 2] ready_client) eq_refl) as H.
  destruct H as (H & _). rewrite H. reflexivity.
Defined.

(** C2 as stated fails while a retry timer is pending: the command
    stays in the offline queue and its callback is not called. *)
Lemma connection_gone_keeps_queue_while_retrying :
  offline_queue waiting_client = [get_foo 1]
  /\ offline_queue (connection_gone "close" waiting_client) = [get_foo 1]
  /\ calls (trace (connection_gone "close" waiting_client)) = [].
Proof. repeat split. Qed.

(** ** The backoff *)

Lemma schedule_retry_reconnecting (c : client) :
  closing c = false ->
  match max_attempts c with Some m => attempts c < m | None => True end ->
  let d := cap (retry_max_delay c) (next_delay (retry_delay c)) in
  let c' := schedule_retry c in
  trace c' = trace c ++ [Emit_reconnecting d (attempts c + 1)]
  /\ retry_timer c' = Some (timer_delay d) /\ retry_delay c' = d
  /\ attempts c' = attempts c + 1 /\ retry_totaltime c' = retry_totaltime c
  /\ closing c' = false /\ max_attempts c' = max_attempts c
  /\ retry_max_delay c' = retry_max_delay c /\ connect_timeout c' = connect_timeout c.
Proof.
  intros Hclosing Hmax. unfold schedule_retry, cap. rewrite Hclosing.
  destruct (retry_max_delay c) as [m |] eqn:Em; simpl;
    [destruct (m <? next_delay (retry_delay c)); simpl |];
    destruct (max_attempts c) as [a |] eqn:Ea; simpl;
    try (replace (a <=? attempts c) with false by (symmetry; apply Z.leb_gt; exact Hmax);
         rewrite andb_false_r; simpl);
    repeat split; try reflexivity; assumption.
Qed.

Lemma connection_gone_reconnecting (why : string) (c : client) :
  retry_timer c = None -> closing c = false ->
  match max_attempts c with Some m => attempts c < m | None => True end ->
  let d := cap (retry_max_delay c) (next_delay (retry_delay c)) in
  let c' := connection_gone why c in
  last (trace c') = Some (Emit_reconnecting d (attempts c + 1))
  /\ retry_timer c' = Some (timer_delay d) /\ retry_delay c' = d
  /\ attempts c' = attempts c + 1 /\ retry_totaltime c' = retry_totaltime c
  /\ closing c' = false /\ max_attempts c' = max_attempts c
  /\ retry_max_delay c' = retry_max_delay c /\ connect_timeout c' = connect_timeout c.
Proof.
  intros Htimer Hclosing Hmax. simpl.
  rewrite (connection_gone_unfold why c Htimer).
  set (msg := "Redis connection gone from " +:+ why +:+ " event.").
  destruct (before_flush_frame c) as (_ & _ & _ & (B1 & B2 & B3 & B4 & B5 & B6 & B7) & B8).
  destruct (flush_and_error_spec msg (before_flush c))
    as (_ & _ & _ & (F1 & F2 & F3 & F4 & F5 & F6 & F7) & F8).
  generalize dependent (flush_and_error msg (before_flush c)). intros c2 F1 F2 F3 F4 F5 F6 F7 F8.
  assert (E1 : closing c2 = false) by congruence.
  assert (E2 : retry_delay c2 = retry_delay c) by congruence.
  assert (E3 : retry_max_delay c2 = retry_max_delay c) by congruence.
  assert (E4 : max_attempts c2 = max_attempts c) by congruence.
  assert (E5 : attempts c2 = attempts c) by congruence.
  assert (E6 : retry_totaltime c2 = retry_totaltime c) by congruence.
  assert (E7 : connect_timeout c2 = connect_timeout c) by congruence.
  assert (Hm : match max_attempts c2 with Some m => attempts c2 < m | None => True end)
    by (rewrite E4, E5; exact Hmax).
  destruct (schedule_retry_reconnecting c2 E1 Hm)
    as (H1 & H2 & H3 & H4 & H5 & H6 & H7 & H8 & H9).
  rewrite H1, last_snoc, H2, H3, H4, H5, H6, H7, H8, H9, E2, E3, E4, E5, E6, E7.
  repeat split.
Qed.

Lemma retry_timer_fired_ok (fresh : Stream) (c : client) :
  js_add (retry_totaltime c) (retry_delay c) < connect_timeout c ->
  retry_timer_fired fresh c =
  Return (set_retry_timer None
            (set_stream fresh
               (set_retry_totaltime (js_add (retry_totaltime c) (retry_delay c)) c))).
Proof.
  intros H. unfold retry_timer_fired. simpl.
  replace (connect_timeout c <=? js_add (retry_totaltime c) (retry_delay c)) with false
    by (symmetry; apply Z.leb_gt; exact H).
  rewrite andb_false_r. reflexivity.
Qed.

Lemma reconnect_rounds_invariant (fresh : Stream) (why : string) (c : client) :
  retry_timer c = None -> retry_delay c = 200 -> retry_totaltime c = 0 ->
  attempts c = 1 -> closing c = false ->
  forall k : nat,
  match max_attempts c with Some m => Z.of_nat (S k) < m | None => True end ->
  (forall j, (1 <= j <= k)%nat -> total_delay (retry_max_delay c) j < connect_timeout c) ->
  exists c',
    reconnect_rounds fresh why (S k) c = Return c'
    /\ last (trace c') =
         Some (Emit_reconnecting (nth_delay (retry_max_delay c) (S k)) (Z.of_nat (S k) + 1))
    /\ retry_timer c' = Some (timer_delay (nth_delay (retry_max_delay c) (S k)))
    /\ retry_delay c' = nth_delay (retry_max_delay c) (S k)
    /\ attempts c' = Z.of_nat (S k) + 1
    /\ retry_totaltime c' = total_delay (retry_max_delay c) k
    /\ closing c' = false /\ max_attempts c' = max_attempts c
    /\ retry_max_delay c' = retry_max_delay c /\ connect_timeout c' = connect_timeout c.
Proof.
  intros Htimer Hdelay Htotal Hattempts Hclosing.
  induction k as [| k IH]; intros Hmax Hbudget.
  - exists (connection_gone why c). split; [reflexivity |].
    assert (Hm : match max_attempts c with Some m => attempts c < m | None => True end).
    { destruct (max_attempts c); [lia | exact I]. }
    destruct (connection_gone_reconnecting why c Htimer Hclosing Hm)
      as (H1 & H2 & H3 & H4 & H5 & H6 & H7 & H8 & H9).
    simpl nth_delay. rewrite <- Hdelay.
    rewrite H1, H2, H3, H4, H5, Hattempts, Htotal. repeat split; assumption.
  - destruct IH as (c1 & Hrun & _ & I2 & I3 & I4 & I5 & I6 & I7 & I8 & I9).
    { destruct (max_attempts c); [lia | exact I]. }
    { intros j Hj. apply Hbudget. lia. }
    assert (Hlt : js_add (retry_totaltime c1) (retry_delay c1) < connect_timeout c1).
    { rewrite I5, I3, I9. apply (Hbudget (S k)). lia. }
    change (reconnect_rounds fresh why (S (S k)) c) with
      (match reconnect_rounds fresh why (S k) c with
       | Return c1 =>
           match retry_timer_fired fresh c1 with
           | Return c2 => Return (connection_gone why c2)
           | Throw e c2 => Throw e c2
           end
       | Throw e c1 => Throw e c1
       end).
    rewrite Hrun, (retry_timer_fired_ok fresh c1 Hlt).
    set (c2 := set_retry_timer None
                 (set_stream fresh
                    (set_retry_totaltime (js_add (retry_totaltime c1) (retry_delay c1)) c1))).
    exists (connection_gone why c2). split; [reflexivity |].
    assert (D1 : retry_delay c2 = retry_delay c1) by reflexivity.
    assert (D2 : attempts c2 = attempts c1) by reflexivity.
    assert (D3 : max_attempts c2 = max_attempts c1) by reflexivity.
    assert (D4 : retry_max_delay c2 = retry_max_delay c1) by reflexivity.
    assert (D5 : connect_timeout c2 = connect_timeout c1) by reflexivity.
    assert (D6 : closing c2 = closing c1) by reflexivity.
    assert (D7 : retry_totaltime c2 = js_add (retry_totaltime c1) (retry_delay c1))
      by reflexivity.
    assert (D8 : retry_timer c2 = None) by reflexivity.
    assert (Hm : match max_attempts c2 with Some m => attempts c2 < m | None => True end).
    { rewrite D3, D2, I7, I4. destruct (max_attempts c); [lia | exact I]. }
    assert (Hc : closing c2 = false) by congruence.
    destruct (connection_gone_reconnecting why c2 D8 Hc Hm)
      as (H1 & H2 & H3 & H4 & H5 & H6 & H7 & H8 & H9).
    clearbody c2.
    rewrite D4, D1, I8, I3 in H1, H2, H3.
    change (nth_delay (retry_max_delay c) (S (S k))) with
      (cap (retry_max_delay c) (next_delay (nth_delay (retry_max_delay c) (S k)))).
    rewrite H1, H2, H3, H4, H5, H6, H7, H8, H9, D2, D3, D4, D5, D7, I3, I4, I5, I7, I8, I9.
    repeat split.
    + do 2 f_equal. lia.
    + lia.
Qed.

(** *** The arithmetic of doubles *)

Lemma round_half_even_near (n s : Z) :
  1 <= s ->
  let v := round_half_even n s * 2 ^ s in
  let r := n mod 2 ^ s in
  (r < 2 ^ (s - 1) -> v = n - r)
  /\ (2 ^ (s - 1) < r -> v = n - r + 2 ^ s)
  /\ (v = n - r \/ v = n - r + 2 ^ s).
Proof.
  intros Hs. cbv zeta. unfold round_half_even.
  assert (P : 0 < 2 ^ s) by (apply Z.pow_pos_nonneg; lia).
  pose proof (Z.div_mod n (2 ^ s) ltac:(lia)) as D.
  set (q := n / 2 ^ s) in *. set (r := n mod 2 ^ s) in *.
  destruct (Z.ltb_spec r (2 ^ (s - 1))) as [H1 | H1].
  - repeat split; intros; lia.
  - destruct (Z.ltb_spec (2 ^ (s - 1)) r) as [H2 | H2].
    + repeat split; intros; lia.
    + destruct (Z.even q); repeat split; intros; lia.
Qed.

(** Up to [2^48] the product with the double 1.7, rounded as binary64
    rounds it and then floored, is the floor of the exact product with
    17/10: the double lies below 1.7 by less than the rounding
    absorbs. *)
Lemma next_delay_exact (d : Z) : 0 <= d <= 2 ^ 48 -> next_delay d = 17 * d / 10.
Proof.
  intros Hd. unfold next_delay, double_floor.
  set (n := d * retry_backoff).
  assert (C : 2 ^ 52 = 4503599627370496) by reflexivity.
  assert (M : 10 * n = 17 * d * 2 ^ 52 - 2 * d) by (unfold n, retry_backoff; lia).
  destruct (Z.ltb_spec n (2 ^ 53)) as [Hsmall | Hbig].
  - assert (Hd' : d = 0 \/ d = 1) by (unfold n, retry_backoff in Hsmall; lia).
    destruct Hd' as [-> | ->]; reflexivity.
  - assert (Hn : 0 < n) by lia.
    pose proof (Z.log2_spec n Hn) as [L1 L2].
    assert (L3 : 53 <= Z.log2 n) by (apply Z.log2_le_pow2; lia).
    assert (L4 : Z.log2 n < 101).
    { apply Z.log2_lt_pow2; [lia |]. unfold n, retry_backoff.
      change (2 ^ 101) with (2 ^ 48 * 2 ^ 53). nia. }
    set (s := Z.log2 n - 52) in *.
    assert (Hs : 1 <= s <= 48) by (unfold s; lia).
    assert (E1 : 2 ^ Z.log2 n = 2 ^ 52 * 2 ^ s).
    { rewrite <- Z.pow_add_r by lia. f_equal. unfold s. lia. }
    assert (E2 : 2 ^ Z.succ (Z.log2 n) = 2 * (2 ^ 52 * 2 ^ s)).
    { rewrite Z.pow_succ_r by lia. rewrite E1. reflexivity. }
    assert (E3 : 2 ^ s = 2 * 2 ^ (s - 1)).
    { rewrite <- Z.pow_succ_r by lia. f_equal. lia. }
    assert (E4 : 2 ^ 52 = 2 ^ (52 - s) * 2 ^ s).
    { rewrite <- Z.pow_add_r by lia. f_equal. lia. }
    rewrite E1 in L1. rewrite E2 in L2.
    destruct (round_half_even_near n s ltac:(lia)) as (R1 & R2 & R3).
    cbv zeta in R1, R2, R3.
    set (v := round_half_even n s * 2 ^ s) in *.
    pose proof (Z.mod_pos_bound n (2 ^ s) ltac:(rewrite E3; assert (0 < 2 ^ (s - 1))
      by (apply Z.pow_pos_nonneg; lia); lia)) as B.
    set (r := n mod 2 ^ s) in *.
    assert (P0 : 0 < 2 ^ (s - 1)) by (apply Z.pow_pos_nonneg; lia).
    set (P := 2 ^ (s - 1)) in *.
    assert (K0 : 0 < 2 ^ (52 - s)) by (apply Z.pow_pos_nonneg; lia).
    set (K := 2 ^ (52 - s)) in *.
    rewrite E3 in *.
    assert (Hv : v < 2 ^ (1024 + 52)).
    { assert (v <= n + 2 * P) by lia.
      assert (n + 2 * P < 2 ^ 102).
      { change (2 ^ 102) with (2 ^ 50 * 2 ^ 52). rewrite C in *. nia. }
      assert (2 ^ 102 < 2 ^ (1024 + 52)) by (apply Z.pow_lt_mono_r; lia). lia. }
    destruct (Z.leb_spec (2 ^ (1024 + 52)) v) as [Hinf | _]; [lia |].
    symmetry. apply Z.div_unique_pos with (r := v - 2 ^ 52 * (17 * d / 10)); [| lia].
    pose proof (Z.div_mod (17 * d) 10 ltac:(lia)) as J.
    pose proof (Z.mod_pos_bound (17 * d) 10 ltac:(lia)) as Jb.
    set (q := 17 * d / 10) in *. set (j := (17 * d) mod 10) in *.
    rewrite C in *.
    assert (Hj : j = 0 \/ 1 <= j) by lia.
    destruct Hj as [Hj | Hj].
    + (* the exact product is an integer: the rounding goes up to it *)
      set (t := 4503599627370496 * q - n).
      assert (T1 : 5 * t = d) by (unfold t; lia).
      assert (T2 : 0 < t) by (unfold t; lia).
      assert (T3 : t < P) by (unfold t; lia).
      assert (Hrr : r = 2 * P - t).
      { unfold r. rewrite E3. symmetry.
        apply Z.mod_unique_pos with (q := q * K - 1); [lia |].
        replace (2 * P * (q * K - 1)) with (q * (K * (2 * P)) - 2 * P) by ring.
        rewrite <- E4. unfold t. lia. }
      assert (Hup : P < r) by lia.
      specialize (R2 Hup). lia.
    + destruct R3 as [Hv' | Hv']; lia.
Qed.

Lemma js_add_exact (a b : Z) : a + b < 2 ^ 53 -> js_add a b = a + b.
Proof.
  intros H. unfold js_add, double_floor.
  destruct (Z.ltb_spec (a + b) (2 ^ 53)) as [_ | H']; [apply Z.div_1_r | lia].
Qed.

(** C3, amended: when the connection is lost [k] times in a row (the
    retry timer firing in between), starting from the retry variables
    as [initialize_retry_vars] sets them, the delay announced by the
    k-th [reconnecting] event is [d k], where [d 0 = 200] and
    [d (k+1)] is the lesser of [Math.floor(1.7 * d k)] and
    [retry_max_delay]; the first delay is thus 340 ms when it is not
    capped.  The product is the one of doubles; it is the floor of
    [17 * d / 10] while [d] is no more than [2^48].  The k-th timer is
    set to [d k] ms while [d k] lies between 1 and [2^31 - 1], and to
    1 ms beyond.  This holds while [max_attempts] is not reached and
    the delays added up stay below [connect_timeout]. *)
Theorem reconnect_delay_recurrence (fresh : Stream) (why : string) (c : client) (k : nat) :
  (1 <= k)%nat ->
  retry_timer c = None -> retry_delay c = 200 -> retry_totaltime c = 0 ->
  attempts c = 1 -> closing c = false ->
  match max_attempts c with Some m => Z.of_nat k < m | None => True end ->
  (forall j, (1 <= j < k)%nat -> total_delay (retry_max_delay c) j < connect_timeout c) ->
  (exists c',
     reconnect_rounds fresh why k c = Return c'
     /\ last (trace c') =
          Some (Emit_reconnecting (nth_delay (retry_max_delay c) k) (Z.of_nat k + 1))
     /\ retry_timer c' = Some (timer_delay (nth_delay (retry_max_delay c) k)))
  /\ nth_delay None 1 = 340
  /\ (forall d, 0 <= d <= 2 ^ 48 -> next_delay d = 17 * d / 10)
  /\ (forall d, 1 <= d <= 2 ^ 31 - 1 -> timer_delay d = d)
  /\ (forall d, 2 ^ 31 - 1 < d -> timer_delay d = 1).
Proof.
  intros Hk Htimer Hdelay Htotal Hattempts Hclosing Hmax Hbudget.
  split; [| split; [reflexivity | split; [exact next_delay_exact | split]]].
  - destruct k as [| k]; [lia |].
    destruct (reconnect_rounds_invariant fresh why c Htimer Hdelay Htotal Hattempts Hclosing
                k Hmax) as (c' & H1 & H2 & H3 & _).
    { intros j Hj. apply Hbudget. lia. }
    exists c'. repeat split; assumption.
  - intros d Hd. unfold timer_delay.
    destruct (Z.ltb_spec d 1); [lia |].
    destruct (Z.ltb_spec 2147483647 d); [lia | reflexivity].
  - intros d Hd. unfold timer_delay.
    destruct (Z.ltb_spec 2147483647 d); [rewrite orb_true_r; reflexivity | lia].
Qed.

Lemma reconnect_delay_recurrence_witness :
  exists c',
    reconnect_rounds open_stream "close" 3 ready_client = Return c'
    /\ last (trace c') = Some (Emit_reconnecting 982 4)
    /\ retry_timer c' = Some 982.
Proof.
  refine (proj1 (reconnect_delay_recurrence open_stream "close" ready_client 3
                   _ eq_refl eq_refl eq_refl eq_refl eq_refl I _)).
  - lia.
  - intros j Hj. assert (Hc : j = 1%nat \/ j = 2%nat) by lia.
    destruct Hc as [-> | ->]; reflexivity.
Defined.

(** C3 as stated fails at k = 1: the first [reconnecting] event
    announces 340 ms, where the formula of the specification gives
    200 ms.  The delays of the code run one step ahead of the formula,
    and from the fourth on they also differ from the formula taken one
    step further, as the code rounds at every step.  The 31st delay is
    more than [setTimeout] takes, so that the timer runs 1 ms; and the
    60th is the first at which the product of doubles is not the floor
    of the exact product. *)
Lemma first_reconnect_delay_is_340 :
  trace (connection_gone "close" ready_client) = [Emit_end; Emit_reconnecting 340 2]
  /\ retry_timer (connection_gone "close" ready_client) = Some 340
  /\ spec_delay (retry_max_delay ready_client) 1 = 200
  /\ nth_delay None 4 = 1669 /\ spec_delay None 4 = 982 /\ spec_delay None 5 = 1670
  /\ nth_delay None 31 = 2782078544 /\ timer_delay (nth_delay None 31) = 1
  /\ nth_delay None 60 = 13408744229235536
  /\ 17 * nth_delay None 59 / 10 = 13408744229235537.
Proof. vm_compute. repeat split. Qed.

(** ** The transport and the pending queue *)

Lemma write_all_spec (chunks : list string) : forall (b : Z) (c : client),
  write_all chunks b c =
  (b + Z.of_nat (List.length (refused (stream c) (List.length (written (stream c)))
                                (List.length chunks))),
   set_stream {| writable := writable (stream c); accepts := accepts (stream c);
                 written := written (stream c) ++ chunks |} c).
Proof.
  induction chunks as [| chunk rest IH]; intros b c.
  - simpl. rewrite Z.add_0_r, app_nil_r. destruct c as [[]]; reflexivity.
  - simpl. unfold stream_write. rewrite IH. simpl.
    rewrite List.length_app, <- app_assoc. simpl.
    replace (List.length (written (stream c)) + 1)%nat
      with (S (List.length (written (stream c)))) by lia.
    unfold refused. simpl.
    destruct (accepts (stream c) (List.length (written (stream c)))); simpl; f_equal; lia.
Qed.

Lemma refused_existsb (s : Stream) (from count : nat) :
  (Z.of_nat (List.length (refused s from count)) =? 0)
  = negb (existsb (fun i => negb (accepts s i)) (seq from count)).
Proof.
  unfold refused. induction (seq from count) as [| i l IH]; [reflexivity |].
  simpl. destruct (accepts s i); simpl; [exact IH | reflexivity].
Qed.

Lemma transmit_spec (h : host) (co : Command) (c : client) :
  let chunks := encode h (command co) (args co) (buffer_args co) in
  let s' := {| writable := writable (stream c); accepts := accepts (stream c);
               written := written (stream c) ++ chunks |} in
  let full := existsb (fun i => negb (accepts (stream c) i))
                (seq (List.length (written (stream c))) (List.length chunks))
              || (command_queue_high_water c <=? Queue.length (command_queue c ++ [co])) in
  transmit h co c =
  (Bool (negb (should_buffer c || full)),
   set_should_buffer (should_buffer c || full)
     (set_stream s'
        (set_commands_sent (commands_sent c + 1)
           (set_command_queue (command_queue c ++ [co]) c)))).
Proof.
  unfold transmit. rewrite write_all_spec. simpl.
  rewrite Z.add_0_l, refused_existsb, negb_involutive.
  unfold Queue.push.
  destruct (existsb _ _ || (command_queue_high_water c <=? Queue.length (command_queue c ++ [co])));
    simpl.
  - rewrite orb_true_r. reflexivity.
  - rewrite orb_false_r. destruct c; reflexivity.
Qed.

(** ** Dispatch *)

Lemma after_shift_spec (len : Z) (c : client) :
  let c' := after_shift len c in
  let drained := should_buffer c && (len <=? command_queue_low_water c) in
  (exists pre, trace c' = trace c ++ pre /\ Forall housekeeping pre)
  /\ calls (trace c') = calls (trace c)
  /\ drains (trace c') = (drains (trace c) + (if drained then 1 else 0))%nat
  /\ should_buffer c' = (if drained then false else should_buffer c)
  /\ command_queue c' =
     (if negb (pub_sub_mode c) && (len =? 0) then [] else command_queue c)
  /\ pub_sub_mode c' = pub_sub_mode c /\ detect_buffers c' = detect_buffers c
  /\ selected_db c' = selected_db c /\ monitoring c' = monitoring c
  /\ closing c' = closing c /\ stream c' = stream c
  /\ offline_queue c' = offline_queue c /\ callback_count c' = callback_count c.
Proof.
  unfold after_shift.
  destruct (negb (pub_sub_mode c) && (len =? 0)); simpl;
    destruct (should_buffer c && (len <=? command_queue_low_water c)) eqn:E; simpl;
    rewrite ?calls_app, ?drains_app, ?app_nil_r; unfold drains; simpl;
    repeat split; try lia.
  - exists [Emit_idle; Emit_drain]. rewrite <- app_assoc. split; [reflexivity |].
    repeat (apply List.Forall_cons; [unfold housekeeping; auto |]). apply List.Forall_nil.
  - exists [Emit_idle]. split; [reflexivity |].
    repeat (apply List.Forall_cons; [unfold housekeeping; auto |]). apply List.Forall_nil.
  - exists [Emit_drain]. split; [reflexivity |].
    repeat (apply List.Forall_cons; [unfold housekeeping; auto |]). apply List.Forall_nil.
  - exists []. rewrite app_nil_r. split; [reflexivity | apply List.Forall_nil].
Qed.

Lemma after_shift_queue (c : client) :
  command_queue (after_shift (Queue.length (command_queue c)) c) = command_queue c.
Proof.
  destruct (after_shift_spec (Queue.length (command_queue c)) c)
    as (_ & _ & _ & _ & H & _).
  rewrite H. destruct (command_queue c) as [| co q].
  - destruct (negb (pub_sub_mode c) && _); reflexivity.
  - replace (Queue.length (co :: q) =? 0) with false.
    + rewrite andb_false_r. reflexivity.
    + symmetry. apply Z.eqb_neq. unfold Queue.length. simpl List.length. lia.
Qed.

Lemma invoke_last_user (db : arg) (f : nat) (err : option error) (res : value)
    (c : client) :
  last (trace (invoke (CbSelect db (Some f)) err res c)) = Some (Called_by_select f err res).
Proof. unfold invoke, run_callback, emit. destruct err; simpl; apply last_snoc. Qed.

Lemma return_error_head (h : host) (err : error) (c : client) (co : Command)
    (q : Queue.t) :
  command_queue c = co :: q ->
  return_error h err c =
  Return (let stamped := {| message := message err;
                            command_used := Some (toUpperCase h (command co)) |} in
          let c2 := after_shift (Queue.length q) (set_command_queue q c) in
          match callback_of co with
          | Some cb => invoke cb (Some stamped) undefined c2
          | None => emit (Emit_error stamped) c2
          end).
Proof.
  intros Hq. unfold return_error. rewrite Hq.
  change (Queue.shift (co :: q)) with (Some co, q). cbv iota beta zeta.
  change (command_queue (set_command_queue q c)) with q.
  destruct (callback_of co); reflexivity.
Qed.

(** C9: [return_error] takes the head of the pending queue whatever
    [pub_sub_mode] is and stamps the error with the upper-cased name of
    the command it took; nothing guards the read of that name, so the
    call raises exactly when the pending queue is empty, before any
    event is emitted or any callback called. *)
Theorem return_error_pops_unguarded (h : host) (err : error) (c : client) :
  (forall command_obj q, command_queue c = command_obj :: q ->
     let stamped := {| message := message err;
                       command_used := Some (toUpperCase h (command command_obj)) |} in
     exists c',
       return_error h err c = Return c' /\ command_queue c' = q
       /\ match callback_of command_obj with
          | Some cb => calls (trace c') = calls (trace c) ++ [Called cb (Some stamped) undefined]
          | None => calls (trace c') = calls (trace c)
                    /\ last (trace c') = Some (Emit_error stamped)
          end)
  /\ (command_queue c = [] ->
      exists c', return_error h err c = Throw TypeError c' /\ trace c' = trace c).
Proof.
  split.
  - intros co q Hq stamped. subst stamped.
    rewrite (return_error_head h err c co q Hq). cbv zeta.
    set (c1 := set_command_queue q c).
    destruct (after_shift_spec (Queue.length q) c1) as (_ & Hcalls & _).
    pose proof (after_shift_queue c1) as Hqueue.
    change (command_queue c1) with q in Hqueue.
    set (c2 := after_shift (Queue.length q) c1) in *.
    eexists. split; [reflexivity |].
    destruct (callback_of co) as [cb |].
    + split.
      * match goal with |- command_queue (invoke ?f ?e ?v ?x) = _ =>
          destruct (invoke_pipeline f e v x) as (H & _) end.
        rewrite H. exact Hqueue.
      * rewrite invoke_calls, Hcalls. reflexivity.
    + split; [exact Hqueue |]. split.
      * rewrite trace_emit, calls_app, Hcalls. simpl. apply app_nil_r.
      * rewrite trace_emit. apply last_snoc.
  - intros Hq. unfold return_error. rewrite Hq. simpl.
    eexists. split; reflexivity.
Qed.

Lemma return_error_pops_unguarded_witness :
  (exists c', return_error ascii_host (new_Error "ERR unknown")
                (set_command_queue [get_foo 1; get_foo 2] subscribed_client) = Return c'
              /\ command_queue c' = [get_foo 2])
  /\ (exists c', return_error ascii_host (new_Error "ERR unknown") subscribed_client
                 = Throw TypeError c').
Proof.
  pose proof (return_error_pops_unguarded ascii_host (new_Error "ERR unknown")
                (set_command_queue [get_foo 1; get_foo 2] subscribed_client)) as [H1 _].
  pose proof (return_error_pops_unguarded ascii_host (new_Error "ERR unknown")
                subscribed_client) as [_ H2].
  split.
  - destruct (H1 (get_foo 1) [get_foo 2] eq_refl) as (c' & E & Q & _).
    exists c'. split; assumption.
  - destruct (H2 eq_refl) as (c' & E & _). exists c'. exact E.
Defined.

(** ** select *)

Lemma select_enqueues (h : host) (db : arg) (user : option nat) (c : client) :
  ready c = true -> writable (stream c) = true -> pub_sub_mode c = false ->
  command_queue (select h db user c) = command_queue c ++ [select_record db user]
  /\ selected_db (select h db user c) = selected_db c
  /\ trace (select h db user c) = trace c.
Proof.
  intros Hready Hwritable Hmode. unfold select, send_command.
  change (normalize "select" (Some [db]) (Some (CbSelect db user)))
    with ([db], Some (CbSelect db user)).
  change (validate "select" [db]) with (@None (option error)).
  cbv iota beta. rewrite Hready, Hwritable. simpl negb. cbv iota.
  unfold route. simpl command.
  change (is_subscribe_family "select") with false.
  change (String.eqb "select" "monitor") with false.
  change (String.eqb "select" "quit") with false.
  cbv iota. rewrite Hmode. rewrite transmit_spec. simpl. repeat split.
Qed.

Lemma return_reply_delivers (h : host) (r : reply) (c : client) (co : Command)
    (q : Queue.t) :
  command_queue c = co :: q -> pub_sub_mode c = false -> sub_command co = false ->
  return_reply h r c =
  deliver h co r (after_shift (Queue.length q) (set_command_queue q c)).
Proof.
  intros Hq Hmode Hsub. unfold return_reply, take_head.
  rewrite Hmode, Hq. simpl. rewrite Hsub. reflexivity.
Qed.

Lemma select_callback_effect (db : arg) (user : option nat) (err : option error)
    (res : value) (c : client) :
  selected_db (invoke (CbSelect db user) err res c) =
    match err with None => Some db | Some _ => selected_db c end
  /\ last (trace (invoke (CbSelect db user) err res c)) =
     Some (match user, err with
           | Some f, _ => Called_by_select f err res
           | None, Some e => Emit_error e
           | None, None => Called (CbSelect db user) err res
           end).
Proof.
  unfold invoke, run_callback, emit. destruct user, err; simpl; rewrite last_snoc; split; reflexivity.
Qed.

(** C10: [select] submits a record whose callback sets [selected_db]
    to the requested db when, and only when, it is called without an
    error.  An error reply leaves [selected_db] as it was and goes to
    the user's callback if there is one and into an [error] event
    otherwise; a reply without error sets [selected_db] and emits no
    error. *)
Theorem select_saves_db_on_success (h : host) (db : arg) (user : option nat)
    (c : client) (q : Queue.t) :
  command_queue c = select_record db user :: q ->
  (forall err,
     let stamped := {| message := message err; command_used := Some "SELECT" |} in
     exists c',
       return_error h err c = Return c' /\ selected_db c' = selected_db c
       /\ last (trace c') =
          Some (match user with
                | Some f => Called_by_select f (Some stamped) undefined
                | None => Emit_error stamped
                end))
  /\ (forall r, pub_sub_mode c = false ->
      let res := VReply (coerce h (detect_buffers c) (select_record db user) r) in
      exists c',
        return_reply h r c = Return c' /\ selected_db c' = Some db
        /\ last (trace c') =
           Some (match user with
                 | Some f => Called_by_select f None res
                 | None => Called (CbSelect db user) None res
                 end)).
Proof.
  intros Hq. split.
  - intros err stamped. subst stamped.
    rewrite (return_error_head h err c _ q Hq). cbv zeta.
    change (callback_of (select_record db user)) with (Some (CbSelect db user)).
    change (toUpperCase h (command (select_record db user))) with "SELECT".
    cbv iota.
    set (c1 := set_command_queue q c).
    destruct (after_shift_spec (Queue.length q) c1)
      as (_ & _ & _ & _ & _ & _ & _ & Hdb & _).
    set (c2 := after_shift (Queue.length q) c1) in *.
    eexists. split; [reflexivity |].
    match goal with |- context [invoke ?f ?e ?v ?x] =>
      destruct (select_callback_effect db user e v x) as (H1 & H2) end.
    rewrite H1, H2, Hdb. split; [reflexivity |]. destruct user; reflexivity.
  - intros r Hmode res. subst res.
    rewrite (return_reply_delivers h r c _ q Hq Hmode eq_refl).
    set (c1 := set_command_queue q c).
    destruct (after_shift_spec (Queue.length q) c1)
      as (_ & _ & _ & _ & _ & _ & Hdetect & _).
    set (c2 := after_shift (Queue.length q) c1) in *.
    unfold deliver, convert.
    change (callback_of (select_record db user)) with (Some (CbSelect db user)).
    change (command (select_record db user)) with "select". cbv iota.
    change (String.eqb "hgetall" "select") with false. rewrite andb_false_r.
    eexists. split; [reflexivity |].
    match goal with |- context [invoke ?f ?e ?v ?x] =>
      destruct (select_callback_effect db user e v x) as (H1 & H2) end.
    rewrite H1, H2, Hdetect. split; [reflexivity |]. destruct user; reflexivity.
Qed.

Lemma select_saves_db_on_success_witness :
  (exists c', return_error ascii_host (new_Error "ERR invalid DB index")
                (select ascii_host (ANum 99) None ready_client) = Return c'
              /\ selected_db c' = None)
  /\ (exists c', return_reply ascii_host (RStr "OK")
                   (select ascii_host (ANum 2) (Some 5%nat) ready_client) = Return c'
                 /\ selected_db c' = Some (ANum 2)).
Proof.
  split.
  - destruct (select_saves_db_on_success ascii_host (ANum 99) None
                (select ascii_host (ANum 99) None ready_client) [] eq_refl) as [H _].
    destruct (H (new_Error "ERR invalid DB index")) as (c' & E & D & _).
    exists c'. split; [exact E | exact D].
  - destruct (select_saves_db_on_success ascii_host (ANum 2) (Some 5%nat)
                (select ascii_host (ANum 2) (Some 5%nat) ready_client) [] eq_refl) as [_ H].
    destruct (H (RStr "OK") eq_refl) as (c' & E & D & _).
    exists c'. split; [exact E | exact D].
Defined.

(** ** drain *)

Lemma quiet_refl (c : client) : quiet c c.
Proof. repeat split. Qed.

Lemma quiet_trans (c1 c2 c3 : client) : quiet c1 c2 -> quiet c2 c3 -> quiet c1 c3.
Proof.
  unfold quiet. intros (?&?&?&?) (?&?&?&?). repeat split; congruence.
Qed.

Lemma quiet_emit (e : event) (c : client) : is_drain e = false -> quiet c (emit e c).
Proof.
  intros H. unfold quiet. rewrite trace_emit, drains_app. unfold drains at 2. simpl.
  rewrite H. simpl. repeat split. lia.
Qed.

Lemma quiet_invoke (cb : callback) (err : option error) (res : value) (c : client) :
  quiet c (invoke cb err res c).
Proof.
  destruct (invoke_pipeline cb err res c) as (H1 & H2 & _ & H4 & _).
  repeat split; try assumption. apply invoke_drains.
Qed.

Lemma quiet_invoke_if (cb : option callback) (err : option error) (res : value)
    (c : client) :
  quiet c (invoke_if cb err res c).
Proof. destruct cb; [apply quiet_invoke | apply quiet_refl]. Qed.

Lemma quiet_set_pub_sub_mode (b : bool) (c : client) : quiet c (set_pub_sub_mode b c).
Proof. repeat split. Qed.

Create HintDb quiet.

#[local] Hint Resolve quiet_refl quiet_invoke quiet_invoke_if quiet_set_pub_sub_mode : quiet.

Lemma deliver_quiet (h : host) (co : Command) (r : reply) (c : client) :
  quiet c (state_of (deliver h co r c)).
Proof.
  unfold deliver. destruct (callback_of co); [| apply quiet_refl].
  destruct (convert h (detect_buffers c) co r); simpl; auto with quiet.
Qed.

Lemma pub_sub_reply_quiet (h : host) (popped : option Command) (r : reply) (c : client) :
  quiet c (state_of (pub_sub_reply h popped r c)).
Proof.
  unfold pub_sub_reply.
  repeat match goal with
         | |- context [match ?x with _ => _ end] => destruct x eqn:?; simpl
         end;
    repeat first [ apply quiet_refl
                 | eapply quiet_trans; [| apply quiet_emit; reflexivity]
                 | eapply quiet_trans; [| apply quiet_invoke_if]
                 | apply quiet_set_pub_sub_mode ].
Qed.

Lemma monitor_reply_quiet (r : reply) (c : client) :
  quiet c (state_of (monitor_reply r c)).
Proof.
  destruct r; simpl; try apply quiet_refl. apply quiet_emit. reflexivity.
Qed.

Lemma dispatch_quiet (h : host) (popped : option Command) (r : reply) (c : client) :
  quiet c (state_of (dispatch h popped r c)).
Proof.
  unfold dispatch. destruct popped as [co |].
  - destruct (negb (sub_command co)); [apply deliver_quiet | apply pub_sub_reply_quiet].
  - destruct (pub_sub_mode c); [apply pub_sub_reply_quiet |].
    destruct (monitoring c); [apply monitor_reply_quiet |].
    simpl. apply quiet_emit. reflexivity.
Qed.

Lemma route_trace (h : host) (co co' : Command) (c c' : client) :
  route h co c = Some (co', c') ->
  trace c' = trace c /\ should_buffer c' = should_buffer c
  /\ command_queue c' = command_queue c /\ offline_queue c' = offline_queue c
  /\ stream c' = stream c
  /\ command_queue_high_water c' = command_queue_high_water c
  /\ command co' = command co /\ args co' = args co
  /\ buffer_args co' = buffer_args co /\ callback_of co' = callback_of co.
Proof.
  unfold route, pub_sub_command.
  destruct (is_subscribe_family (command co)).
  { intros H. injection H as <- <-. simpl. repeat split. }
  destruct (String.eqb (command co) "monitor").
  { intros H. injection H as <- <-. repeat split. }
  destruct (String.eqb (command co) "quit").
  { intros H. injection H as <- <-. repeat split. }
  destruct (pub_sub_mode c); [discriminate |].
  intros H. injection H as <- <-. repeat split.
Qed.

Lemma send_command_drains (h : host) (cmd : string) (args : option (list arg))
    (cb : option callback) (c : client) :
  drains (trace (snd (send_command h cmd args cb c))) = drains (trace c).
Proof.
  unfold send_command.
  destruct (normalize cmd args cb) as [args' cb'].
  destruct (validate cmd args') as [[err |] |].
  - destruct cb'; simpl; [apply invoke_drains | apply quiet_emit; reflexivity].
  - reflexivity.
  - destruct ((negb (ready c) && negb (send_anyway c)) || negb (writable (stream c))).
    + unfold hold_back. destruct (enable_offline_queue c); [reflexivity |].
      simpl callback_of. destruct cb'; simpl;
        [apply invoke_drains | apply quiet_emit; reflexivity].
    + destruct (route h _ c) as [[co' c'] |] eqn:E.
      * apply route_trace in E. destruct E as (E & _).
        rewrite transmit_spec. simpl. rewrite E. reflexivity.
      * simpl. apply quiet_emit. reflexivity.
Qed.

Lemma send_offline_loop_drains (h : host) (fuel : nat) :
  forall (b : Z) (c : client) (b' : Z) (c' : client),
  send_offline_loop h fuel b c = Some (b', c') -> drains (trace c') = drains (trace c).
Proof.
  induction fuel as [| fuel IH]; intros b c b' c'; simpl;
    destruct (offline_queue c) as [| co q] eqn:Hq; simpl; intros H; try discriminate;
    try (injection H as <- <-; reflexivity).
  destruct (send_command h (command co) (Some (args co)) (callback_of co)
              (set_offline_queue q c)) as [r c1] eqn:E.
  apply IH in H. rewrite H.
  change c1 with (snd (r, c1)). rewrite <- E. rewrite send_command_drains. reflexivity.
Qed.

(** *** What a sent command leaves behind *)

Lemma queue_length_succ (q : Queue.t) (co : Command) :
  Queue.length (q ++ [co]) = Queue.length q + 1.
Proof. unfold Queue.length. rewrite List.length_app. simpl. lia. Qed.

Lemma buffered_between_append (s : Stream) (chunks : list string) :
  buffered_between s {| writable := writable s; accepts := accepts s;
                        written := written s ++ chunks |}
  = existsb (fun i => negb (accepts s i))
      (seq (List.length (written s)) (List.length chunks)).
Proof.
  unfold buffered_between. simpl. rewrite List.length_app.
  replace (List.length (written s) + List.length chunks - List.length (written s))%nat
    with (List.length chunks) by lia.
  reflexivity.
Qed.

(** What a call that reaches [transmit] leaves behind. *)
Lemma send_command_transmitted (h : host) (co co' : Command) (c c1 : client) :
  route h co c = Some (co', c1) ->
  let c' := snd (transmit h co' c1) in
  fst (transmit h co' c1) = Bool (negb (should_buffer c'))
  /\ command_queue c' = command_queue c ++ [co']
  /\ offline_queue c' = offline_queue c
  /\ trace c' = trace c
  /\ should_buffer c' =
     should_buffer c || buffered_between (stream c) (stream c')
     || (command_queue_high_water c <=? Queue.length (command_queue c'))
  /\ pub_sub_mode c' = pub_sub_mode c1 /\ detect_buffers c' = detect_buffers c1.
Proof.
  intros Hroute. apply route_trace in Hroute.
  destruct Hroute as (R1 & R2 & R3 & R4 & R5 & R6 & _).
  rewrite transmit_spec. simpl.
  rewrite R1, R2, R3, R4, R5, R6, buffered_between_append, orb_assoc. repeat split.
Qed.

(** *** Replaying the offline queue *)

Lemma route_plain (h : host) (co : Command) (c : client) :
  is_subscribe_family (command co) = false -> pub_sub_mode c = false ->
  exists c',
    route h co c = Some (co, c')
    /\ ready c' = ready c /\ stream c' = stream c /\ pub_sub_mode c' = false
    /\ command_queue c' = command_queue c /\ offline_queue c' = offline_queue c
    /\ trace c' = trace c /\ send_anyway c' = send_anyway c
    /\ should_buffer c' = should_buffer c.
Proof.
  intros Hfam Hmode. unfold route. rewrite Hfam, Hmode.
  destruct (String.eqb (command co) "monitor");
    [| destruct (String.eqb (command co) "quit")];
    eexists; (split; [reflexivity |]); repeat split; exact Hmode.
Qed.

Lemma replayable_record (co : Command) :
  replayable co ->
  {| command := command co; args := args co; sub_command := false;
     buffer_args := existsb isBuffer (args co); callback_of := callback_of co |} = co.
Proof. intros (_ & S & B & _). rewrite <- S, <- B. destruct co; reflexivity. Qed.

Lemma get_foo_replayable (f : nat) : replayable (get_foo f).
Proof. repeat split. Qed.

(** A replayable command that is no subscription command is sent by a
    ready client outside pub/sub mode; the call returns the negation of
    [should_buffer], which a call never clears. *)
Lemma replay_one (h : host) (co : Command) (c : client) :
  replayable co -> is_subscribe_family (command co) = false ->
  ready c = true -> writable (stream c) = true -> pub_sub_mode c = false ->
  let r := fst (send_command h (command co) (Some (args co)) (callback_of co) c) in
  let c' := snd (send_command h (command co) (Some (args co)) (callback_of co) c) in
  command_queue c' = command_queue c ++ [co]
  /\ written (stream c') = written (stream c) ++ encode_record h co
  /\ offline_queue c' = offline_queue c /\ trace c' = trace c
  /\ ready c' = true /\ writable (stream c') = true /\ pub_sub_mode c' = false
  /\ r = Bool (negb (should_buffer c'))
  /\ (should_buffer c = true -> should_buffer c' = true).
Proof.
  intros Hrep Hfam Hready Hwritable Hmode. cbv zeta. unfold send_command.
  pose proof (replayable_record co Hrep) as Hrec.
  destruct Hrep as (N & _ & _ & V).
  rewrite N, V, Hrec, Hready, Hwritable. simpl negb. simpl orb. cbv iota.
  destruct (route_plain h co c Hfam Hmode)
    as (c1 & R & R1 & R2 & R3 & R4 & R5 & R6 & _ & R8).
  rewrite R, transmit_spec. simpl. unfold encode_record.
  rewrite R1, R2, R3, R4, R5, R6, R8, Hwritable. repeat split; [exact Hready |].
  intros ->. reflexivity.
Qed.

(** The loop of [send_offline_queue] on such commands ends when fuel
    for one turn per command is given.  Its counter stays where it was
    exactly when [should_buffer] is false after the last command. *)
Lemma replay_loop (h : host) (q : Queue.t) : forall (fuel : nat) (b : Z) (c : client),
  offline_queue c = q -> (List.length q <= fuel)%nat ->
  ready c = true -> writable (stream c) = true -> pub_sub_mode c = false ->
  Forall replayable q ->
  Forall (fun co => is_subscribe_family (command co) = false) q ->
  exists b' c',
    send_offline_loop h fuel b c = Some (b', c')
    /\ command_queue c' = command_queue c ++ q /\ offline_queue c' = []
    /\ written (stream c')
       = written (stream c) ++ List.concat (List.map (encode_record h) q)
    /\ trace c' = trace c /\ pub_sub_mode c' = false
    /\ b <= b'
    /\ (should_buffer c = true -> should_buffer c' = true)
    /\ (q = [] -> b' = b /\ should_buffer c' = should_buffer c)
    /\ (q <> [] -> (b' = b <-> should_buffer c' = false)).
Proof.
  induction q as [| co q IH]; intros fuel b c Hq Hfuel Hready Hwritable Hmode Hrep Hplain.
  - exists b, c. destruct fuel; simpl; rewrite Hq; simpl; rewrite !app_nil_r;
      (split; [reflexivity |]); (split; [reflexivity |]); (split; [reflexivity |]);
      (split; [reflexivity |]); (split; [reflexivity |]); (split; [exact Hmode |]);
      (split; [lia |]); (split; [tauto |]); (split; [tauto |]); intros F; destruct (F eq_refl).
  - destruct fuel as [| fuel]; [simpl in Hfuel; lia |].
    apply Forall_cons in Hrep. destruct Hrep as [Hco Hrep].
    apply Forall_cons in Hplain. destruct Hplain as [Hp Hplain].
    simpl send_offline_loop. rewrite Hq. simpl.
    destruct (replay_one h co (set_offline_queue q c) Hco Hp Hready Hwritable Hmode)
      as (S1 & S2 & S3 & S4 & S5 & S6 & S7 & S8 & S9).
    destruct (send_command h (command co) (Some (args co)) (callback_of co)
                (set_offline_queue q c)) as [r c1].
    simpl in S1, S2, S3, S4, S5, S6, S7, S8, S9.
    destruct (IH fuel (b + (if js_not h r then 1 else 0)) c1 S3)
      as (b' & c' & E & I1 & I2 & I3 & I4 & I5 & I6 & I7 & I8 & I9);
      try assumption.
    { simpl in Hfuel. lia. }
    exists b', c'. split; [exact E |].
    rewrite I1, I3, I4, S1, S2, S4. simpl. rewrite <- !app_assoc.
    subst r. simpl js_not in I6, I8, I9. rewrite negb_involutive in I6, I8, I9.
    repeat split; try assumption.
    + destruct (should_buffer c1); lia.
    + intros Hc. apply I7, S9, Hc.
    + discriminate.
    + discriminate.
    + intros Hb. destruct (should_buffer c1) eqn:Sb; [lia |].
      destruct q as [| co' q'].
      * destruct (I8 eq_refl) as [_ I]. exact I.
      * apply I9; [discriminate | lia].
    + intros Hf. destruct (should_buffer c1) eqn:Sb.
      * rewrite (I7 eq_refl) in Hf. discriminate.
      * destruct q as [| co' q'].
        -- destruct (I8 eq_refl) as [I _]. lia.
        -- assert (b' = b + 0) by (apply I9; [discriminate | exact Hf]). lia.
Qed.

Lemma buffered_between_trans (s1 s2 s3 : Stream) (l1 l2 : list string) :
  accepts s2 = accepts s1 ->
  written s2 = written s1 ++ l1 -> written s3 = written s2 ++ l2 ->
  buffered_between s1 s3 = buffered_between s1 s2 || buffered_between s2 s3.
Proof.
  intros A W2 W3. unfold buffered_between. rewrite A, W3, W2, !List.length_app.
  replace (List.length (written s1) + List.length l1 + List.length l2
           - List.length (written s1))%nat
    with (List.length l1 + List.length l2)%nat by lia.
  replace (List.length (written s1) + List.length l1 - List.length (written s1))%nat
    with (List.length l1) by lia.
  replace (List.length (written s1) + List.length l1 + List.length l2
           - (List.length (written s1) + List.length l1))%nat
    with (List.length l2) by lia.
  rewrite List.seq_app, List.existsb_app. reflexivity.
Qed.

Lemma buffered_between_refl (s : Stream) : buffered_between s s = false.
Proof. unfold buffered_between. rewrite Nat.sub_diag. reflexivity. Qed.

(** What the replay of one command does to [should_buffer]. *)
Lemma replay_one_held (h : host) (co : Command) (c : client) :
  replayable co -> is_subscribe_family (command co) = false ->
  ready c = true -> writable (stream c) = true -> pub_sub_mode c = false ->
  let c' := snd (send_command h (command co) (Some (args co)) (callback_of co) c) in
  accepts (stream c') = accepts (stream c)
  /\ command_queue_high_water c' = command_queue_high_water c
  /\ should_buffer c' =
     should_buffer c || buffered_between (stream c) (stream c')
     || (command_queue_high_water c <=? Queue.length (command_queue c')).
Proof.
  intros Hrep Hfam Hready Hwritable Hmode. cbv zeta. unfold send_command.
  pose proof (replayable_record co Hrep) as Hrec.
  destruct Hrep as (N & _ & _ & V).
  rewrite N, V, Hrec, Hready, Hwritable. simpl negb. simpl orb. cbv iota.
  destruct (route_plain h co c Hfam Hmode)
    as (c1 & R & R1 & R2 & R3 & R4 & R5 & R6 & _ & R8).
  rewrite R. 
  destruct (send_command_transmitted h co co c c1 R) as (_ & _ & _ & _ & T & _).
  cbv zeta in T. rewrite T. rewrite transmit_spec. simpl.
  rewrite R2. split; [reflexivity |]. split; [| reflexivity].
  unfold route in R. rewrite Hfam, Hmode in R.
  destruct (String.eqb (command co) "monitor");
    [| destruct (String.eqb (command co) "quit")]; injection R as <-; reflexivity.
Qed.

(** The loop sets [should_buffer] when it was set before, when a write
    of the replay was buffered, or when the pending queue has reached
    [command_queue_high_water]. *)
Lemma replay_held (h : host) (q : Queue.t) :
  forall (fuel : nat) (b b' : Z) (c c' : client),
  offline_queue c = q ->
  ready c = true -> writable (stream c) = true -> pub_sub_mode c = false ->
  Forall replayable q ->
  Forall (fun co => is_subscribe_family (command co) = false) q ->
  send_offline_loop h fuel b c = Some (b', c') ->
  accepts (stream c') = accepts (stream c)
  /\ command_queue_high_water c' = command_queue_high_water c
  /\ written (stream c')
     = written (stream c) ++ List.concat (List.map (encode_record h) q)
  /\ command_queue c' = command_queue c ++ q
  /\ should_buffer c' =
     should_buffer c || buffered_between (stream c) (stream c')
     || (negb (List.length q =? 0)%nat
         && (command_queue_high_water c <=? Queue.length (command_queue c'))).
Proof.
  induction q as [| co q IH]; intros fuel b b' c c' Hq Hready Hwritable Hmode Hrep Hplain E.
  - assert (E' : send_offline_loop h fuel b c = Some (b, c))
      by (destruct fuel; simpl; rewrite Hq; reflexivity).
    rewrite E' in E. injection E as <- <-.
    rewrite buffered_between_refl. simpl. rewrite !orb_false_r, !app_nil_r. repeat split.
  - destruct fuel as [| fuel]; [simpl in E; rewrite Hq in E; discriminate |].
    apply Forall_cons in Hrep. destruct Hrep as [Hco Hrep].
    apply Forall_cons in Hplain. destruct Hplain as [Hp Hplain].
    simpl send_offline_loop in E. rewrite Hq in E. simpl in E.
    destruct (replay_one h co (set_offline_queue q c) Hco Hp Hready Hwritable Hmode)
      as (S1 & S2 & S3 & S4 & S5 & S6 & S7 & S8 & S9).
    destruct (replay_one_held h co (set_offline_queue q c) Hco Hp Hready Hwritable Hmode)
      as (O1 & O2 & O3).
    destruct (send_command h (command co) (Some (args co)) (callback_of co)
                (set_offline_queue q c)) as [r c1].
    simpl in S1, S2, S3, S4, S5, S6, S7, S8, S9, O1, O2, O3.
    destruct (IH fuel _ b' c1 c' S3 S5 S6 S7 Hrep Hplain E) as (I1 & I2 & I3 & I4 & I5).
    split; [congruence |]. split; [congruence |].
    split; [rewrite I3, S2; simpl; rewrite <- app_assoc; reflexivity |].
    split; [rewrite I4, S1, <- app_assoc; reflexivity |].
    rewrite I5, O3, ?I2, ?O2.
    rewrite (buffered_between_trans (stream c) (stream c1) (stream c') _ _ O1 S2 I3).
    assert (L : Queue.length (command_queue c1) <= Queue.length (command_queue c')).
    { rewrite I4. unfold Queue.length. rewrite List.length_app. lia. }
    assert (L0 : q = [] -> Queue.length (command_queue c') = Queue.length (command_queue c1)).
    { intros ->. rewrite I4, app_nil_r. reflexivity. }
    change (List.length (co :: q) =? 0)%nat with false. simpl negb. rewrite andb_true_l.
    destruct (should_buffer c); [reflexivity |].
    destruct (buffered_between (stream c) (stream c1)); [reflexivity |].
    destruct (buffered_between (stream c1) (stream c')); simpl.
    { rewrite orb_true_r. reflexivity. }
    rewrite !orb_false_r.
    destruct q as [| co' q'].
    + rewrite (L0 eq_refl). simpl. rewrite orb_false_r. reflexivity.
    + simpl.
      destruct (Z.leb_spec (command_queue_high_water c) (Queue.length (command_queue c1)));
        destruct (Z.leb_spec (command_queue_high_water c) (Queue.length (command_queue c')));
        try reflexivity; lia.
Qed.

(** C5, amended: [drain] is emitted at four places.  The listener of
    the stream's [drain] event emits it every time, also when
    [should_buffer] is false already.  [return_reply] and
    [return_error] emit it exactly when [should_buffer] is true and the
    pending queue, after the head was taken, is no longer than
    [command_queue_low_water]; no drain of the stream is needed for
    that.  [send_offline_queue] emits it when the offline queue is
    empty, whatever [should_buffer] is; when it replays commands, it
    emits it exactly when [should_buffer] was false before, no write of
    the replay was buffered and the pending queue stays below
    [command_queue_high_water], so that a replay that starts with
    [should_buffer] set, as queuing a command offline leaves it, emits
    none and leaves it set.  After each emission [should_buffer] is
    false. *)
Theorem drain_emissions (h : host) (c : client) :
  (drains (trace (on_stream_drain c)) = S (drains (trace c))
   /\ should_buffer (on_stream_drain c) = false)
  /\ (forall r,
        let len := Queue.length (command_queue (snd (take_head h r c))) in
        let drained := should_buffer c && (len <=? command_queue_low_water c) in
        let c' := state_of (return_reply h r c) in
        drains (trace c') = (drains (trace c) + (if drained then 1 else 0))%nat
        /\ should_buffer c' = (if drained then false else should_buffer c))
  /\ (forall err co q, command_queue c = co :: q ->
        let drained := should_buffer c
                       && (Queue.length q <=? command_queue_low_water c) in
        let c' := state_of (return_error h err c) in
        drains (trace c') = (drains (trace c) + (if drained then 1 else 0))%nat
        /\ should_buffer c' = (if drained then false else should_buffer c))
  /\ (forall fuel, offline_queue c = [] ->
        send_offline_queue h fuel c
        = Some (emit Emit_drain (set_should_buffer false (set_offline_queue Queue.empty c))))
  /\ (forall fuel,
        ready c = true -> writable (stream c) = true -> pub_sub_mode c = false ->
        Forall replayable (offline_queue c) ->
        Forall (fun co => is_subscribe_family (command co) = false) (offline_queue c) ->
        offline_queue c <> [] ->
        (List.length (offline_queue c) <= fuel)%nat ->
        exists c',
          send_offline_queue h fuel c = Some c'
          /\ should_buffer c' =
             should_buffer c || buffered_between (stream c) (stream c')
             || (command_queue_high_water c <=? Queue.length (command_queue c'))
          /\ drains (trace c')
             = (drains (trace c) + (if should_buffer c' then 0 else 1))%nat).
Proof.
  split; [| split; [| split; [| split]]].
  - unfold on_stream_drain. rewrite trace_emit, drains_app. unfold drains at 2. simpl.
    split; [lia | reflexivity].
  - intros r len drained c'. subst len drained c'. unfold return_reply.
    destruct (take_head h r c) as [popped c1] eqn:E. simpl snd.
    assert (F : trace c1 = trace c /\ should_buffer c1 = should_buffer c
                /\ command_queue_low_water c1 = command_queue_low_water c).
    { unfold take_head in E.
      destruct (pub_sub_mode c && _) in E.
      - injection E as <- <-. repeat split.
      - destruct (Queue.shift (command_queue c)) in E. injection E as <- <-. repeat split. }
    destruct F as (F1 & F2 & F3).
    destruct (after_shift_spec (Queue.length (command_queue c1)) c1)
      as (_ & _ & A1 & A2 & _).
    destruct (dispatch_quiet h popped r (after_shift (Queue.length (command_queue c1)) c1))
      as (D1 & D2 & _).
    rewrite D1, D2, A1, A2, F1, F2, F3. split; reflexivity.
  - intros err co q Hq drained c'. subst drained c'.
    rewrite (return_error_head h err c co q Hq). cbv zeta. simpl state_of.
    destruct (after_shift_spec (Queue.length q) (set_command_queue q c))
      as (_ & _ & A1 & A2 & _).
    simpl in A1, A2.
    set (c2 := after_shift (Queue.length q) (set_command_queue q c)) in *.
    assert (Q : quiet c2 (match callback_of co with
                          | Some cb => invoke cb (Some {| message := message err;
                                command_used := Some (toUpperCase h (command co)) |})
                                undefined c2
                          | None => emit (Emit_error {| message := message err;
                                command_used := Some (toUpperCase h (command co)) |}) c2
                          end)).
    { destruct (callback_of co); [apply quiet_invoke | apply quiet_emit; reflexivity]. }
    destruct Q as (Q1 & Q2 & _). rewrite Q1, Q2, A1, A2. split; reflexivity.
  - intros fuel Hq. unfold send_offline_queue.
    replace (send_offline_loop h fuel 0 c) with (Some (0, c))
      by (destruct fuel; simpl; rewrite Hq; reflexivity).
    reflexivity.
  - intros fuel Hready Hwritable Hmode Hrep Hplain Hne Hfuel.
    destruct (replay_loop h (offline_queue c) fuel 0 c eq_refl Hfuel Hready Hwritable Hmode
                Hrep Hplain)
      as (b' & c1 & E & _ & _ & _ & T & _ & _ & _ & _ & B4).
    destruct (replay_held h (offline_queue c) fuel 0 b' c c1 eq_refl Hready Hwritable Hmode
                Hrep Hplain E)
      as (_ & _ & _ & _ & Held).
    assert (N : negb (List.length (offline_queue c) =? 0)%nat = true)
      by (destruct (offline_queue c); [contradiction Hne; reflexivity | reflexivity]).
    rewrite N, andb_true_l in Held.
    specialize (B4 Hne).
    unfold send_offline_queue. rewrite E.
    destruct (Z.eqb_spec b' 0) as [Hb | Hb].
    + apply B4 in Hb. eexists. split; [reflexivity |].
      change (should_buffer (emit Emit_drain
                (set_should_buffer false (set_offline_queue Queue.empty c1)))) with false.
      change (stream (emit Emit_drain
                (set_should_buffer false (set_offline_queue Queue.empty c1))))
        with (stream c1).
      change (command_queue (emit Emit_drain
                (set_should_buffer false (set_offline_queue Queue.empty c1))))
        with (command_queue c1).
      rewrite <- Held, Hb. split; [reflexivity |].
      rewrite trace_emit, drains_app. unfold drains at 2. simpl.
      change (trace (set_should_buffer false (set_offline_queue Queue.empty c1)))
        with (trace c1).
      rewrite T. reflexivity.
    + eexists. split; [reflexivity |].
      change (trace (set_offline_queue Queue.empty c1)) with (trace c1).
      change (should_buffer (set_offline_queue Queue.empty c1)) with (should_buffer c1).
      change (stream (set_offline_queue Queue.empty c1)) with (stream c1).
      change (command_queue (set_offline_queue Queue.empty c1)) with (command_queue c1).
      split; [exact Held |]. rewrite T.
      destruct (should_buffer c1) eqn:Sb.
      * lia.
      * destruct Hb. apply B4. reflexivity.
Qed.

Lemma drain_emissions_witness :
  drains (trace (state_of (return_error ascii_host (new_Error "ERR")
                             (set_should_buffer true
                                (set_command_queue [get_foo 1] ready_client))))) = 1%nat
  /\ exists c',
       send_offline_queue ascii_host 1
         (set_should_buffer true (set_offline_queue [get_foo 1] ready_client)) = Some c'
       /\ should_buffer c' = true
       /\ drains (trace c') = 0%nat.
Proof.
  split.
  - destruct (drain_emissions ascii_host
                (set_should_buffer true (set_command_queue [get_foo 1] ready_client)))
      as (_ & _ & H & _).
    destruct (H (new_Error "ERR") (get_foo 1) [] eq_refl) as [D _].
    rewrite D. reflexivity.
  - destruct (drain_emissions ascii_host
                (set_should_buffer true (set_offline_queue [get_foo 1] ready_client)))
      as (_ & _ & _ & _ & H).
    destruct (H 1%nat eq_refl eq_refl eq_refl) as (c' & E & B & D).
    + apply List.Forall_cons; [apply get_foo_replayable | apply List.Forall_nil].
    + apply List.Forall_cons; [reflexivity | apply List.Forall_nil].
    + discriminate.
    + simpl. lia.
    + exists c'. split; [exact E |].
      assert (Sb : should_buffer c' = true) by (rewrite B; reflexivity).
      split; [exact Sb |]. rewrite D, Sb. reflexivity.
Defined.

(** C5 as stated fails: the stream's [drain] is passed on although
    [should_buffer] is false; a reply that empties the pending queue
    brings a [drain] with no drain of the stream; and the replay of a
    command that was held back, none of whose writes is buffered, brings
    no [drain] and leaves [should_buffer] set. *)
Lemma drain_emitted_without_backpressure :
  should_buffer ready_client = false
  /\ trace (on_stream_drain ready_client) = [Emit_drain]
  /\ trace (state_of (return_reply ascii_host (RStr "OK")
                        (set_should_buffer true
                           (set_command_queue [get_foo 1] ready_client))))
     = [Emit_idle; Emit_drain; Called (CbUser 1) None (VReply (RStr "OK"))]
  /\ option_map (fun c' => (trace c', should_buffer c', List.length (written (stream c'))))
       (send_offline_queue ascii_host 1
          (set_ready true
             (snd (send_command ascii_host "get" (Some [AStr "foo"]) None
                     (set_connected true new_client)))))
     = Some ([], true, 1%nat)
  /\ option_map trace (send_offline_queue ascii_host 0 ready_client) = Some [Emit_drain].
Proof. vm_compute. repeat split. Qed.

(** ** The result of send_command *)

Lemma snoc_ne (q : Queue.t) (co : Command) : q ++ [co] <> q.
Proof.
  intros H. apply (f_equal (@List.length Command)) in H.
  rewrite List.length_app in H. simpl in H. lia.
Qed.

(** C4, amended: for a call that puts its command onto the pending
    queue, [send_command] returns the negation of [should_buffer] as
    the call leaves it, and [should_buffer] is then set if it was set
    before, if a write of the call was buffered, or if the pending queue
    has reached [command_queue_high_water]; so the call that brings the
    queue to that length returns false.  A call that lands on the
    offline queue sets [should_buffer] and returns false.  A call that
    is refused, one that puts its command on neither queue, leaves
    [should_buffer] alone; it returns what the callback returned when
    [set] or [setex] lacks its value and there is a callback, false
    when the command cannot be written, the offline queue is disabled
    and there is a callback, and [undefined] in every other case. *)
Theorem send_command_backpressure (h : host) (cmd : string) (args : option (list arg))
    (cb : option callback) (c : client) :
  let r := fst (send_command h cmd args cb c) in
  let c' := snd (send_command h cmd args cb c) in
  (Queue.length (command_queue c') = Queue.length (command_queue c) + 1 ->
     r = Bool (negb (should_buffer c'))
     /\ should_buffer c' =
        should_buffer c || buffered_between (stream c) (stream c')
        || (command_queue_high_water c <=? Queue.length (command_queue c'))
     /\ (Queue.length (command_queue c') = command_queue_high_water c -> r = Bool false))
  /\ (offline_queue c' <> offline_queue c -> r = Bool false /\ should_buffer c' = true)
  /\ (command_queue c' = command_queue c -> offline_queue c' = offline_queue c ->
      should_buffer c' = should_buffer c
      /\ r = match validate cmd (fst (normalize cmd args cb)), snd (normalize cmd args cb) with
             | Some (Some _), Some cb' => callback_result cb'
             | None, Some _ =>
                 if (negb (ready c) && negb (send_anyway c)) || negb (writable (stream c))
                 then Bool false else Undefined
             | _, _ => Undefined
             end).
Proof.
  cbv zeta. unfold send_command.
  destruct (normalize cmd args cb) as [args' cb']. cbn [fst snd].
  destruct (validate cmd args') as [[err |] |].
  - destruct cb' as [f |]; cbn [fst snd].
    + destruct (invoke_pipeline f (Some err) undefined c) as (H1 & H2 & _ & H4 & _).
      rewrite H1, H2, H4. split; [lia |]. split; [congruence |]. split; reflexivity.
    + split; [simpl; lia |]. split; [simpl; congruence |]. split; reflexivity.
  - cbn [fst snd]. split; [lia |]. split; [congruence |]. destruct cb'; split; reflexivity.
  - destruct ((negb (ready c) && negb (send_anyway c)) || negb (writable (stream c))).
    + unfold hold_back. destruct (enable_offline_queue c); cbn [fst snd callback_of].
      * split; [simpl; lia |]. split; [intros _; split; reflexivity |].
        intros _ Hoff. simpl in Hoff. destruct (snoc_ne _ _ Hoff).
      * destruct cb' as [f |]; cbn [fst snd].
        -- destruct (invoke_pipeline f (Some not_writeable_error) undefined c)
             as (H1 & H2 & _ & H4 & _).
           rewrite H1, H2, H4. split; [lia |]. split; [congruence |]. split; reflexivity.
        -- split; [simpl; lia |]. split; [simpl; congruence |]. split; reflexivity.
    + destruct (route h _ c) as [[co' c1] |] eqn:E.
      * destruct (send_command_transmitted h _ co' c c1 E) as (T1 & T2 & T3 & T4 & T5 & _).
        split; [| split].
        -- intros _. split; [exact T1 |]. split; [exact T5 |].
           intros Hfull. rewrite T1, T5, Hfull, Z.leb_refl, orb_true_r. reflexivity.
        -- intros Hne. contradiction.
        -- intros Hq _. rewrite T2 in Hq. destruct (snoc_ne _ _ Hq).
      * cbn [fst snd]. split; [simpl; lia |]. split; [simpl; congruence |].
        intros _ _. split; [reflexivity |]. destruct cb'; reflexivity.
Qed.

Lemma send_command_backpressure_witness :
  fst (send_command ascii_host "get" (Some [AStr "foo"]) None one_deep_client) = Bool false
  /\ fst (send_command ascii_host "get" (Some [AStr "foo"]) None new_client) = Bool false
  /\ fst (send_command ascii_host "set" (Some [AStr "foo"; ANull]) (Some (CbUser 1))
            ready_client) = Returned_by 1.
Proof.
  split; [| split].
  - pose proof (send_command_backpressure ascii_host "get" (Some [AStr "foo"]) None
                  one_deep_client) as [H _].
    destruct (H eq_refl) as (_ & _ & Hfull). apply Hfull. reflexivity.
  - pose proof (send_command_backpressure ascii_host "get" (Some [AStr "foo"]) None
                  new_client) as (_ & H & _).
    apply H. discriminate.
  - pose proof (send_command_backpressure ascii_host "set" (Some [AStr "foo"; ANull])
                  (Some (CbUser 1)) ready_client) as (_ & _ & H).
    destruct (H eq_refl eq_refl) as [_ R]. exact R.
Defined.

(** C4 as stated fails for a call that is refused: in pub/sub mode
    [get] is not sent, [should_buffer] stays false, and yet the call
    does not return true but [undefined]; and a [set] without its value
    returns what the callback returns. *)
Lemma refused_call_returns_undefined :
  fst (send_command ascii_host "get" (Some [AStr "foo"]) None subscribed_client) = Undefined
  /\ should_buffer (snd (send_command ascii_host "get" (Some [AStr "foo"]) None
                           subscribed_client)) = false
  /\ fst (send_command ascii_host "set" (Some [AStr "foo"; ANull]) (Some (CbUser 1))
            ready_client) = Returned_by 1.
Proof. repeat split. Qed.

(** ** Commands in pub/sub mode *)

(** C6 (the code departs from it): a command other than the subscribe
    family, [monitor] and [quit] that is submitted to a ready client in
    pub/sub mode is neither put on a queue nor written, and the error is
    emitted as an [error] event.  The callback is not called, whether one
    was supplied or not: the state after the call is the state before it
    with the one [error] event added. *)
Theorem subscriber_mode_rejection (h : host) (cmd : string) (args : option (list arg))
    (cb : option callback) (c : client) :
  ready c = true -> writable (stream c) = true -> pub_sub_mode c = true ->
  is_subscribe_family cmd = false ->
  String.eqb cmd "monitor" = false -> String.eqb cmd "quit" = false ->
  validate cmd (fst (normalize cmd args cb)) = None ->
  send_command h cmd args cb c = (Undefined, emit (Emit_error subscriber_mode_error) c).
Proof.
  intros Hready Hwritable Hmode Hfamily Hmonitor Hquit Hvalid. unfold send_command.
  destruct (normalize cmd args cb) as [args' cb']. simpl in Hvalid.
  rewrite Hvalid, Hready, Hwritable. simpl. unfold route. simpl.
  rewrite Hfamily, Hmonitor, Hquit, Hmode. reflexivity.
Qed.

Lemma subscriber_mode_rejection_witness :
  send_command ascii_host "get" (Some [AStr "foo"]) (Some (CbUser 7)) subscribed_client
  = (Undefined, emit (Emit_error subscriber_mode_error) subscribed_client)
  /\ calls (trace (snd (send_command ascii_host "get" (Some [AStr "foo"])
                         (Some (CbUser 7)) subscribed_client))) = [].
Proof.
  rewrite (subscriber_mode_rejection ascii_host "get" (Some [AStr "foo"])
             (Some (CbUser 7)) subscribed_client
             eq_refl eq_refl eq_refl eq_refl eq_refl eq_refl eq_refl).
  split; reflexivity.
Defined.

(** ** hgetall *)











(** ** First in, first out *)







Lemma command_record_of (s : call) : command (record_of s) = call_command s.
Proof.
  unfold record_of.
  destruct (normalize (call_command s) (call_args s) (call_callback s)). reflexivity.
Qed.


Lemma pushed_message_keeps_head (h : host) (c : client) (first : reply)
    (rest : list reply) :
  pub_sub_mode c = true -> is_push_type first ->
  take_head h (RArr (first :: rest)) c = (None, c).
Proof.
  intros Hmode Hfirst. unfold take_head, pushed_type. rewrite Hmode.
  destruct Hfirst as [-> | [-> | [-> | ->]]]; reflexivity.
Qed.



(** ** Restoring the modal state *)

(** C8 (the code departs from it): after a reconnection with db 2
    selected and [ch1] subscribed, [on_ready] writes [select 2] first
    and [subscribe ch1] next and holds [ready] back.  When the server
    then answers the [subscribe] with an error, the error comes to the
    counting callback like a confirmation would, and [ready] is
    emitted although no subscription was confirmed. *)
Theorem ready_emitted_on_failed_resubscription :
  exists c1 c2 c3 : client,
    on_ready ascii_host 0 reconnected_client = Some c1
    /\ written (stream c1) = encode ascii_host "select" [ANum 2] false
                             ++ encode ascii_host "subscribe" [AStr "ch1"] false
    /\ offline_queue c1 = [] /\ trace c1 = []
    /\ return_reply ascii_host (RStr "OK") c1 = Return c2 /\ trace c2 = []
    /\ return_error ascii_host (new_Error "NOPERM no permission for channel") c2 = Return c3
    /\ trace c3 =
       [Called (CbResubscribe 0)
          (Some {| message := "NOPERM no permission for channel";
                   command_used := Some "SUBSCRIBE" |}) undefined;
        Emit_ready].
Proof.
  eexists. eexists. eexists.
  split; [vm_compute; reflexivity |].
  split; [vm_compute; reflexivity |].
  split; [reflexivity |]. split; [reflexivity |].
  split; [vm_compute; reflexivity |]. split; [reflexivity |].
  split; [vm_compute; reflexivity |]. vm_compute. reflexivity.
Qed.

(** * Further properties of the code *)

(** ** The command encoder *)

Lemma append_assoc (a b c : string) : (a +:+ b) +:+ c = a +:+ b +:+ c.
Proof.
  induction a as [| x a IH]; [reflexivity |].
  change (String x ((a +:+ b) +:+ c) = String x (a +:+ b +:+ c)). f_equal. exact IH.
Qed.

Lemma append_empty_r (a : string) : a +:+ "" = a.
Proof.
  induction a as [| x a IH]; [reflexivity |].
  change (String x (a +:+ "") = String x a). f_equal. exact IH.
Qed.

Lemma wire_app (l1 l2 : list string) : wire (l1 ++ l2) = wire l1 +:+ wire l2.
Proof.
  induction l1 as [| x l1 IH]; [reflexivity |].
  change (wire ((x :: l1) ++ l2)) with (x +:+ wire (l1 ++ l2)).
  change (wire (x :: l1)) with (x +:+ wire l1).
  rewrite IH, append_assoc. reflexivity.
Qed.

Lemma fold_bulk (h : host) (args : list arg) : forall acc : string,
  fold_left (fun s a => s +:+ bulk (js_String h a)) args acc
  = acc +:+ wire (List.map (fun a => bulk (js_String h a)) args).
Proof.
  induction args as [| a args IH]; intros acc.
  - symmetry. apply append_empty_r.
  - change (fold_left (fun s a => s +:+ bulk (js_String h a)) (a :: args) acc)
      with (fold_left (fun s a => s +:+ bulk (js_String h a)) args
              (acc +:+ bulk (js_String h a))).
    rewrite IH, append_assoc. reflexivity.
Qed.

Lemma length_zero_empty (s : string) : (String.length s =? 0)%nat = true -> s = "".
Proof. destruct s; [reflexivity | discriminate]. Qed.

Lemma encode_wire (h : host) (cmd : string) (args : list arg) :
  wire (encode h cmd args (existsb isBuffer args))
  = command_header cmd (List.length args + 1)
    +:+ wire (List.map (fun a => bulk (payload h a)) args).
Proof.
  unfold encode. destruct (existsb isBuffer args) eqn:E; simpl negb; cbv iota.
  - simpl wire. f_equal. clear E.
    induction args as [| a args IH]; [reflexivity |].
    simpl List.map. simpl List.concat. rewrite wire_app, IH. simpl wire at 3. f_equal.
    destruct a; try (simpl; apply append_empty_r).
    simpl payload. destruct (String.length b =? 0)%nat eqn:Eb.
    + apply length_zero_empty in Eb. subst b. reflexivity.
    + unfold bulk. simpl wire. rewrite append_empty_r, !append_assoc. reflexivity.
  - simpl wire. rewrite append_empty_r, fold_bulk. f_equal. f_equal.
    apply List.map_ext_in. intros a Ha.
    destruct a; try reflexivity.
    exfalso. apply not_true_iff_false in E. apply E.
    apply existsb_exists. exists (ABuf b). split; [exact Ha | reflexivity].
Qed.

Lemma digit_of_char (d : N) : (d < 10)%N -> digit_of (pretty_N_char d) = Some d.
Proof.
  intros H.
  assert (C : (d = 0 \/ d = 1 \/ d = 2 \/ d = 3 \/ d = 4 \/ d = 5 \/ d = 6 \/ d = 7
              \/ d = 8 \/ d = 9)%N) by lia.
  destruct C as [-> | [-> | [-> | [-> | [-> | [-> | [-> | [-> | [-> | ->]]]]]]]]];
    reflexivity.
Qed.

Lemma read_pretty_go (x : N) :
  exists k : N, forall (s : string) (acc : N),
    read_digits (pretty_N_go x s) acc = read_digits s (acc * k + x)%N.
Proof.
  induction (N.lt_wf_0 x) as [x _ IH].
  destruct (N.eq_dec x 0%N) as [-> | Hx].
  - exists 1%N. intros s acc. rewrite pretty_N_go_0. f_equal. lia.
  - assert (Hpos : (0 < x)%N) by lia.
    destruct (IH (x / 10)%N) as (k & Hk).
    { apply N.div_lt; lia. }
    exists (10 * k)%N. intros s acc.
    rewrite (pretty_N_go_step x s Hpos), Hk.
    change (read_digits (String (pretty_N_char (x mod 10)) s) (acc * k + x / 10)%N)
      with (match digit_of (pretty_N_char (x mod 10)) with
            | Some d => read_digits s ((acc * k + x / 10) * 10 + d)%N
            | None => ((acc * k + x / 10)%N, String (pretty_N_char (x mod 10)) s)
            end).
    rewrite digit_of_char by (apply N.mod_lt; lia).
    f_equal. pose proof (N.div_mod x 10%N ltac:(lia)). lia.
Qed.

Lemma pretty_go_app (x : N) : forall s rest : string,
  pretty_N_go x s +:+ rest = pretty_N_go x (s +:+ rest).
Proof.
  induction (N.lt_wf_0 x) as [x _ IH]; intros s rest.
  destruct (N.eq_dec x 0%N) as [-> | Hx].
  - rewrite !pretty_N_go_0. reflexivity.
  - assert (Hpos : (0 < x)%N) by lia.
    rewrite !(pretty_N_go_step x _ Hpos).
    rewrite IH by (apply N.div_lt; lia). reflexivity.
Qed.

Lemma read_digits_stop (rest : string) (acc : N) :
  read_digits (CRLF +:+ rest) acc = (acc, CRLF +:+ rest).
Proof. reflexivity. Qed.

Lemma strip_CRLF (rest : string) : strip_prefix CRLF (CRLF +:+ rest) = Some rest.
Proof. reflexivity. Qed.

Lemma read_count_pretty (m : nat) (rest : string) :
  read_count (pretty (Z.of_nat m) +:+ CRLF +:+ rest) = Some (m, rest).
Proof.
  unfold read_count.
  assert (E : read_digits (pretty (Z.of_nat m) +:+ CRLF +:+ rest) 0
              = (N.of_nat m, CRLF +:+ rest)).
  { destruct m as [| m].
    - reflexivity.
    - change (pretty (Z.of_nat (S m))) with (pretty_N_go (N.pos (Pos.of_succ_nat m)) "").
      rewrite pretty_go_app.
      destruct (read_pretty_go (N.pos (Pos.of_succ_nat m))) as (k & Hk).
      rewrite Hk. change ("" +:+ CRLF +:+ rest) with (CRLF +:+ rest).
      rewrite read_digits_stop. f_equal; lia. }
  rewrite E, strip_CRLF. simpl. rewrite Nat2N.id. reflexivity.
Qed.

Lemma take_bytes_app (p rest : string) :
  take_bytes (String.length p) (p +:+ rest) = Some (p, rest).
Proof.
  induction p as [| x p IH]; [reflexivity |].
  change (String x p +:+ rest) with (String x (p +:+ rest)).
  change (take_bytes (String.length (String x p)) (String x (p +:+ rest)))
    with (option_map (fun pr => (String x (fst pr), snd pr))
            (take_bytes (String.length p) (p +:+ rest))).
  rewrite IH. reflexivity.
Qed.

Lemma read_bulk_bulk (p rest : string) : read_bulk (bulk p +:+ rest) = Some (p, rest).
Proof.
  unfold read_bulk, bulk. rewrite !append_assoc.
  change ("$" +:+ pretty (Z.of_nat (String.length p)) +:+ CRLF +:+ p +:+ CRLF +:+ rest)
    with (String "$" (pretty (Z.of_nat (String.length p)) +:+ CRLF +:+ p +:+ CRLF +:+ rest)).
  change (strip_prefix "$" (String "$" ?s)) with (Some s).
  cbv iota beta. rewrite read_count_pretty, take_bytes_app, strip_CRLF. reflexivity.
Qed.

Lemma read_bulks_wire (l : list string) (rest : string) :
  read_bulks (List.length l) (wire (List.map bulk l) +:+ rest) = Some (l, rest).
Proof.
  induction l as [| p l IH]; [reflexivity |].
  change (wire (List.map bulk (p :: l))) with (bulk p +:+ wire (List.map bulk l)).
  rewrite append_assoc.
  change (read_bulks (List.length (p :: l)) ?s)
    with (match read_bulk s with
          | None => None
          | Some (b, s') =>
              option_map (fun lr => (b :: fst lr, snd lr)) (read_bulks (List.length l) s')
          end).
  rewrite read_bulk_bulk, IH. reflexivity.
Qed.

Lemma js_length_ascii (s : string) : all_ascii s = true -> js_length s = String.length s.
Proof.
  induction s as [| x s IH]; intros H; [reflexivity |].
  change (all_ascii (String x s)) with (is_ascii_char x && all_ascii s) in H.
  apply andb_true_iff in H. destruct H as [Hx Hs].
  unfold is_ascii_char in Hx. apply Nat.ltb_lt in Hx.
  change (js_length (String x s))
    with ((if Nat.leb 128 (nat_of_ascii x) && Nat.ltb (nat_of_ascii x) 192 then 0 else 1)
          + (if Nat.leb 240 (nat_of_ascii x) then 1 else 0) + js_length s)%nat.
  rewrite (IH Hs).
  generalize dependent (nat_of_ascii x). intros n Hn.
  destruct (Nat.leb_spec 128 n); [lia |].
  destruct (Nat.leb_spec 240 n); [lia |]. reflexivity.
Qed.

Lemma read_request_wire (l : list string) :
  read_request ("*" +:+ pretty (Z.of_nat (List.length l)) +:+ CRLF +:+ wire (List.map bulk l))
  = Some l.
Proof.
  unfold read_request.
  change ("*" +:+ pretty (Z.of_nat (List.length l)) +:+ CRLF +:+ wire (List.map bulk l))
    with (String "*" (pretty (Z.of_nat (List.length l)) +:+ CRLF +:+ wire (List.map bulk l))).
  change (strip_prefix "*" (String "*" ?s)) with (Some s).
  cbv iota beta. rewrite read_count_pretty.
  rewrite <- (append_empty_r (wire (List.map bulk l))).
  rewrite read_bulks_wire. reflexivity.
Qed.

(** What [send_command] writes for a command whose name is ASCII text
    is one well-formed request, however the writes split it: read
    back as a multi-bulk request, with every length taken from the
    bytes themselves, it is the command name followed by one element
    for each argument, a Buffer with its bytes as they are (the empty
    Buffer as [$0]) and any other argument with its text, and nothing
    is left over. *)
Theorem encode_wire_format (h : host) (cmd : string) (args : list arg) :
  all_ascii cmd = true ->
  read_request (wire (encode h cmd args (existsb isBuffer args)))
  = Some (cmd :: List.map (payload h) args).
Proof.
  intros Hcmd. rewrite encode_wire. unfold command_header.
  rewrite (js_length_ascii cmd Hcmd).
  replace (List.map (fun a => bulk (payload h a)) args)
    with (List.map bulk (List.map (payload h) args)) by apply List.map_map.
  rewrite <- (read_request_wire (cmd :: List.map (payload h) args)).
  f_equal.
  change (wire (List.map bulk (cmd :: List.map (payload h) args)))
    with (bulk cmd +:+ wire (List.map bulk (List.map (payload h) args))).
  unfold bulk at 2. rewrite !append_assoc.
  cbn [List.length]. rewrite length_map.
  replace (Z.of_nat (List.length args + 1)) with (Z.of_nat (S (List.length args))) by lia.
  reflexivity.
Qed.

Lemma encode_wire_format_witness :
  all_ascii "set" = true
  /\ encode ascii_host "set" [AStr "foo"; ABuf "bar"; ANum 10; ABuf ""] true
     = ["*5" +:+ CRLF +:+ "$3" +:+ CRLF +:+ "set" +:+ CRLF;
        "$3" +:+ CRLF +:+ "foo" +:+ CRLF;
        "$3" +:+ CRLF; "bar"; CRLF;
        "$2" +:+ CRLF +:+ "10" +:+ CRLF;
        "$0" +:+ CRLF +:+ CRLF]
  /\ read_request
       (wire (encode ascii_host "set" [AStr "foo"; ABuf "bar"; ANum 10; ABuf ""] true))
     = Some ["set"; "foo"; "bar"; "10"; ""].
Proof.
  split; [reflexivity |]. split; [reflexivity |].
  exact (encode_wire_format ascii_host "set" [AStr "foo"; ABuf "bar"; ANum 10; ABuf ""]
           eq_refl).
Defined.

(** ** The arguments of send_command *)

Lemma last_arg_snoc (args : list arg) (a : arg) : last_arg (args ++ [a]) = a.
Proof. unfold last_arg. apply List.last_last. Qed.

(** The variadic form is the explicit form: a function at the end of
    the argument list, with no callback given, is the callback. *)
Theorem trailing_function_is_callback (h : host) (cmd : string) (args : list arg)
    (f : nat) (c : client) :
  send_command h cmd (Some (args ++ [AFun f])) None c
  = send_command h cmd (Some args) (Some (CbUser f)) c.
Proof.
  unfold send_command.
  replace (normalize cmd (Some (args ++ [AFun f])) None)
    with (normalize cmd (Some args) (Some (CbUser f))); [reflexivity |].
  unfold normalize. rewrite last_arg_snoc, List.removelast_last. reflexivity.
Qed.

(** For [sadd] and [srem] an array in the last place stands for its
    elements: passing the members as one array is passing them one by
    one. *)
Theorem sadd_array_is_spliced (h : host) (cmd : string) (args members : list arg)
    (cb : option callback) (c : client) :
  cmd = "sadd" \/ cmd = "srem" ->
  is_scalar (last_arg (args ++ members)) = true ->
  send_command h cmd (Some (args ++ [AArr members])) cb c
  = send_command h cmd (Some (args ++ members)) cb c.
Proof.
  intros Hcmd Hlast. unfold send_command.
  replace (normalize cmd (Some (args ++ [AArr members])) cb)
    with (normalize cmd (Some (args ++ members)) cb); [reflexivity |].
  unfold normalize. rewrite last_arg_snoc.
  assert (E : String.eqb cmd "sadd" || String.eqb cmd "srem" = true).
  { destruct Hcmd as [-> | ->]; reflexivity. }
  rewrite E.
  destruct (last_arg (args ++ members)) eqn:El; try discriminate;
    destruct cb; rewrite ?last_arg_snoc, ?El, ?List.removelast_last; reflexivity.
Qed.

Lemma sadd_array_is_spliced_witness :
  send_command ascii_host "sadd" (Some ([AStr "k"] ++ [AArr [AStr "a"; AStr "b"]]))
    (Some (CbUser 1)) ready_client
  = send_command ascii_host "sadd" (Some ([AStr "k"] ++ [AStr "a"; AStr "b"]))
      (Some (CbUser 1)) ready_client.
Proof.
  apply (sadd_array_is_spliced ascii_host "sadd" [AStr "k"] [AStr "a"; AStr "b"]
           (Some (CbUser 1)) ready_client); [left |]; reflexivity.
Defined.

(** [set] and [setex] with [null] or [undefined] for the value are
    refused in every state of the client: nothing is queued or written,
    and the error goes to the callback if there is one and into an
    [error] event otherwise. *)
Theorem set_without_value_is_refused (h : host) (cmd : string) (args : list arg)
    (cb : option callback) (c : client) :
  cmd = "set" \/ cmd = "setex" ->
  last_arg args = ANull \/ last_arg args = AUndef -> args <> [] ->
  send_command h cmd (Some args) cb c
  = (match cb with Some f => callback_result f | None => Undefined end,
     match cb with
           | Some f => invoke f (Some (missing_value_error cmd)) undefined c
           | None => emit (Emit_error (missing_value_error cmd)) c
           end).
Proof.
  intros Hcmd Hlast Hne. unfold send_command.
  assert (N : normalize cmd (Some args) cb = (args, cb)).
  { unfold normalize.
    assert (E : String.eqb cmd "sadd" || String.eqb cmd "srem" = false)
      by (destruct Hcmd as [-> | ->]; reflexivity).
    rewrite E. destruct Hlast as [-> | ->]; destruct cb; reflexivity. }
  rewrite N. unfold validate.
  assert (E : String.eqb cmd "set" || String.eqb cmd "setex" = true)
    by (destruct Hcmd as [-> | ->]; reflexivity).
  rewrite E. destruct args as [| a args]; [contradiction |].
  unfold missing_value_error. destruct Hlast as [-> | ->]; destruct cb; reflexivity.
Qed.

Lemma set_without_value_is_refused_witness :
  send_command ascii_host "set" (Some [AStr "foo"; ANull]) (Some (CbUser 1)) new_client
  = (Returned_by 1, invoke (CbUser 1) (Some (missing_value_error "set")) undefined new_client).
Proof.
  apply (set_without_value_is_refused ascii_host "set" [AStr "foo"; ANull]
           (Some (CbUser 1)) new_client); [left | left | discriminate]; reflexivity.
Defined.

(** [set] and [setex] without any argument return at once: no error is
    raised, no event is emitted and the callback is never called. *)
Theorem set_without_arguments_is_dropped (h : host) (cmd : string)
    (cb : option callback) (c : client) :
  cmd = "set" \/ cmd = "setex" ->
  send_command h cmd None cb c = (Undefined, c)
  /\ send_command h cmd (Some []) cb c = (Undefined, c).
Proof.
  intros [-> | ->]; split; unfold send_command; destruct cb; reflexivity.
Qed.

Lemma set_without_arguments_is_dropped_witness :
  send_command ascii_host "set" (Some []) (Some (CbUser 1)) ready_client
  = (Undefined, ready_client).
Proof.
  apply (set_without_arguments_is_dropped ascii_host "set" (Some (CbUser 1)) ready_client).
  left. reflexivity.
Defined.

(** ** Commands held back *)

(** While the client is not ready (and the call is not forced by
    [send_anyway]) or the stream is not writable, a command that passes
    validation is not written: with the offline queue enabled its record
    goes to the end of the offline queue, [should_buffer] is set and the
    call returns false; with the offline queue disabled the record is
    dropped and a not-writeable error goes to the callback or, without
    one, into an [error] event. *)
Theorem command_held_back (h : host) (s : call) (c : client) :
  (negb (ready c) && negb (send_anyway c)) || negb (writable (stream c)) = true ->
  validate (call_command s) (args (record_of s)) = None ->
  let c' := snd (submit h s c) in
  stream c' = stream c /\ command_queue c' = command_queue c
  /\ (enable_offline_queue c = true ->
      fst (submit h s c) = Bool false
      /\ offline_queue c' = offline_queue c ++ [record_of s]
      /\ should_buffer c' = true /\ trace c' = trace c)
  /\ (enable_offline_queue c = false ->
      offline_queue c' = offline_queue c
      /\ c' = match callback_of (record_of s) with
              | Some f => invoke f (Some not_writeable_error) undefined c
              | None => emit (Emit_error not_writeable_error) c
              end).
Proof.
  intros Hgate Hvalid. unfold submit, send_command. unfold record_of in *.
  destruct (normalize (call_command s) (call_args s) (call_callback s)) as [args' cb'].
  simpl in Hvalid. rewrite Hvalid, Hgate. unfold hold_back. simpl callback_of.
  destruct (enable_offline_queue c); simpl.
  - repeat split; discriminate.
  - destruct cb' as [f |]; simpl.
    + destruct (invoke_pipeline f (Some not_writeable_error) undefined c)
        as (H1 & H2 & _ & _ & H5 & _).
      repeat split; try discriminate; assumption.
    + repeat split; discriminate.
Qed.

Lemma command_held_back_witness :
  offline_queue (snd (submit ascii_host
                        {| call_command := "get"; call_args := Some [AStr "foo"];
                           call_callback := Some (CbUser 1) |} new_client))
  = [get_foo 1].
Proof.
  destruct (command_held_back ascii_host
              {| call_command := "get"; call_args := Some [AStr "foo"];
                 call_callback := Some (CbUser 1) |} new_client eq_refl eq_refl)
    as (_ & _ & H & _).
  destruct (H eq_refl) as (_ & Q & _). exact Q.
Defined.

(** ** The subscription set *)

Lemma set_add_spec (key : string) (s : list string) :
  (forall k, In k (set_add key s) <-> In k s \/ k = key)
  /\ (List.NoDup s -> List.NoDup (set_add key s)).
Proof.
  unfold set_add. destruct (existsb (String.eqb key) s) eqn:E.
  - apply existsb_exists in E. destruct E as (k' & Hin & Heq).
    apply String.eqb_eq in Heq. subst k'. split; [| tauto].
    intros k. split; [tauto |]. intros [H | ->]; assumption.
  - split.
    + intros k. rewrite List.in_app_iff. simpl. intuition.
    + intros Hnd. apply List.NoDup_app; [exact Hnd | repeat constructor; intros [] |].
      intros k Hk [<- | []].
      apply not_true_iff_false in E. apply E. apply existsb_exists.
      exists key. split; [exact Hk | apply String.eqb_refl].
Qed.

Lemma set_delete_spec (key : string) (s : list string) :
  (forall k, In k (set_delete key s) <-> In k s /\ k <> key)
  /\ (List.NoDup s -> List.NoDup (set_delete key s)).
Proof.
  unfold set_delete. split.
  - intros k. rewrite List.filter_In. split.
    + intros [Hin Hne]. split; [exact Hin |]. intros ->.
      rewrite String.eqb_refl in Hne. discriminate.
    + intros [Hin Hne]. split; [exact Hin |].
      destruct (String.eqb key k) eqn:E; [| reflexivity].
      apply String.eqb_eq in E. congruence.
  - apply List.NoDup_filter.
Qed.

Lemma fold_set_add (keys : list string) : forall s : list string,
  (forall k, In k (fold_left (fun s k => set_add k s) keys s) <-> In k s \/ In k keys)
  /\ (List.NoDup s -> List.NoDup (fold_left (fun s k => set_add k s) keys s)).
Proof.
  induction keys as [| key keys IH]; intros s; simpl.
  - split; [intros k; tauto | tauto].
  - destruct (IH (set_add key s)) as [I1 I2]. destruct (set_add_spec key s) as [A1 A2].
    split.
    + intros k. rewrite I1, A1. intuition.
    + intros Hnd. apply I2, A2, Hnd.
Qed.

Lemma fold_set_delete (keys : list string) : forall s : list string,
  (forall k, In k (fold_left (fun s k => set_delete k s) keys s)
             <-> In k s /\ ~ In k keys)
  /\ (List.NoDup s -> List.NoDup (fold_left (fun s k => set_delete k s) keys s)).
Proof.
  induction keys as [| key keys IH]; intros s; simpl.
  - split; [intros k; tauto | tauto].
  - destruct (IH (set_delete key s)) as [I1 I2].
    destruct (set_delete_spec key s) as [D1 D2]. split.
    + intros k. rewrite I1, D1. intuition.
    + intros Hnd. apply I2, D2, Hnd.
Qed.

(** What a subscription command that is sent leaves behind. *)
Lemma subscription_sent (h : host) (s : call) (c : client) :
  ready c = true -> writable (stream c) = true ->
  is_subscribe_family (call_command s) = true ->
  let c' := snd (submit h s c) in
  let pc := pub_sub_command h (record_of s) c in
  pub_sub_mode c' = true
  /\ subscription_set c' = subscription_set (snd pc)
  /\ command_queue c' = command_queue c ++ [subscription_record s]
  /\ trace c' = trace c.
Proof.
  intros Hready Hwritable Hfam. unfold submit, send_command, subscription_record, record_of.
  destruct (normalize (call_command s) (call_args s) (call_callback s)) as [args' cb'].
  assert (V : validate (call_command s) args' = None).
  { unfold validate.
    destruct (String.eqb_spec (call_command s) "set") as [E | _];
      [rewrite E in Hfam; discriminate |].
    destruct (String.eqb_spec (call_command s) "setex") as [E | _];
      [rewrite E in Hfam; discriminate |].
    reflexivity. }
  rewrite V, Hready, Hwritable. simpl negb. simpl orb. cbv iota.
  unfold route. simpl command. rewrite Hfam. unfold pub_sub_command.
  cbv beta iota zeta. rewrite transmit_spec. simpl. repeat split.
Qed.

(** [subscribe] and [psubscribe], once sent, switch the client to
    pub/sub mode at submission, mark their record as a subscription
    command and put one key for each argument into [subscription_set],
    which stays free of duplicates. *)
Theorem subscribe_adds_keys (h : host) (s : call) (kind : string) (c : client) :
  ready c = true -> writable (stream c) = true ->
  (call_command s = "subscribe" /\ kind = "sub")
  \/ (call_command s = "psubscribe" /\ kind = "psub") ->
  let c' := snd (submit h s c) in
  pub_sub_mode c' = true
  /\ command_queue c' = command_queue c ++ [subscription_record s]
  /\ (forall k, In k (subscription_set c')
                <-> In k (subscription_set c)
                    \/ In k (subscription_keys h kind (args (record_of s))))
  /\ (List.NoDup (subscription_set c) -> List.NoDup (subscription_set c')).
Proof.
  intros Hready Hwritable Hcmd.
  assert (Hfam : is_subscribe_family (call_command s) = true)
    by (destruct Hcmd as [[-> _] | [-> _]]; reflexivity).
  destruct (subscription_sent h s c Hready Hwritable Hfam) as (S1 & S2 & S3 & _).
  cbv zeta. rewrite S1, S2, S3. split; [reflexivity |]. split; [reflexivity |].
  unfold pub_sub_command, subscription_keys. simpl.
  rewrite command_record_of.
  destruct Hcmd as [[-> ->] | [-> ->]]; simpl; apply fold_set_add.
Qed.

Lemma subscribe_adds_keys_witness :
  subscription_set (snd (submit ascii_host
                           {| call_command := "subscribe";
                              call_args := Some [AStr "ch2"; AStr "ch1"];
                              call_callback := None |} subscribed_client))
  = ["sub ch1"; "sub ch2"].
Proof.
  destruct (subscribe_adds_keys ascii_host
              {| call_command := "subscribe"; call_args := Some [AStr "ch2"; AStr "ch1"];
                 call_callback := None |} "sub" subscribed_client eq_refl eq_refl)
    as (_ & _ & _ & _).
  - left. split; reflexivity.
  - reflexivity.
Defined.

(** [unsubscribe] and [punsubscribe], once sent, take the key of each
    argument out of [subscription_set] and leave the other keys; the
    client is in pub/sub mode afterwards even when no key is left. *)
Theorem unsubscribe_removes_keys (h : host) (s : call) (kind : string) (c : client) :
  ready c = true -> writable (stream c) = true ->
  (call_command s = "unsubscribe" /\ kind = "sub")
  \/ (call_command s = "punsubscribe" /\ kind = "psub") ->
  let c' := snd (submit h s c) in
  pub_sub_mode c' = true
  /\ (forall k, In k (subscription_set c')
                <-> In k (subscription_set c)
                    /\ ~ In k (subscription_keys h kind (args (record_of s))))
  /\ (List.NoDup (subscription_set c) -> List.NoDup (subscription_set c')).
Proof.
  intros Hready Hwritable Hcmd.
  assert (Hfam : is_subscribe_family (call_command s) = true)
    by (destruct Hcmd as [[-> _] | [-> _]]; reflexivity).
  destruct (subscription_sent h s c Hready Hwritable Hfam) as (S1 & S2 & _).
  cbv zeta. rewrite S1, S2. split; [reflexivity |].
  unfold pub_sub_command, subscription_keys. simpl.
  rewrite command_record_of.
  destruct Hcmd as [[-> ->] | [-> ->]]; simpl; apply fold_set_delete.
Qed.

Lemma unsubscribe_removes_keys_witness :
  subscription_set (snd (submit ascii_host
                           {| call_command := "unsubscribe";
                              call_args := Some [AStr "ch1"];
                              call_callback := None |} subscribed_client)) = []
  /\ pub_sub_mode (snd (submit ascii_host
                          {| call_command := "unsubscribe";
                             call_args := Some [AStr "ch1"];
                             call_callback := None |} subscribed_client)) = true.
Proof.
  destruct (unsubscribe_removes_keys ascii_host
              {| call_command := "unsubscribe"; call_args := Some [AStr "ch1"];
                 call_callback := None |} "sub" subscribed_client eq_refl eq_refl)
    as (M & _ & _).
  - left. split; reflexivity.
  - split; [reflexivity | exact M].
Defined.

(** ** Replies in pub/sub mode *)





(** A message pushed in pub/sub mode is emitted as a [message] event
    with the channel as text and the payload as it arrived; no callback
    is called for it. *)
Theorem pushed_message_is_emitted (h : host) (c : client) (first channel payload : reply)
    (name : string) :
  pub_sub_mode c = true ->
  first = RStr "message" \/ first = RBuf "message" ->
  reply_toString h channel = Some name ->
  exists c',
    return_reply h (RArr [first; channel; payload]) c = Return c'
    /\ last (trace c') = Some (Emit_message name payload)
    /\ calls (trace c') = calls (trace c)
    /\ command_queue c' = command_queue c.
Proof.
  intros Hmode Hfirst Hname. unfold return_reply.
  rewrite (pushed_message_keeps_head h c first [channel; payload] Hmode).
  2: { destruct Hfirst as [-> | ->]; [left | right; left]; reflexivity. }
  destruct (after_shift_spec (Queue.length (command_queue c)) c)
    as (_ & A1 & _ & _ & _ & A2 & _).
  pose proof (after_shift_queue c) as A3.
  set (c2 := after_shift (Queue.length (command_queue c)) c) in *.
  unfold dispatch. rewrite A2, Hmode.
  unfold pub_sub_reply, at_index. simpl nth.
  assert (T : reply_toString h first = Some "message")
    by (destruct Hfirst as [-> | ->]; reflexivity).
  rewrite T. simpl String.eqb. cbv iota. rewrite Hname.
  eexists. split; [reflexivity |].
  rewrite trace_emit, last_snoc, calls_app, A1. simpl calls at 2. rewrite app_nil_r.
  repeat split. exact A3.
Qed.

Lemma pushed_message_is_emitted_witness :
  exists c',
    return_reply ascii_host (RArr [RBuf "message"; RBuf "ch1"; RBuf "hello"])
      subscribed_client = Return c'
    /\ last (trace c') = Some (Emit_message "ch1" (RBuf "hello")).
Proof.
  destruct (pushed_message_is_emitted ascii_host subscribed_client (RBuf "message")
              (RBuf "ch1") (RBuf "hello") "ch1" eq_refl (or_intror eq_refl) eq_refl)
    as (c' & E & L & _).
  exists c'. split; assumption.
Defined.

(** ** Losing the connection *)

Lemma flush_offline_queue_preserves {A : Type} (f : client -> A) :
  (forall q c, f (set_offline_queue q c) = f c) ->
  (forall cb e v c, f (invoke cb (Some e) v c) = f c) ->
  forall fuel e c, f (flush_offline_queue fuel e c) = f c.
Proof.
  intros Hset Hinvoke. induction fuel as [| fuel IH]; intros e c; simpl; [reflexivity |].
  destruct (offline_queue c) as [| co q]; simpl; [reflexivity |].
  rewrite IH. destruct (callback_of co); simpl; rewrite ?Hinvoke; apply Hset.
Qed.

Lemma flush_command_queue_preserves {A : Type} (f : client -> A) :
  (forall q c, f (set_command_queue q c) = f c) ->
  (forall cb e v c, f (invoke cb (Some e) v c) = f c) ->
  forall fuel e c, f (flush_command_queue fuel e c) = f c.
Proof.
  intros Hset Hinvoke. induction fuel as [| fuel IH]; intros e c; simpl; [reflexivity |].
  destruct (command_queue c) as [| co q]; simpl; [reflexivity |].
  rewrite IH. destruct (callback_of co); simpl; rewrite ?Hinvoke; apply Hset.
Qed.

Lemma flush_and_error_preserves {A : Type} (f : client -> A) :
  (forall q c, f (set_offline_queue q c) = f c) ->
  (forall q c, f (set_command_queue q c) = f c) ->
  (forall cb e v c, f (invoke cb (Some e) v c) = f c) ->
  forall msg c, f (flush_and_error msg c) = f c.
Proof.
  intros H1 H2 H3 msg c. unfold flush_and_error.
  rewrite H2, (flush_command_queue_preserves f H2 H3), H1.
  apply (flush_offline_queue_preserves f H1 H3).
Qed.

Lemma invoke_error_modal (cb : callback) (e : error) (v : value) (c : client) :
  modal_state (invoke cb (Some e) v c) = modal_state c
  /\ old_state (invoke cb (Some e) v c) = old_state c
  /\ subscription_set (invoke cb (Some e) v c) = subscription_set c.
Proof.
  unfold modal_state, invoke, run_callback, emit.
  destruct cb as [f | db [f |] | n]; simpl;
    repeat match goal with |- context [if ?b then _ else _] => destruct b end;
    repeat split.
Qed.

Lemma flush_and_error_modal (msg : string) (c : client) :
  modal_state (flush_and_error msg c) = modal_state c
  /\ old_state (flush_and_error msg c) = old_state c
  /\ subscription_set (flush_and_error msg c) = subscription_set c.
Proof.
  split; [| split]; apply flush_and_error_preserves; try reflexivity;
    intros cb e v c0; apply invoke_error_modal.
Qed.

Lemma schedule_retry_modal (c : client) :
  modal_state (schedule_retry c) = modal_state c
  /\ old_state (schedule_retry c) = old_state c
  /\ subscription_set (schedule_retry c) = subscription_set c.
Proof.
  unfold schedule_retry, modal_state.
  destruct (closing c); simpl; [repeat split |].
  destruct (retry_max_delay c) as [m |]; simpl;
    [destruct (m <? next_delay (retry_delay c)); simpl |];
    destruct (max_attempts c) as [a |]; simpl;
    try destruct (negb (a =? 0) && (a <=? attempts c)); simpl; repeat split.
Qed.

(** The snapshot that [connection_gone] takes is what [on_ready]
    takes back: a client that loses its connection has its modal state
    (monitoring, pub/sub mode, selected db) cleared, and the first block
    of [on_ready] restores exactly the state from before the loss and
    drops the snapshot.  The subscriptions stay in [subscription_set]
    all the while. *)
Theorem modal_state_survives_reconnect (why : string) (c : client) :
  retry_timer c = None -> old_state c = None ->
  modal_state (connection_gone why c)
  = {| saved_monitoring := false; saved_pub_sub_mode := false; saved_selected_db := None |}
  /\ old_state (connection_gone why c) = Some (modal_state c)
  /\ modal_state (restore_state (connection_gone why c)) = modal_state c
  /\ old_state (restore_state (connection_gone why c)) = None
  /\ subscription_set (restore_state (connection_gone why c)) = subscription_set c.
Proof.
  intros Htimer Hold. rewrite (connection_gone_unfold why c Htimer).
  set (msg := "Redis connection gone from " +:+ why +:+ " event.").
  destruct (schedule_retry_modal (flush_and_error msg (before_flush c))) as (S1 & S2 & S3).
  destruct (flush_and_error_modal msg (before_flush c)) as (F1 & F2 & F3).
  assert (B : modal_state (before_flush c)
              = {| saved_monitoring := false; saved_pub_sub_mode := false;
                   saved_selected_db := None |}
              /\ old_state (before_flush c) = Some (modal_state c)
              /\ subscription_set (before_flush c) = subscription_set c).
  { unfold before_flush, emit_end_once, save_state, modal_state. simpl. rewrite Hold.
    simpl. destruct (emitted_end c); repeat split. }
  destruct B as (B1 & B2 & B3).
  generalize dependent (schedule_retry (flush_and_error msg (before_flush c))).
  intros c1 S1 S2 S3.
  assert (M : modal_state c1 = {| saved_monitoring := false; saved_pub_sub_mode := false;
                                  saved_selected_db := None |}) by congruence.
  assert (O : old_state c1 = Some (modal_state c)) by congruence.
  split; [exact M |]. split; [exact O |].
  unfold restore_state. rewrite O. unfold modal_state at 1. simpl.
  repeat split. congruence.
Qed.

Lemma modal_state_survives_reconnect_witness :
  modal_state (restore_state (connection_gone "close" subscribed_client))
  = modal_state subscribed_client.
Proof.
  destruct (modal_state_survives_reconnect "close" subscribed_client eq_refl eq_refl)
    as (_ & _ & H & _).
  exact H.
Defined.

(** A further loss before the client is ready again does not
    overwrite the snapshot: the state that will be restored is still the
    one from the first loss. *)
Theorem snapshot_is_kept (why : string) (c : client) (s : saved_state) :
  old_state c = Some s -> old_state (connection_gone why c) = Some s.
Proof.
  intros Hold. unfold connection_gone.
  destruct (retry_timer c); [exact Hold |].
  destruct (schedule_retry_modal
              (flush_and_error ("Redis connection gone from " +:+ why +:+ " event.")
                 (before_flush c))) as (_ & S2 & _).
  destruct (flush_and_error_modal ("Redis connection gone from " +:+ why +:+ " event.")
              (before_flush c)) as (_ & F2 & _).
  fold (before_flush c). rewrite S2, F2.
  unfold before_flush, emit_end_once, save_state. simpl. rewrite Hold. simpl.
  destruct (emitted_end c); exact Hold.
Qed.

Lemma snapshot_is_kept_witness :
  old_state (connection_gone "close" reconnected_client)
  = old_state reconnected_client.
Proof.
  apply (snapshot_is_kept "close" reconnected_client). reflexivity.
Defined.

Lemma reconnects_app (t1 t2 : list event) :
  reconnects (t1 ++ t2) = (reconnects t1 + reconnects t2)%nat.
Proof. unfold reconnects. rewrite List.filter_app. apply List.length_app. Qed.

Lemma ends_app (t1 t2 : list event) : ends (t1 ++ t2) = (ends t1 + ends t2)%nat.
Proof. unfold ends. rewrite List.filter_app. apply List.length_app. Qed.

Lemma invoke_counts (cb : callback) (err : option error) (v : value) (c : client) :
  reconnects (trace (invoke cb err v c)) = reconnects (trace c)
  /\ ends (trace (invoke cb err v c)) = ends (trace c).
Proof.
  callback_cases cb err; rewrite ?reconnects_app, ?ends_app;
    unfold reconnects, ends; simpl; split; lia.
Qed.

Lemma flush_and_error_counts (msg : string) (c : client) :
  reconnects (trace (flush_and_error msg c)) = reconnects (trace c)
  /\ ends (trace (flush_and_error msg c)) = ends (trace c).
Proof.
  split.
  - apply (flush_and_error_preserves (fun c => reconnects (trace c))); try reflexivity.
    intros cb e v c0. apply invoke_counts.
  - apply (flush_and_error_preserves (fun c => ends (trace c))); try reflexivity.
    intros cb e v c0. apply invoke_counts.
Qed.

Lemma before_flush_counts (c : client) :
  reconnects (trace (before_flush c)) = reconnects (trace c)
  /\ ends (trace (before_flush c)) = (ends (trace c) + (if emitted_end c then 0 else 1))%nat
  /\ emitted_end (before_flush c) = true.
Proof.
  unfold before_flush, emit_end_once, save_state. simpl.
  destruct (old_state c); simpl; destruct (emitted_end c) eqn:E; simpl;
    rewrite ?reconnects_app, ?ends_app; unfold reconnects, ends; simpl;
    repeat split; try lia; exact E.
Qed.

Lemma connection_gone_reconnects (why : string) (c : client) :
  retry_timer c = None -> closing c = false ->
  match max_attempts c with Some m => attempts c < m | None => True end ->
  reconnects (trace (connection_gone why c)) = S (reconnects (trace c)).
Proof.
  intros Htimer Hclosing Hmax.
  rewrite (connection_gone_unfold why c Htimer).
  set (msg := "Redis connection gone from " +:+ why +:+ " event.").
  destruct (before_flush_frame c)
    as (_ & _ & _ & (B1 & B2 & B3 & B4 & B5 & B6 & B7) & B8).
  destruct (flush_and_error_spec msg (before_flush c))
    as (_ & _ & _ & (F1 & F2 & F3 & F4 & F5 & F6 & F7) & F8).
  destruct (before_flush_counts c) as (B & _).
  destruct (flush_and_error_counts msg (before_flush c)) as (F & _).
  rewrite <- B, <- F.
  generalize dependent (flush_and_error msg (before_flush c)).
  intros c2 F1 F2 F3 F4 F5 F6 F7 F8 _.
  assert (E1 : closing c2 = false) by congruence.
  assert (Hm : match max_attempts c2 with Some m => attempts c2 < m | None => True end).
  { rewrite F6, F4, B6, B4. exact Hmax. }
  destruct (schedule_retry_reconnecting c2 E1 Hm) as (H1 & _).
  rewrite H1, reconnects_app. unfold reconnects at 2. simpl. lia.
Qed.

Lemma connection_gone_pending (why again : string) (c : client) :
  retry_timer c = None -> closing c = false ->
  match max_attempts c with Some m => attempts c < m | None => True end ->
  connection_gone again (connection_gone why c) = connection_gone why c.
Proof.
  intros Htimer Hclosing Hmax.
  destruct (connection_gone_reconnecting why c Htimer Hclosing Hmax) as (_ & T & _).
  unfold connection_gone at 1. rewrite T. reflexivity.
Qed.

(** A lost connection is announced once.  The first call of
    [connection_gone] emits [end] (unless it was emitted for this
    connection already) and one [reconnecting]; while the retry timer
    it has set is pending, a further call -- the [close] that follows
    an [end] or an [error] -- changes nothing at all. *)
Theorem one_announcement_per_loss (why again : string) (c : client) :
  retry_timer c = None -> closing c = false ->
  match max_attempts c with Some m => attempts c < m | None => True end ->
  let c' := connection_gone why c in
  ends (trace c') = (ends (trace c) + (if emitted_end c then 0 else 1))%nat
  /\ reconnects (trace c') = S (reconnects (trace c))
  /\ connection_gone again c' = c'.
Proof.
  intros Htimer Hclosing Hmax.
  cbv zeta. split; [| split].
  - rewrite (connection_gone_unfold why c Htimer).
    set (msg := "Redis connection gone from " +:+ why +:+ " event.").
    destruct (before_flush_counts c) as (_ & B & _).
    destruct (flush_and_error_counts msg (before_flush c)) as (_ & F).
    rewrite <- B, <- F.
    generalize (flush_and_error msg (before_flush c)). intros c2.
    unfold schedule_retry.
    destruct (closing c2); simpl; [reflexivity |].
    destruct (retry_max_delay c2) as [m |]; simpl;
      [destruct (m <? next_delay (retry_delay c2)); simpl |];
      destruct (max_attempts c2) as [a |]; simpl;
      try destruct (negb (a =? 0) && (a <=? attempts c2)); simpl;
      rewrite ?ends_app; unfold ends; simpl; lia.
  - apply connection_gone_reconnects; assumption.
  - apply connection_gone_pending; assumption.
Qed.

Lemma one_announcement_per_loss_witness :
  connection_gone "close" (connection_gone "end" ready_client)
  = connection_gone "end" ready_client.
Proof.
  destruct (one_announcement_per_loss "end" "close" ready_client eq_refl eq_refl I)
    as (_ & _ & H).
  exact H.
Defined.

Lemma connection_gone_gives_up (why : string) (c : client) (m : Z) :
  retry_timer c = None -> closing c = false ->
  max_attempts c = Some m -> m <> 0 -> m <= attempts c ->
  last (trace (connection_gone why c)) = Some (Emit_error attempts_exceeded_error)
  /\ retry_timer (connection_gone why c) = None
  /\ reconnects (trace (connection_gone why c)) = reconnects (trace c).
Proof.
  intros Htimer Hclosing Hmax Hm Hle.
  rewrite (connection_gone_unfold why c Htimer).
  set (msg := "Redis connection gone from " +:+ why +:+ " event.").
  destruct (before_flush_frame c)
    as (_ & _ & _ & (B1 & B2 & B3 & B4 & B5 & B6 & B7) & B8).
  destruct (flush_and_error_spec msg (before_flush c))
    as (_ & _ & _ & (F1 & F2 & F3 & F4 & F5 & F6 & F7) & F8).
  destruct (before_flush_counts c) as (B & _).
  destruct (flush_and_error_counts msg (before_flush c)) as (F & _).
  rewrite <- B, <- F.
  generalize dependent (flush_and_error msg (before_flush c)).
  intros c2 F1 F2 F3 F4 F5 F6 F7 F8 _.
  assert (E1 : closing c2 = false) by congruence.
  assert (E2 : max_attempts c2 = Some m) by congruence.
  assert (E3 : attempts c2 = attempts c) by congruence.
  unfold schedule_retry. rewrite E1.
  assert (G : negb (m =? 0) && (m <=? attempts c2) = true).
  { rewrite E3. apply andb_true_iff. split.
    - apply negb_true_iff, Z.eqb_neq, Hm.
    - apply Z.leb_le, Hle. }
  destruct (retry_max_delay c2) as [d |]; simpl;
    [destruct (d <? next_delay (retry_delay c2)); simpl |];
    rewrite E2, E3 in *; simpl; rewrite G; simpl;
    rewrite last_snoc, reconnects_app; unfold reconnects at 2; simpl;
    repeat split; lia.
Qed.

Lemma reconnect_rounds_reconnects (fresh : Stream) (why : string) (c : client) :
  retry_timer c = None -> retry_delay c = 200 -> retry_totaltime c = 0 ->
  attempts c = 1 -> closing c = false ->
  forall k : nat,
  match max_attempts c with Some m => Z.of_nat (S k) < m | None => True end ->
  (forall j, (1 <= j <= k)%nat -> total_delay (retry_max_delay c) j < connect_timeout c) ->
  forall c', reconnect_rounds fresh why (S k) c = Return c' ->
  reconnects (trace c') = (reconnects (trace c) + S k)%nat.
Proof.
  intros Htimer Hdelay Htotal Hattempts Hclosing.
  induction k as [| k IH]; intros Hmax Hbudget c' Hrun.
  - injection Hrun as <-.
    rewrite (connection_gone_reconnects why c Htimer Hclosing); [lia |].
    destruct (max_attempts c); [lia | exact I].
  - destruct (reconnect_rounds_invariant fresh why c Htimer Hdelay Htotal Hattempts Hclosing k)
      as (c1 & Hrun1 & _ & I2 & I3 & I4 & I5 & I6 & I7 & I8 & I9).
    { destruct (max_attempts c); [lia | exact I]. }
    { intros j Hj. apply Hbudget. lia. }
    assert (Hk : reconnects (trace c1) = (reconnects (trace c) + S k)%nat).
    { apply IH; [| | exact Hrun1].
      - destruct (max_attempts c); [lia | exact I].
      - intros j Hj. apply Hbudget. lia. }
    assert (Hlt : js_add (retry_totaltime c1) (retry_delay c1) < connect_timeout c1).
    { rewrite I5, I3, I9. apply (Hbudget (S k)). lia. }
    change (reconnect_rounds fresh why (S (S k)) c) with
      (match reconnect_rounds fresh why (S k) c with
       | Return c1 =>
           match retry_timer_fired fresh c1 with
           | Return c2 => Return (connection_gone why c2)
           | Throw e c2 => Throw e c2
           end
       | Throw e c1 => Throw e c1
       end) in Hrun.
    rewrite Hrun1, (retry_timer_fired_ok fresh c1 Hlt) in Hrun.
    injection Hrun as <-.
    set (c2 := set_retry_timer None
                 (set_stream fresh
                    (set_retry_totaltime (js_add (retry_totaltime c1) (retry_delay c1)) c1))).
    assert (T : trace c2 = trace c1) by reflexivity.
    rewrite (connection_gone_reconnects why c2); [rewrite T, Hk; lia | reflexivity | exact I6 |].
    change (max_attempts c2) with (max_attempts c1).
    change (attempts c2) with (attempts c1).
    rewrite I7, I4. destruct (max_attempts c); [lia | exact I].
Qed.

(** With [max_attempts] set to [m], each of the first [m - 1] losses
    in a row is answered with a [reconnecting] event, the j-th
    announcing attempt [j + 1], and with a retry timer; the m-th loss
    emits the terminal error instead, announces no reconnect and sets
    no timer. *)
Theorem gives_up_after_max_attempts (fresh : Stream) (why : string) (c : client)
    (k : nat) :
  retry_timer c = None -> retry_delay c = 200 -> retry_totaltime c = 0 ->
  attempts c = 1 -> closing c = false ->
  max_attempts c = Some (Z.of_nat (S k) + 1) ->
  (forall j, (1 <= j <= S k)%nat ->
     total_delay (retry_max_delay c) j < connect_timeout c) ->
  (forall j, (1 <= j <= S k)%nat ->
     exists cj,
       reconnect_rounds fresh why j c = Return cj
       /\ last (trace cj) =
          Some (Emit_reconnecting (nth_delay (retry_max_delay c) j) (Z.of_nat j + 1))
       /\ retry_timer cj = Some (timer_delay (nth_delay (retry_max_delay c) j))
       /\ reconnects (trace cj) = (reconnects (trace c) + j)%nat)
  /\ exists c1 c2,
       reconnect_rounds fresh why (S k) c = Return c1
       /\ retry_timer_fired fresh c1 = Return c2
       /\ last (trace (connection_gone why c2)) = Some (Emit_error attempts_exceeded_error)
       /\ retry_timer (connection_gone why c2) = None
       /\ reconnects (trace (connection_gone why c2)) = (reconnects (trace c) + S k)%nat.
Proof.
  intros Htimer Hdelay Htotal Hattempts Hclosing Hmax Hbudget.
  assert (Hrounds : forall j, (j <= k)%nat ->
            exists cj,
              reconnect_rounds fresh why (S j) c = Return cj
              /\ last (trace cj) =
                 Some (Emit_reconnecting (nth_delay (retry_max_delay c) (S j))
                         (Z.of_nat (S j) + 1))
              /\ retry_timer cj = Some (timer_delay (nth_delay (retry_max_delay c) (S j)))
              /\ reconnects (trace cj) = (reconnects (trace c) + S j)%nat
              /\ retry_delay cj = nth_delay (retry_max_delay c) (S j)
              /\ attempts cj = Z.of_nat (S j) + 1
              /\ retry_totaltime cj = total_delay (retry_max_delay c) j
              /\ closing cj = false /\ max_attempts cj = max_attempts c
              /\ connect_timeout cj = connect_timeout c).
  { intros j Hj.
    assert (Hm : match max_attempts c with Some m => Z.of_nat (S j) < m | None => True end)
      by (rewrite Hmax; lia).
    assert (Hb : forall i, (1 <= i <= j)%nat ->
                   total_delay (retry_max_delay c) i < connect_timeout c)
      by (intros i Hi; apply Hbudget; lia).
    destruct (reconnect_rounds_invariant fresh why c Htimer Hdelay Htotal Hattempts Hclosing
                j Hm Hb) as (cj & Hrun & I1 & I2 & I3 & I4 & I5 & I6 & I7 & _ & I9).
    exists cj. split; [exact Hrun |]. split; [exact I1 |]. split; [exact I2 |].
    split; [| repeat split; assumption].
    apply (reconnect_rounds_reconnects fresh why c Htimer Hdelay Htotal Hattempts Hclosing
             j Hm Hb cj Hrun). }
  split.
  - intros j Hj. destruct j as [| j]; [lia |].
    destruct (Hrounds j ltac:(lia)) as (cj & Hrun & I1 & I2 & I3 & _).
    exists cj. repeat split; assumption.
  - destruct (Hrounds k (le_n k)) as (c1 & Hrun & _ & _ & N & I3 & I4 & I5 & I6 & I7 & I9).
    assert (Hlt : js_add (retry_totaltime c1) (retry_delay c1) < connect_timeout c1).
    { rewrite I5, I3, I9. apply (Hbudget (S k)). lia. }
    exists c1. eexists. split; [exact Hrun |].
    split; [apply (retry_timer_fired_ok fresh c1 Hlt) |].
    set (c2 := set_retry_timer None
                 (set_stream fresh
                    (set_retry_totaltime (js_add (retry_totaltime c1) (retry_delay c1)) c1))).
    assert (T : trace c2 = trace c1) by reflexivity.
    rewrite <- N, <- T.
    apply (connection_gone_gives_up why c2 (Z.of_nat (S k) + 1)).
    + reflexivity.
    + exact I6.
    + change (max_attempts c2) with (max_attempts c1). rewrite I7. exact Hmax.
    + lia.
    + change (attempts c2) with (attempts c1). rewrite I4. lia.
Qed.

Lemma gives_up_after_max_attempts_witness :
  (exists c1,
     reconnect_rounds open_stream "close" 2
       (set_ready true (RedisClient open_stream
          {| opt_detect_buffers := false; opt_command_queue_high_water := None;
             opt_command_queue_low_water := None; opt_max_attempts := Some 3;
             opt_connect_timeout := None; opt_enable_offline_queue := None;
             opt_retry_max_delay := None |} "127.0.0.1:6379")) = Return c1
     /\ last (trace c1) = Some (Emit_reconnecting 578 3))
  /\ exists c1 c2,
       reconnect_rounds open_stream "close" 2
         (set_ready true (RedisClient open_stream
            {| opt_detect_buffers := false; opt_command_queue_high_water := None;
               opt_command_queue_low_water := None; opt_max_attempts := Some 3;
               opt_connect_timeout := None; opt_enable_offline_queue := None;
               opt_retry_max_delay := None |} "127.0.0.1:6379")) = Return c1
       /\ retry_timer_fired open_stream c1 = Return c2
       /\ last (trace (connection_gone "close" c2))
          = Some (Emit_error attempts_exceeded_error).
Proof.
  destruct (gives_up_after_max_attempts open_stream "close"
              (set_ready true (RedisClient open_stream
                 {| opt_detect_buffers := false; opt_command_queue_high_water := None;
                    opt_command_queue_low_water := None; opt_max_attempts := Some 3;
                    opt_connect_timeout := None; opt_enable_offline_queue := None;
                    opt_retry_max_delay := None |} "127.0.0.1:6379")) 1
              eq_refl eq_refl eq_refl eq_refl eq_refl eq_refl)
    as (A & c1 & c2 & E1 & E2 & L & _).
  - intros j Hj. assert (Hc : j = 1%nat \/ j = 2%nat) by lia.
    destruct Hc as [-> | ->]; reflexivity.
  - split.
    + destruct (A 2%nat ltac:(lia)) as (cj & R & Lj & _). exists cj. split; assumption.
    + exists c1, c2. repeat split; assumption.
Defined.

(** ** quit *)

(** [quit] is sent in every mode and marks the client as closing;
    when the connection is lost afterwards, the queues are flushed and
    no reconnect is announced or scheduled. *)
Theorem no_retry_after_quit (h : host) (args : option (list arg))
    (cb : option callback) (why : string) (c : client) :
  ready c = true -> writable (stream c) = true -> retry_timer c = None ->
  let c1 := snd (send_command h "quit" args cb c) in
  let c2 := connection_gone why c1 in
  closing c1 = true
  /\ Queue.length (command_queue c1) = Queue.length (command_queue c) + 1
  /\ retry_timer c2 = None
  /\ reconnects (trace c2) = reconnects (trace c)
  /\ command_queue c2 = [] /\ offline_queue c2 = [].
Proof.
  intros Hready Hwritable Htimer. cbv zeta. unfold send_command.
  destruct (normalize "quit" args cb) as [args' cb'].
  change (validate "quit" args') with (@None (option error)). cbv iota.
  rewrite Hready, Hwritable. simpl negb. simpl orb. cbv iota.
  unfold route. simpl command.
  change (is_subscribe_family "quit") with false.
  change (String.eqb "quit" "monitor") with false.
  change (String.eqb "quit" "quit") with true. cbv iota.
  rewrite transmit_spec. simpl snd.
  match goal with |- context [connection_gone why ?x] => set (c1 := x) end.
  assert (C : closing c1 = true) by reflexivity.
  assert (T : retry_timer c1 = None) by exact Htimer.
  assert (R : trace c1 = trace c) by reflexivity.
  assert (Q : command_queue c1 = command_queue c ++ [{| command := "quit"; args := args';
                sub_command := false; buffer_args := existsb isBuffer args';
                callback_of := cb' |}]) by reflexivity.
  split; [exact C |]. split; [rewrite Q; apply queue_length_succ |].
  rewrite <- R.
  rewrite (connection_gone_unfold why c1 T).
  set (msg := "Redis connection gone from " +:+ why +:+ " event.").
  destruct (before_flush_frame c1) as (_ & _ & _ & _ & B8).
  destruct (flush_and_error_spec msg (before_flush c1)) as (F1 & F2 & _ & _ & F8).
  destruct (schedule_retry_frame (flush_and_error msg (before_flush c1))) as (G2 & G3 & _).
  rewrite G2, G3, F1, F2.
  destruct (before_flush_counts c1) as (B & _).
  destruct (flush_and_error_counts msg (before_flush c1)) as (F & _).
  rewrite <- B, <- F.
  assert (E : closing (flush_and_error msg (before_flush c1)) = true) by congruence.
  unfold schedule_retry. rewrite E. repeat split.
Qed.

Lemma no_retry_after_quit_witness :
  retry_timer (connection_gone "end"
                 (snd (send_command ascii_host "quit" None None subscribed_client))) = None.
Proof.
  destruct (no_retry_after_quit ascii_host None None "end" subscribed_client
              eq_refl eq_refl eq_refl) as (_ & _ & H & _).
  exact H.
Defined.

(** ** An error of the stream *)

(** An [error] of the stream is ignored once the client is closing.
    Otherwise every queued command that has a callback gets the one
    error that names the address and the cause, and both queues are
    empty afterwards, whatever the state of the retry.  When no retry
    timer is pending and [max_attempts] is not reached, one
    [reconnecting] is announced, and the [close] that the stream emits
    next changes nothing; when a retry timer is pending, no
    [reconnecting] is announced and the [error] event is the last. *)
Theorem stream_error_fails_commands (msg : string) (c : client) :
  (closing c = true -> on_error msg c = c)
  /\ (closing c = false ->
      let e := new_Error ("Redis connection to " +:+ address c +:+ " failed - " +:+ msg) in
      let c' := on_error msg c in
      calls (trace c') = calls (trace c) ++ error_calls e (offline_queue c ++ command_queue c)
      /\ offline_queue c' = [] /\ command_queue c' = []
      /\ (retry_timer c = None ->
          match max_attempts c with Some m => attempts c < m | None => True end ->
          reconnects (trace c') = S (reconnects (trace c))
          /\ connection_gone "close" c' = c')
      /\ (retry_timer c <> None ->
          reconnects (trace c') = reconnects (trace c)
          /\ last (trace c') = Some (Emit_error e))).
Proof.
  split.
  - intros H. unfold on_error. rewrite H. reflexivity.
  - intros Hclosing. cbv zeta. unfold on_error. rewrite Hclosing.
    set (message := "Redis connection to " +:+ address c +:+ " failed - " +:+ msg).
    destruct (flush_and_error_spec message c)
      as (F1 & F2 & F3 & (R1 & R2 & R3 & R4 & R5 & R6 & R7) & F5).
    destruct (flush_and_error_counts message c) as (N & _).
    set (c3 := emit (Emit_error (new_Error message))
                 (set_ready false (set_connected false (flush_and_error message c)))).
    assert (T : retry_timer c3 = retry_timer c)
      by (transitivity (retry_timer (flush_and_error message c)); [reflexivity | congruence]).
    assert (C : closing c3 = false)
      by (transitivity (closing (flush_and_error message c)); [reflexivity | congruence]).
    assert (M : max_attempts c3 = max_attempts c /\ attempts c3 = attempts c).
    { change (max_attempts c3) with (max_attempts (flush_and_error message c)).
      change (attempts c3) with (attempts (flush_and_error message c)).
      rewrite R6, R4. split; reflexivity. }
    destruct M as [M1 M2].
    assert (Q1 : offline_queue c3 = []) by exact F1.
    assert (Q2 : command_queue c3 = []) by exact F2.
    assert (L : last (trace c3) = Some (Emit_error (new_Error message)))
      by (unfold c3; rewrite trace_emit; apply last_snoc).
    assert (K : calls (trace c3)
                = calls (trace c)
                  ++ error_calls (new_Error message) (offline_queue c ++ command_queue c)).
    { unfold c3. rewrite trace_emit, calls_app.
      change (trace (set_ready false (set_connected false (flush_and_error message c))))
        with (trace (flush_and_error message c)).
      rewrite F3. simpl calls at 3. apply app_nil_r. }
    assert (P : reconnects (trace c3) = reconnects (trace c)).
    { unfold c3. rewrite trace_emit, reconnects_app.
      change (trace (set_ready false (set_connected false (flush_and_error message c))))
        with (trace (flush_and_error message c)).
      rewrite N. unfold reconnects at 2. simpl. lia. }
    clearbody c3.
    destruct (retry_timer c) as [t |] eqn:Ht.
    + assert (G : connection_gone "error" c3 = c3)
        by (unfold connection_gone; rewrite T; reflexivity).
      rewrite G, K, Q1, Q2, P, L. repeat split; discriminate.
    + assert (U : calls (trace (connection_gone "error" c3)) = calls (trace c3)
                  /\ offline_queue (connection_gone "error" c3) = []
                  /\ command_queue (connection_gone "error" c3) = []).
      { rewrite (connection_gone_unfold "error" c3 T).
        set (gone := "Redis connection gone from " +:+ "error" +:+ " event.").
        destruct (before_flush_frame c3) as (B1 & B2 & B3 & _).
        destruct (flush_and_error_spec gone (before_flush c3)) as (G1 & G2 & G3 & _).
        destruct (schedule_retry_frame (flush_and_error gone (before_flush c3)))
          as (S1 & S2 & S3).
        rewrite S1, S2, S3, G1, G2, G3, B1, B2, B3, Q1, Q2. simpl.
        rewrite app_nil_r. repeat split. }
      destruct U as (U1 & U2 & U3). rewrite U1, U2, U3, K.
      split; [reflexivity |]. split; [reflexivity |]. split; [reflexivity |]. split.
      * intros _ Hmax.
        assert (Hm : match max_attempts c3 with Some m => attempts c3 < m | None => True end)
          by (rewrite M1, M2; exact Hmax).
        rewrite (connection_gone_reconnects "error" c3 T C Hm), P.
        split; [reflexivity |].
        apply (connection_gone_pending "error" "close" c3 T C Hm).
      * intros F. destruct (F eq_refl).
Qed.

Lemma stream_error_fails_commands_witness :
  calls (trace (on_error "connect ECONNREFUSED"
                  (set_command_queue [get_foo 1] ready_client)))
  = [Called (CbUser 1)
       (Some (new_Error
          "Redis connection to 127.0.0.1:6379 failed - connect ECONNREFUSED")) undefined].
Proof.
  destruct (stream_error_fails_commands "connect ECONNREFUSED"
              (set_command_queue [get_foo 1] ready_client)) as [_ H].
  destruct (H eq_refl) as (K & _). rewrite K. reflexivity.
Defined.

(** ** Errors and odd replies *)

Lemma after_shift_subscriptions (len : Z) (c : client) :
  subscription_set (after_shift len c) = subscription_set c.
Proof.
  unfold after_shift.
  destruct (negb (pub_sub_mode c) && (len =? 0)); simpl;
    destruct (should_buffer c && (len <=? command_queue_low_water c)); reflexivity.
Qed.

(** An error reply never touches the pub/sub state.  So a
    [subscribe] that the server refuses leaves the client in pub/sub
    mode with the channel in [subscription_set]; the error goes to the
    callback of the command. *)
Theorem failed_subscribe_stays_subscribed (h : host) (s : call) (err : error)
    (c : client) :
  ready c = true -> writable (stream c) = true -> command_queue c = [] ->
  call_command s = "subscribe" ->
  exists c',
    return_error h err (snd (submit h s c)) = Return c'
    /\ pub_sub_mode c' = true
    /\ (forall k, In k (subscription_keys h "sub" (args (record_of s))) ->
                  In k (subscription_set c'))
    /\ calls (trace c') =
       calls (trace c)
       ++ match callback_of (record_of s) with
          | Some cb => [Called cb (Some {| message := message err;
                                           command_used := Some "SUBSCRIBE" |}) undefined]
          | None => []
          end.
Proof.
  intros Hready Hwritable Hempty Hcmd.
  assert (Hfam : is_subscribe_family (call_command s) = true) by (rewrite Hcmd; reflexivity).
  destruct (subscription_sent h s c Hready Hwritable Hfam) as (S1 & S0 & S2 & S4).
  assert (S3 : forall k, In k (subscription_set (snd (submit h s c)))
                         <-> In k (subscription_set c)
                             \/ In k (subscription_keys h "sub" (args (record_of s)))).
  { cbv zeta in S0. rewrite S0. unfold pub_sub_command, subscription_keys. simpl.
    rewrite command_record_of, Hcmd. simpl. apply fold_set_add. }
  cbv zeta in S1, S2, S4.
  rewrite Hempty in S2. simpl in S2.
  set (c1 := snd (submit h s c)) in *.
  rewrite (return_error_head h err c1 _ [] S2). cbv zeta.
  assert (U : toUpperCase h (command (subscription_record s)) = "SUBSCRIBE").
  { unfold subscription_record. simpl. rewrite command_record_of, Hcmd. reflexivity. }
  rewrite U.
  change (callback_of (subscription_record s)) with (callback_of (record_of s)).
  destruct (after_shift_spec (Queue.length []) (set_command_queue [] c1))
    as (_ & A1 & _ & _ & _ & A2 & _).
  pose proof (after_shift_subscriptions (Queue.length []) (set_command_queue [] c1)) as A3.
  simpl in A1, A2, A3.
  set (c2 := after_shift (Queue.length []) (set_command_queue [] c1)) in *.
  eexists. split; [reflexivity |].
  destruct (callback_of (record_of s)) as [cb |].
  - destruct (invoke_pipeline cb (Some {| message := message err;
                command_used := Some "SUBSCRIBE" |}) undefined c2) as (_ & _ & P3 & _).
    destruct (invoke_error_modal cb {| message := message err;
                command_used := Some "SUBSCRIBE" |} undefined c2) as (_ & _ & P4).
    rewrite P3, P4, invoke_calls, A1, A2, A3, S1, S4. split; [reflexivity |].
    split; [| reflexivity]. intros k Hk. apply S3. right. exact Hk.
  - rewrite trace_emit, calls_app. simpl calls at 2. rewrite app_nil_r, A1, S4.
    change (pub_sub_mode (emit ?e c2)) with (pub_sub_mode c2).
    change (subscription_set (emit ?e c2)) with (subscription_set c2).
    rewrite A2, A3, S1. split; [reflexivity |].
    split; [| rewrite ?app_nil_r; reflexivity].
    intros k Hk. apply S3. right. exact Hk.
Qed.

Lemma failed_subscribe_stays_subscribed_witness :
  exists c',
    return_error ascii_host (new_Error "NOPERM")
      (snd (submit ascii_host
              {| call_command := "subscribe"; call_args := Some [AStr "news"];
                 call_callback := None |} ready_client)) = Return c'
    /\ pub_sub_mode c' = true /\ In "sub news" (subscription_set c').
Proof.
  destruct (failed_subscribe_stays_subscribed ascii_host
              {| call_command := "subscribe"; call_args := Some [AStr "news"];
                 call_callback := None |} (new_Error "NOPERM") ready_client
              eq_refl eq_refl eq_refl eq_refl) as (c' & E & M & K & _).
  exists c'. split; [exact E |]. split; [exact M |].
  apply K. left. reflexivity.
Defined.

(** A reply that arrives when nothing is pending, outside pub/sub
    mode and monitoring, does not raise: [idle] is emitted (the queue is
    empty), then an [error] event that reports the state of the queue;
    no callback is called. *)
Theorem reply_without_command (h : host) (r : reply) (c : client) :
  command_queue c = [] -> pub_sub_mode c = false -> monitoring c = false ->
  exists c' pre,
    return_reply h r c = Return c'
    /\ trace c' = trace c ++ Emit_idle :: pre ++ [Emit_error queue_state_error]
    /\ pre = (if should_buffer c && (0 <=? command_queue_low_water c)
              then [Emit_drain] else [])
    /\ command_queue c' = [].
Proof.
  intros Hq Hmode Hmon. unfold return_reply, take_head.
  rewrite Hmode, Hq. simpl. unfold after_shift. simpl. rewrite Hmode. simpl.
  change (Queue.length []) with 0.
  destruct (should_buffer c && (0 <=? command_queue_low_water c)).
  - unfold dispatch. simpl. rewrite Hmode, Hmon.
    exists (emit (Emit_error queue_state_error)
              (set_should_buffer false
                 (emit Emit_drain
                    (emit Emit_idle (set_command_queue Queue.empty (set_command_queue [] c)))))).
    exists [Emit_drain]. split; [reflexivity |]. split; [| split; reflexivity].
    simpl. rewrite <- !app_assoc. reflexivity.
  - unfold dispatch. simpl. rewrite Hmode, Hmon.
    exists (emit (Emit_error queue_state_error)
              (emit Emit_idle (set_command_queue Queue.empty (set_command_queue [] c)))).
    exists []. split; [reflexivity |]. split; [| split; reflexivity].
    simpl. rewrite <- !app_assoc. reflexivity.
Qed.

Lemma reply_without_command_witness :
  exists c',
    return_reply ascii_host (RStr "OK") ready_client = Return c'
    /\ trace c' = [Emit_idle; Emit_error queue_state_error].
Proof.
  destruct (reply_without_command ascii_host (RStr "OK") ready_client
              eq_refl eq_refl eq_refl) as (c' & pre & E & T & P & _).
  exists c'. split; [exact E |]. rewrite T, P. reflexivity.
Defined.

(** ** reply_to_strings *)



(** ** Construction *)

(** Whatever the options, a new client has usable limits: a value of 0
    or no value stands for the default (1000 for the high water mark,
    24 hours for [connect_timeout]), so neither can be switched off;
    [max_attempts] and [retry_max_delay] are set only to positive
    numbers.  The client starts unconnected, with empty queues, the
    first retry delay at 200 ms and the attempt count at 1. *)
Theorem new_client_limits (s : Stream) (o : options) (addr : string) :
  let c := RedisClient s o addr in
  command_queue_high_water c <> 0 /\ connect_timeout c <> 0
  /\ (opt_command_queue_high_water o = None \/ opt_command_queue_high_water o = Some 0 ->
      command_queue_high_water c = 1000)
  /\ (opt_connect_timeout o = None \/ opt_connect_timeout o = Some 0 ->
      connect_timeout c = 86400000)
  /\ (forall m, max_attempts c = Some m -> 0 < m /\ opt_max_attempts o = Some m)
  /\ (forall m, retry_max_delay c = Some m -> 0 < m /\ opt_retry_max_delay o = Some m)
  /\ (enable_offline_queue c = false <-> opt_enable_offline_queue o = Some false)
  /\ command_queue c = [] /\ offline_queue c = []
  /\ retry_delay c = 200 /\ attempts c = 1 /\ connected c = false /\ ready c = false.
Proof.
  cbv zeta. unfold RedisClient, or_default, if_positive. simpl.
  repeat apply conj; try reflexivity.
  - destruct (opt_command_queue_high_water o) as [v |]; [| discriminate].
    destruct (v =? 0) eqn:E; [discriminate | apply Z.eqb_neq, E].
  - destruct (opt_connect_timeout o) as [v |]; [| discriminate].
    destruct (v =? 0) eqn:E; [discriminate | apply Z.eqb_neq, E].
  - intros [-> | ->]; reflexivity.
  - intros [-> | ->]; reflexivity.
  - intros m. destruct (opt_max_attempts o) as [v |]; [| discriminate].
    destruct (0 <? v) eqn:E; [| discriminate].
    intros H. injection H as <-. split; [apply Z.ltb_lt, E | reflexivity].
  - intros m. destruct (opt_retry_max_delay o) as [v |]; [| discriminate].
    destruct (0 <? v) eqn:E; [| discriminate].
    intros H. injection H as <-. split; [apply Z.ltb_lt, E | reflexivity].
  - intros. destruct (opt_enable_offline_queue o) as [[|] |]; try reflexivity; discriminate.
  - intros. match goal with H : _ = Some false |- _ => rewrite H end. reflexivity.
Qed.

Lemma new_client_limits_witness :
  connect_timeout
    (RedisClient open_stream
       {| opt_detect_buffers := false; opt_command_queue_high_water := None;
          opt_command_queue_low_water := None; opt_max_attempts := None;
          opt_connect_timeout := Some 0; opt_enable_offline_queue := None;
          opt_retry_max_delay := None |} "127.0.0.1:6379") = 86400000.
Proof.
  destruct (new_client_limits open_stream
              {| opt_detect_buffers := false; opt_command_queue_high_water := None;
                 opt_command_queue_low_water := None; opt_max_attempts := None;
                 opt_connect_timeout := Some 0; opt_enable_offline_queue := None;
                 opt_retry_max_delay := None |} "127.0.0.1:6379")
    as (_ & _ & _ & H & _).
  apply H. right. reflexivity.
Defined.

(** ** The offline queue *)

Lemma held_back_again (h : host) (co : Command) (c : client) :
  replayable co -> writable (stream c) = false -> enable_offline_queue c = true ->
  send_command h (command co) (Some (args co)) (callback_of co) c
  = (Bool false, set_should_buffer true (set_offline_queue (offline_queue c ++ [co]) c)).
Proof.
  intros (N & S & B & V) Hwritable Henable. unfold send_command.
  rewrite N, V, Hwritable. simpl negb. rewrite orb_true_r.
  unfold hold_back. rewrite Henable. unfold Queue.push. rewrite <- B, <- S.
  destruct co; reflexivity.
Qed.

(** When the stream is not writable and the offline queue is enabled,
    the loop of [send_offline_queue] does not end on a non-empty queue:
    each command it takes from the front, [send_command] files at the
    back again.  No amount of fuel lets the model return. *)
Theorem send_offline_queue_spins (h : host) (fuel : nat) : forall (b : Z) (c : client),
  writable (stream c) = false -> enable_offline_queue c = true ->
  offline_queue c <> [] -> Forall replayable (offline_queue c) ->
  send_offline_loop h fuel b c = None.
Proof.
  induction fuel as [| fuel IH]; intros b c Hwritable Henable Hne Hall; simpl;
    destruct (offline_queue c) as [| co q] eqn:Hq; try contradiction; simpl;
    [reflexivity |].
  apply Forall_cons in Hall. destruct Hall as [Hco Hrest].
  rewrite (held_back_again h co (set_offline_queue q c) Hco Hwritable Henable).
  apply IH.
  - exact Hwritable.
  - exact Henable.
  - simpl. destruct q; discriminate.
  - simpl. apply Forall_app. split; [exact Hrest |]. apply Forall_cons. split; [exact Hco |].
    apply Forall_nil. exact I.
Qed.

Lemma send_offline_queue_spins_witness :
  send_offline_queue ascii_host 1000
    (set_stream {| writable := false; accepts := fun _ => true; written := [] |}
       (set_offline_queue [get_foo 1] ready_client)) = None.
Proof.
  unfold send_offline_queue.
  rewrite (send_offline_queue_spins ascii_host 1000 0
             (set_stream {| writable := false; accepts := fun _ => true; written := [] |}
                (set_offline_queue [get_foo 1] ready_client)) eq_refl eq_refl).
  - reflexivity.
  - discriminate.
  - apply Forall_cons. split; [apply get_foo_replayable |]. apply Forall_nil. exact I.
Defined.

(** ** on_ready *)

Lemma rev_string_acc (s : string) : forall acc, rev_string acc s = rev_string "" s +:+ acc.
Proof.
  induction s as [| x s IH]; intros acc; [reflexivity |].
  change (rev_string acc (String x s)) with (rev_string (String x acc) s).
  change (rev_string "" (String x s)) with (rev_string (String x "") s).
  rewrite (IH (String x acc)), (IH (String x "")), append_assoc. reflexivity.
Qed.

Lemma rev_string_twice (s : string) : forall acc,
  rev_string "" (rev_string acc s) = rev_string "" acc +:+ s.
Proof.
  induction s as [| x s IH]; intros acc.
  - symmetry. apply append_empty_r.
  - change (rev_string acc (String x s)) with (rev_string (String x acc) s).
    rewrite IH.
    change (rev_string "" (String x acc)) with (rev_string (String x "") acc).
    rewrite rev_string_acc, append_assoc. reflexivity.
Qed.

Lemma prefix_space_head (x : ascii) (t t' : string) :
  String.prefix " " (String x t) = String.prefix " " (String x t').
Proof.
  change (String.prefix " " (String x t))
    with (if ascii_dec " " x then String.prefix "" t else false).
  change (String.prefix " " (String x t'))
    with (if ascii_dec " " x then String.prefix "" t' else false).
  destruct (ascii_dec " " x); [| reflexivity]. destruct t, t'; reflexivity.
Qed.

Lemma no_space_cons (x : ascii) (s : string) :
  no_space (String x s) = true ->
  String.prefix " " (String x s) = false /\ no_space s = true.
Proof.
  change (no_space (String x s))
    with (negb (String.prefix " " (String x s)) && no_space s).
  intros H. apply andb_true_iff in H. destruct H as [Hx Hs].
  apply negb_true_iff in Hx. split; assumption.
Qed.

Lemma split_at_space (kind rest : string) : forall cur,
  no_space kind = true ->
  split_aux " " (kind +:+ " " +:+ rest) 0 cur
  = rev_string "" (rev_string cur kind) :: split_aux " " rest 0 "".
Proof.
  induction kind as [| x kind IH]; intros cur Hs.
  { change ("" +:+ " " +:+ rest) with (String " " rest).
    change (split_aux " " (String " " rest) 0 cur)
      with (if String.prefix " " (String " " rest)
            then rev_string "" cur :: split_aux " " rest (String.length " " - 1) ""
            else split_aux " " rest 0 (String " " cur)).
    change (String.prefix " " (String " " rest))
      with (if ascii_dec " " " " then String.prefix "" rest else false).
    destruct (ascii_dec " " " ") as [_ | N]; [| contradiction N; reflexivity].
    destruct rest; reflexivity. }
  apply no_space_cons in Hs. destruct Hs as [Hx Hs].
  change (String x kind +:+ " " +:+ rest) with (String x (kind +:+ " " +:+ rest)).
  change (split_aux " " (String x (kind +:+ " " +:+ rest)) 0 cur)
    with (if String.prefix " " (String x (kind +:+ " " +:+ rest))
          then rev_string "" cur
               :: split_aux " " (kind +:+ " " +:+ rest) (String.length " " - 1) ""
          else split_aux " " (kind +:+ " " +:+ rest) 0 (String x cur)).
  rewrite (prefix_space_head x (kind +:+ " " +:+ rest) kind), Hx. apply IH. exact Hs.
Qed.

Lemma split_first (s : string) : forall cur,
  exists more, split_aux " " s 0 cur = (rev_string "" cur +:+ before_space s) :: more.
Proof.
  induction s as [| x s IH]; intros cur.
  - exists []. simpl. rewrite append_empty_r. reflexivity.
  - change (split_aux " " (String x s) 0 cur)
      with (if String.prefix " " (String x s)
            then rev_string "" cur :: split_aux " " s (String.length " " - 1) ""
            else split_aux " " s 0 (String x cur)).
    change (before_space (String x s))
      with (if String.prefix " " (String x s) then "" else String x (before_space s)).
    destruct (String.prefix " " (String x s)).
    + eexists. rewrite append_empty_r. reflexivity.
    + destruct (IH (String x cur)) as (more & E). exists more. rewrite E.
      change (rev_string "" (String x cur)) with (rev_string (String x "") cur).
      rewrite rev_string_acc, append_assoc. reflexivity.
Qed.

(** The channel of a key whose channel holds no space is the channel
    itself. *)
Lemma no_space_before (s : string) : no_space s = true -> before_space s = s.
Proof.
  induction s as [| x s IH]; intros Hs; [reflexivity |].
  apply no_space_cons in Hs. destruct Hs as [Hx Hs].
  change (before_space (String x s))
    with (if String.prefix " " (String x s) then "" else String x (before_space s)).
  rewrite Hx, (IH Hs). reflexivity.
Qed.

Lemma split_key (entry : string * string) :
  well_formed_entry entry ->
  exists more, split " " (key_of_entry entry) = fst entry :: before_space (snd entry) :: more.
Proof.
  intros Hkind. unfold split, key_of_entry.
  assert (K : no_space (fst entry) = true)
    by (destruct Hkind as [-> | ->]; reflexivity).
  rewrite (split_at_space (fst entry) (snd entry) "" K).
  destruct (split_first (snd entry) "") as (more & E). exists more.
  rewrite E, rev_string_twice. reflexivity.
Qed.

Lemma nth_insert_same (n : nat) (v : Z) (l : list Z) :
  (n < List.length l)%nat -> nth n (<[n := v]> l) 0 = v.
Proof.
  intros H. rewrite nth_lookup, list_lookup_insert_eq; [reflexivity | exact H].
Qed.

(** One subscription made again. *)
Lemma resubscribe_step (h : host) (n : nat) (c : client) (entry : string * string) :
  ready c = true -> writable (stream c) = true -> well_formed_entry entry ->
  let c' := resubscribe h n c (key_of_entry entry) in
  command_queue c' = command_queue c ++ [resubscription n entry]
  /\ written (stream c') = written (stream c) ++ encode_record h (resubscription n entry)
  /\ trace c' = trace c
  /\ ready c' = true /\ writable (stream c') = true /\ pub_sub_mode c' = true
  /\ callback_count c' = <[n := nth n (callback_count c) 0 + 1]> (callback_count c)
  /\ offline_queue c' = offline_queue c.
Proof.
  intros Hready Hwritable Hwf. cbv zeta. unfold resubscribe.
  destruct (split_key entry Hwf) as (more & ->).
  destruct entry as [kind channel]. unfold well_formed_entry in Hwf.
  simpl fst in *. simpl snd in *. simpl nth.
  set (bs := before_space channel).
  set (c1 := set_callback_count (<[n := nth n (callback_count c) 0 + 1]> (callback_count c)) c).
  unfold send_command, resubscription, encode_record.
  simpl fst. simpl snd. fold bs.
  destruct Hwf as [-> | ->].
  - change ("sub" +:+ "scribe") with "subscribe".
    change (normalize "subscribe" (Some [AStr bs]) (Some (CbResubscribe n)))
      with ([AStr bs], Some (CbResubscribe n)).
    change (validate "subscribe" [AStr bs]) with (@None (option error)). cbv iota.
    change (ready c1) with (ready c). change (stream c1) with (stream c).
    rewrite Hready, Hwritable. simpl negb. simpl orb. cbv iota.
    unfold route. simpl command. change (is_subscribe_family "subscribe") with true.
    cbv iota. unfold pub_sub_command. cbv beta iota zeta. rewrite transmit_spec.
    simpl. rewrite Hwritable. repeat split. exact Hready.
  - change ("psub" +:+ "scribe") with "psubscribe".
    change (normalize "psubscribe" (Some [AStr bs]) (Some (CbResubscribe n)))
      with ([AStr bs], Some (CbResubscribe n)).
    change (validate "psubscribe" [AStr bs]) with (@None (option error)). cbv iota.
    change (ready c1) with (ready c). change (stream c1) with (stream c).
    rewrite Hready, Hwritable. simpl negb. simpl orb. cbv iota.
    unfold route. simpl command. change (is_subscribe_family "psubscribe") with true.
    cbv iota. unfold pub_sub_command. cbv beta iota zeta. rewrite transmit_spec.
    simpl. rewrite Hwritable. repeat split. exact Hready.
Qed.

Lemma resubscribe_fold (h : host) (n : nat) (entries : list (string * string)) :
  forall c : client,
  ready c = true -> writable (stream c) = true -> pub_sub_mode c = true ->
  Forall well_formed_entry entries ->
  (n < List.length (callback_count c))%nat ->
  let c' := fold_left (resubscribe h n) (List.map key_of_entry entries) c in
  command_queue c' = command_queue c ++ List.map (resubscription n) entries
  /\ written (stream c')
     = written (stream c)
       ++ List.concat (List.map (fun e => encode_record h (resubscription n e)) entries)
  /\ trace c' = trace c
  /\ pub_sub_mode c' = true /\ offline_queue c' = offline_queue c
  /\ nth n (callback_count c') 0
     = nth n (callback_count c) 0 + Z.of_nat (List.length entries).
Proof.
  induction entries as [| e entries IH]; intros c Hready Hwritable Hmode Hwf Hn.
  - simpl. rewrite !app_nil_r, Z.add_0_r. repeat split. exact Hmode.
  - apply Forall_cons in Hwf. destruct Hwf as [He Hwf].
    destruct (resubscribe_step h n c e Hready Hwritable He)
      as (S1 & S2 & S3 & S5 & S6 & S7 & S8 & S9).
    simpl List.map. simpl fold_left.
    set (c1 := resubscribe h n c (key_of_entry e)) in *.
    destruct (IH c1 S5 S6 S7 Hwf) as (I1 & I2 & I3 & I5 & I6 & I7).
    { rewrite S8, length_insert. exact Hn. }
    cbv zeta. rewrite I1, I2, I3, I5, I6, I7, S1, S2, S3, S8, S9.
    rewrite (nth_insert_same n _ _ Hn). simpl List.concat.
    rewrite <- !app_assoc. repeat split.
    change (List.length (e :: entries)) with (S (List.length entries)). lia.
Qed.

Lemma readies_app (t1 t2 : list event) : readies (t1 ++ t2) = (readies t1 + readies t2)%nat.
Proof. unfold readies. rewrite List.filter_app. apply List.length_app. Qed.

Lemma same_session_refl (c : client) : same_session c c.
Proof. repeat split. exists []. symmetry. apply app_nil_r. Qed.

Lemma same_session_emit (e : event) (c : client) :
  is_ready e = false -> same_session c (emit e c).
Proof.
  intros H. unfold same_session. rewrite trace_emit, readies_app.
  unfold readies at 2. simpl. rewrite H. simpl.
  repeat split; [lia |]. exists []. symmetry. apply app_nil_r.
Qed.

Lemma normalize_user (cmd : string) (args : option (list arg)) (cb : option callback) :
  user_callback cb -> user_callback (snd (normalize cmd args cb)).
Proof.
  intros H. unfold normalize.
  destruct args as [args |]; [| exact H].
  destruct cb as [cb |]; [exact H |].
  destruct (last_arg args); simpl; exact I.
Qed.

Lemma invoke_user_session (cb : option callback) (err : option error) (v : value)
    (c : client) :
  user_callback cb -> same_session c (invoke_if cb err v c).
Proof.
  intros H. destruct cb as [[f | db u | n] |]; try contradiction.
  - apply (same_session_emit (Called (CbUser f) err v) c). reflexivity.
  - apply same_session_refl.
Qed.

(** A command of the user that is no subscription command leaves the
    session as it is: whether it is sent, held back or refused, the
    client stays ready or not, in or out of pub/sub mode, with the same
    subscriptions; what was written stays written. *)
Lemma send_command_session (h : host) (cmd : string) (args : option (list arg))
    (cb : option callback) (c : client) :
  is_subscribe_family cmd = false -> user_callback cb ->
  same_session c (snd (send_command h cmd args cb c)).
Proof.
  intros Hfam Hcb. unfold send_command.
  pose proof (normalize_user cmd args cb Hcb) as Hcb'.
  destruct (normalize cmd args cb) as [args' cb']. simpl in Hcb'.
  destruct (validate cmd args') as [[err |] |].
  - destruct cb' as [f |]; simpl.
    + apply (invoke_user_session (Some f) (Some err) undefined c Hcb').
    + apply same_session_emit. reflexivity.
  - apply same_session_refl.
  - destruct ((negb (ready c) && negb (send_anyway c)) || negb (writable (stream c))).
    + unfold hold_back. destruct (enable_offline_queue c); simpl.
      * repeat split. exists []. symmetry. apply app_nil_r.
      * destruct cb' as [f |]; simpl.
        -- apply (invoke_user_session (Some f) (Some not_writeable_error) undefined c Hcb').
        -- apply same_session_emit. reflexivity.
    + unfold route. simpl command. rewrite Hfam.
      destruct (String.eqb cmd "monitor"); [| destruct (String.eqb cmd "quit");
        [| destruct (pub_sub_mode c) eqn:Em]]; try rewrite transmit_spec; simpl;
        try (repeat split; eexists; reflexivity).
      apply same_session_emit. reflexivity.
Qed.

Lemma reselect_session (h : host) (c : client) : same_session c (reselect h c).
Proof.
  unfold reselect. destruct (selected_db c) as [db |]; [| apply same_session_refl].
  destruct (send_command_session h "select" (Some [db]) None (set_pub_sub_mode false c)
              eq_refl I) as (S1 & S2 & S3 & S4 & S5 & S6 & S7 & S8 & S9).
  set (c1 := snd (send_command h "select" (Some [db]) None (set_pub_sub_mode false c))) in *.
  repeat split; assumption.
Qed.

Lemma after_reselect_session (h : host) (c : client) :
  let c0 := after_reselect h c in
  ready c0 = true /\ writable (stream c0) = writable (stream c)
  /\ pub_sub_mode c0 = pub_sub_mode (restore_state c)
  /\ subscription_set c0 = subscription_set c
  /\ readies (trace c0) = readies (trace c)
  /\ selected_db c0 = selected_db (restore_state c).
Proof.
  unfold after_reselect.
  destruct (reselect_session h (restore_state (set_ready true c)))
    as (S1 & S2 & S3 & S4 & S5 & S6 & S7 & S8 & S9).
  cbv zeta. rewrite S1, S2, S4, S5, S7, S8.
  unfold restore_state. simpl. destruct (old_state c); repeat split.
Qed.

(** When the restored client is in pub/sub mode, [on_ready] sends a
    subscription for every key of [subscription_set], in the order of
    the set: for a key [sub x] a [subscribe], for a key [psub x] a
    [psubscribe], each with the part of [x] before its first space as
    the channel and with the counting callback; each goes onto the
    pending queue and onto the wire, and the count stands at the number
    of keys.  [on_ready] itself emits no [ready] then, and the offline
    queue is not looked at. *)
Theorem on_ready_resubscribes (h : host) (fuel : nat) (c : client)
    (entries : list (string * string)) :
  writable (stream c) = true -> pub_sub_mode (restore_state c) = true ->
  subscription_set c = List.map key_of_entry entries ->
  Forall well_formed_entry entries ->
  let c0 := after_reselect h c in
  let n := List.length (callback_count c0) in
  exists c',
    on_ready h fuel c = Some c'
    /\ command_queue c' = command_queue c0 ++ List.map (resubscription n) entries
    /\ written (stream c')
       = written (stream c0)
         ++ List.concat (List.map (fun e => encode_record h (resubscription n e)) entries)
    /\ nth n (callback_count c') 0 = Z.of_nat (List.length entries)
    /\ trace c' = trace c0 /\ readies (trace c') = readies (trace c)
    /\ offline_queue c' = offline_queue c0.
Proof.
  intros Hwritable Hmode Hset Hwf. cbv zeta.
  destruct (after_reselect_session h c) as (A1 & A2 & A3 & A4 & A5 & _).
  unfold on_ready. fold (after_reselect h c).
  set (c0 := after_reselect h c) in *.
  rewrite A3, Hmode. unfold resubscribe_all.
  set (n := List.length (callback_count c0)).
  set (c1 := set_callback_count (callback_count c0 ++ [0]) c0).
  change (subscription_set c1) with (subscription_set c0). rewrite A4, Hset.
  destruct (resubscribe_fold h n entries c1) as (I1 & I2 & I3 & I5 & I6 & I7).
  - exact A1.
  - change (stream c1) with (stream c0). rewrite A2. exact Hwritable.
  - change (pub_sub_mode c1) with (pub_sub_mode c0). rewrite A3. exact Hmode.
  - exact Hwf.
  - unfold c1, n. simpl. rewrite List.length_app. simpl. lia.
  - eexists. split; [reflexivity |].
    rewrite I1, I2, I3, I6, I7.
    change (trace c1) with (trace c0). rewrite A5.
    repeat split.
    unfold c1, n. simpl. rewrite nth_middle. lia.
Qed.

Lemma on_ready_resubscribes_witness :
  exists c',
    on_ready ascii_host 0
      (set_subscription_set ["sub ch1"; "psub news to day"] reconnected_client) = Some c'
    /\ List.map (fun co => (command co, args co)) (command_queue c')
       = [("select", [ANum 2]); ("subscribe", [AStr "ch1"]); ("psubscribe", [AStr "news"])]
    /\ nth 0 (callback_count c') 0 = 2.
Proof.
  destruct (on_ready_resubscribes ascii_host 0
              (set_subscription_set ["sub ch1"; "psub news to day"] reconnected_client)
              [("sub", "ch1"); ("psub", "news to day")]
              eq_refl eq_refl eq_refl) as (c' & E & Q & _ & N & _).
  - apply Forall_cons. split; [left; reflexivity |].
    apply Forall_cons. split; [right; reflexivity |]. apply Forall_nil. exact I.
  - exists c'. split; [exact E |]. split.
    + rewrite Q. vm_compute. reflexivity.
    + vm_compute in N. exact N.
Defined.

Lemma invoke_resubscribe (n : nat) (err : option error) (res : value) (c : client) :
  (n < List.length (callback_count c))%nat ->
  let c' := invoke (CbResubscribe n) err res c in
  nth n (callback_count c') 0 = nth n (callback_count c) 0 - 1
  /\ List.length (callback_count c') = List.length (callback_count c)
  /\ readies (trace c')
     = (readies (trace c) + (if (nth n (callback_count c) 0 =? 1)%Z then 1 else 0))%nat.
Proof.
  intros Hn. cbv zeta. unfold invoke, run_callback.
  change (callback_count (emit (Called (CbResubscribe n) err res) c)) with (callback_count c).
  set (m := nth n (callback_count c) 0).
  replace (m =? 1) with (m - 1 =? 0)
    by (destruct (Z.eqb_spec (m - 1) 0), (Z.eqb_spec m 1); try reflexivity; lia).
  destruct (m - 1 =? 0); simpl;
    rewrite ?readies_app, (nth_insert_same n _ _ Hn), length_insert;
    unfold readies; simpl; repeat split; lia.
Qed.

(** [ready] is emitted by the call that brings the count of
    [on_ready] down to 0 and by no other: when the count stands at [m],
    a run of calls of the counting callback emits one [ready] if it is
    at least [m] calls long and none if it is shorter.  A call counts
    whether it brings an error or a result. *)
Theorem ready_on_last_callback (n : nat) (calls : list (option error * value)) :
  forall c : client,
  (n < List.length (callback_count c))%nat ->
  let m := nth n (callback_count c) 0 in
  readies (trace (invoke_times (CbResubscribe n) calls c))
  = (readies (trace c)
     + (if ((0 <? m)%Z && (m <=? Z.of_nat (List.length calls))%Z)%bool then 1 else 0))%nat.
Proof.
  induction calls as [| [err res] calls IH]; intros c Hn; cbv zeta.
  - simpl. change (Z.of_nat 0) with 0. set (m := nth n (callback_count c) 0).
    destruct (Z.ltb_spec 0 m); destruct (Z.leb_spec m 0); simpl; lia.
  - destruct (invoke_resubscribe n err res c Hn) as (I1 & I2 & I3).
    cbv zeta in I1, I2, I3.
    assert (Hn' : (n < List.length (callback_count (invoke (CbResubscribe n) err res c)))%nat)
      by (rewrite I2; exact Hn).
    change (invoke_times (CbResubscribe n) ((err, res) :: calls) c)
      with (invoke_times (CbResubscribe n) calls (invoke (CbResubscribe n) err res c)).
    rewrite (IH _ Hn'). cbv zeta. rewrite I1, I3.
    set (m := nth n (callback_count c) 0).
    change (List.length ((err, res) :: calls)) with (S (List.length calls)).
    destruct (Z.eqb_spec m 1) as [E | E];
      destruct (Z.ltb_spec 0 (m - 1)); destruct (Z.leb_spec (m - 1) (Z.of_nat (List.length calls)));
      destruct (Z.ltb_spec 0 m); destruct (Z.leb_spec m (Z.of_nat (S (List.length calls))));
      simpl; lia.
Qed.

Lemma ready_on_last_callback_witness :
  readies (trace (invoke_times (CbResubscribe 0)
                    [(None, VReply (RStr "a")); (None, VReply (RStr "b"))]
                    (set_callback_count [2] ready_client))) = 1%nat
  /\ readies (trace (invoke_times (CbResubscribe 0) [(None, VReply (RStr "a"))]
                       (set_callback_count [2] ready_client))) = 0%nat.
Proof.
  split.
  - rewrite (ready_on_last_callback 0 [(None, VReply (RStr "a")); (None, VReply (RStr "b"))]
               (set_callback_count [2] ready_client)); [reflexivity | simpl; lia].
  - rewrite (ready_on_last_callback 0 [(None, VReply (RStr "a"))]
               (set_callback_count [2] ready_client)); [reflexivity | simpl; lia].
Defined.

(** When the restored client is neither in pub/sub mode nor
    monitoring and the stream is writable, [on_ready] replays the
    offline queue in order: its commands (replayable, and none a
    subscription command) go onto the pending queue and onto the wire as
    they were queued, the offline queue is empty afterwards, no callback
    is called, and [ready] is the last event.  Fuel for one turn of the
    loop per queued command suffices. *)
Theorem offline_queue_replayed (h : host) (fuel : nat) (c : client) :
  let c0 := after_reselect h c in
  writable (stream c) = true -> pub_sub_mode (restore_state c) = false ->
  monitoring c0 = false ->
  Forall replayable (offline_queue c0) ->
  Forall (fun co => is_subscribe_family (command co) = false) (offline_queue c0) ->
  (List.length (offline_queue c0) <= fuel)%nat ->
  exists c',
    on_ready h fuel c = Some c'
    /\ command_queue c' = command_queue c0 ++ offline_queue c0
    /\ offline_queue c' = []
    /\ written (stream c')
       = written (stream c0) ++ List.concat (List.map (encode_record h) (offline_queue c0))
    /\ calls (trace c') = calls (trace c0)
    /\ last (trace c') = Some Emit_ready.
Proof.
  cbv zeta. intros Hwritable Hmode Hmon Hrep Hplain Hfuel.
  destruct (after_reselect_session h c) as (A1 & A2 & A3 & _).
  unfold on_ready. fold (after_reselect h c).
  set (c0 := after_reselect h c) in *.
  assert (M : pub_sub_mode c0 = false) by congruence.
  assert (W : writable (stream c0) = true) by congruence.
  rewrite M, Hmon. unfold send_offline_queue.
  destruct (replay_loop h (offline_queue c0) fuel 0 c0 eq_refl Hfuel A1 W M Hrep Hplain)
    as (b' & c1 & E & I1 & I2 & I3 & I4 & _).
  rewrite E.
  destruct (b' =? 0).
  - eexists. split; [reflexivity |].
    rewrite !trace_emit, last_snoc, !calls_app. simpl calls at 2. simpl calls at 2.
    rewrite !app_nil_r.
    change (trace (set_should_buffer false (set_offline_queue Queue.empty c1)))
      with (trace c1).
    rewrite I4. repeat split; assumption.
  - eexists. split; [reflexivity |].
    rewrite trace_emit, last_snoc, calls_app. simpl calls at 2. rewrite app_nil_r.
    change (trace (set_offline_queue Queue.empty c1)) with (trace c1).
    rewrite I4. repeat split; assumption.
Qed.

Lemma offline_queue_replayed_witness :
  exists c',
    on_ready ascii_host 2
      (set_offline_queue [get_foo 1; get_foo 2] (set_connected true new_client)) = Some c'
    /\ command_queue c' = [get_foo 1; get_foo 2] /\ offline_queue c' = []
    /\ last (trace c') = Some Emit_ready.
Proof.
  destruct (offline_queue_replayed ascii_host 2
              (set_offline_queue [get_foo 1; get_foo 2] (set_connected true new_client))
              eq_refl eq_refl eq_refl) as (c' & E & Q & O & _ & _ & L).
  - repeat (apply Forall_cons; split; [apply get_foo_replayable |]). apply Forall_nil. exact I.
  - repeat (apply Forall_cons; split; [reflexivity |]). apply Forall_nil. exact I.
  - simpl. lia.
  - exists c'. split; [exact E |]. split; [rewrite Q; reflexivity |]. split; assumption.
Defined.

Lemma reselect_record_replayable (db : arg) :
  is_scalar db = true -> replayable (reselect_record db).
Proof.
  intros Hdb. unfold replayable, reselect_record. simpl command. simpl args.
  simpl callback_of. repeat split.
  destruct db; try discriminate; reflexivity.
Qed.

(** When [on_ready] finds a selected database in the state it takes
    back, and the stream is writable, the [select] for it is written at
    once, before anything else [on_ready] sends: it goes onto the
    pending queue and onto the wire, never into the offline queue, with
    no callback, and the pub/sub mode it switches off for the call is
    back in place afterwards. *)
Theorem on_ready_selects_first (h : host) (db : arg) (c : client) :
  writable (stream c) = true ->
  selected_db (restore_state c) = Some db -> is_scalar db = true ->
  let c0 := after_reselect h c in
  written (stream c0) = written (stream c) ++ encode_record h (reselect_record db)
  /\ command_queue c0 = command_queue c ++ [reselect_record db]
  /\ offline_queue c0 = offline_queue c
  /\ trace c0 = trace c
  /\ pub_sub_mode c0 = pub_sub_mode (restore_state c).
Proof.
  intros Hwritable Hdb Hscalar. cbv zeta. unfold after_reselect, reselect.
  set (r := restore_state (set_ready true c)).
  assert (R1 : selected_db r = Some db)
    by (rewrite <- Hdb; unfold r, restore_state; simpl; destruct (old_state c); reflexivity).
  assert (R2 : ready r = true)
    by (unfold r, restore_state; simpl; destruct (old_state c); reflexivity).
  assert (R3 : stream r = stream c)
    by (unfold r, restore_state; simpl; destruct (old_state c); reflexivity).
  assert (R4 : command_queue r = command_queue c)
    by (unfold r, restore_state; simpl; destruct (old_state c); reflexivity).
  assert (R5 : offline_queue r = offline_queue c)
    by (unfold r, restore_state; simpl; destruct (old_state c); reflexivity).
  assert (R6 : trace r = trace c)
    by (unfold r, restore_state; simpl; destruct (old_state c); reflexivity).
  assert (R7 : pub_sub_mode r = pub_sub_mode (restore_state c))
    by (unfold r, restore_state; simpl; destruct (old_state c); reflexivity).
  clearbody r. rewrite R1. cbv zeta.
  assert (W : writable (stream (set_pub_sub_mode false r)) = true)
    by (change (stream (set_pub_sub_mode false r)) with (stream r); rewrite R3; exact Hwritable).
  destruct (replay_one h (reselect_record db) (set_pub_sub_mode false r)
              (reselect_record_replayable db Hscalar) eq_refl R2 W eq_refl)
    as (S1 & S2 & S3 & S4 & _).
  change (command (reselect_record db)) with "select" in S1, S2, S3, S4.
  change (args (reselect_record db)) with [db] in S1, S2, S3, S4.
  change (callback_of (reselect_record db)) with (@None callback) in S1, S2, S3, S4.
  set (c1 := snd (send_command h "select" (Some [db]) None (set_pub_sub_mode false r))) in *.
  change (stream (set_pub_sub_mode false r)) with (stream r) in S2.
  change (command_queue (set_pub_sub_mode false r)) with (command_queue r) in S1.
  change (offline_queue (set_pub_sub_mode false r)) with (offline_queue r) in S3.
  change (trace (set_pub_sub_mode false r)) with (trace r) in S4.
  clearbody c1.
  change (stream (set_pub_sub_mode (pub_sub_mode r) c1)) with (stream c1).
  change (command_queue (set_pub_sub_mode (pub_sub_mode r) c1)) with (command_queue c1).
  change (offline_queue (set_pub_sub_mode (pub_sub_mode r) c1)) with (offline_queue c1).
  change (trace (set_pub_sub_mode (pub_sub_mode r) c1)) with (trace c1).
  change (pub_sub_mode (set_pub_sub_mode (pub_sub_mode r) c1)) with (pub_sub_mode r).
  rewrite S1, S2, S3, S4, R3, R4, R5, R6, R7. repeat split.
Qed.

Lemma on_ready_selects_first_witness :
  written (stream (after_reselect ascii_host reconnected_client))
  = written (stream reconnected_client)
    ++ encode_record ascii_host
         (reselect_record
            match selected_db (restore_state reconnected_client) with
            | Some db => db
            | None => AUndef
            end).
Proof.
  assert (D : exists db, selected_db (restore_state reconnected_client) = Some db
                         /\ is_scalar db = true).
  { vm_compute. eexists. split; reflexivity. }
  destruct D as (db & D1 & D2).
  destruct (on_ready_selects_first ascii_host db reconnected_client eq_refl D1 D2)
    as (H & _).
  rewrite D1. exact H.
Defined.

(** ** Monitoring *)

Lemma index_space (ts rest : string) :
  no_space ts = true ->
  String.index 0 " " (ts +:+ " " +:+ rest) = Some (String.length ts).
Proof.
  induction ts as [| x ts IH]; intros Hs.
  - change ("" +:+ " " +:+ rest) with (String " " rest).
    change (String.index 0 " " (String " " rest))
      with (if String.prefix " " (String " " rest) then Some 0%nat
            else match String.index 0 " " rest with
                 | Some n => Some (S n)
                 | None => None
                 end).
    change (String.prefix " " (String " " rest)) with (String.prefix "" rest).
    destruct rest; reflexivity.
  - apply no_space_cons in Hs. destruct Hs as [Hx Hs].
    change (String x ts +:+ " " +:+ rest) with (String x (ts +:+ " " +:+ rest)).
    change (String.index 0 " " (String x (ts +:+ " " +:+ rest)))
      with (if String.prefix " " (String x (ts +:+ " " +:+ rest)) then Some 0%nat
            else match String.index 0 " " (ts +:+ " " +:+ rest) with
                 | Some n => Some (S n)
                 | None => None
                 end).
    rewrite (prefix_space_head x _ ts), Hx, (IH Hs). reflexivity.
Qed.

Lemma substring_head (s t : string) : String.substring 0 (String.length s) (s +:+ t) = s.
Proof.
  induction s as [| x s IH].
  - destruct t; reflexivity.
  - change (String x s +:+ t) with (String x (s +:+ t)).
    change (String.substring 0 (String.length (String x s)) (String x (s +:+ t)))
      with (String x (String.substring 0 (String.length s) (s +:+ t))).
    rewrite IH. reflexivity.
Qed.

Lemma length_head (s t : string) : (String.length s <= String.length (s +:+ t))%nat.
Proof.
  induction s as [| x s IH]; [simpl; lia |].
  change (String x s +:+ t) with (String x (s +:+ t)). simpl. lia.
Qed.

Lemma slice_head (s t : string) : slice (s +:+ t) 0 (Z.of_nat (String.length s)) = s.
Proof.
  unfold slice. pose proof (length_head s t) as L.
  change (0 <? 0) with false. cbv iota.
  destruct (Z.ltb_spec (Z.of_nat (String.length s)) 0) as [H | _]; [lia |].
  rewrite Z.min_l by lia. rewrite Z.min_l by lia.
  rewrite Z.sub_0_r, Nat2Z.id. apply substring_head.
Qed.

(** A monitoring client with nothing pending, outside pub/sub mode,
    turns a line of the server into one [monitor] event whose timestamp
    is the text before the first space; no callback is called.  A
    reply that is no string raises a [TypeError] there. *)
Theorem monitor_line_is_emitted (h : host) (ts rest : string) (c : client) :
  monitoring c = true -> pub_sub_mode c = false -> command_queue c = [] ->
  no_space ts = true ->
  (exists c' margs,
      return_reply h (RStr (ts +:+ " " +:+ rest)) c = Return c'
      /\ last (trace c') = Some (Emit_monitor ts margs)
      /\ calls (trace c') = calls (trace c)
      /\ monitoring c' = true)
  /\ (forall r, (forall s, r <> RStr s) ->
      exists c', return_reply h r c = Throw TypeError c').
Proof.
  intros Hmon Hmode Hq Hts.
  assert (T : forall r, take_head h r c = (None, set_command_queue [] c)).
  { intros r. unfold take_head. rewrite Hmode, Hq. reflexivity. }
  destruct (after_shift_spec (Queue.length []) (set_command_queue [] c))
    as (_ & A1 & _ & _ & _ & A2 & _ & _ & A3 & _).
  cbv zeta in A1, A2, A3.
  split.
  - unfold return_reply. rewrite T.
    change (command_queue (set_command_queue [] c)) with (@nil Command).
    set (c1 := after_shift (Queue.length []) (set_command_queue [] c)) in *.
    assert (M1 : pub_sub_mode c1 = false) by (rewrite A2; exact Hmode).
    assert (M2 : monitoring c1 = true) by (rewrite A3; exact Hmon).
    clearbody c1. unfold dispatch. rewrite M1, M2. unfold monitor_reply.
    unfold indexOf at 1. rewrite (index_space ts rest Hts), slice_head.
    eexists. eexists. split; [reflexivity |].
    rewrite trace_emit, last_snoc, calls_app. simpl calls at 2. rewrite app_nil_r.
    split; [reflexivity |]. split; [exact A1 | exact M2].
  - intros r Hr. unfold return_reply. rewrite T.
    change (command_queue (set_command_queue [] c)) with (@nil Command).
    set (c1 := after_shift (Queue.length []) (set_command_queue [] c)) in *.
    assert (M1 : pub_sub_mode c1 = false) by (rewrite A2; exact Hmode).
    assert (M2 : monitoring c1 = true) by (rewrite A3; exact Hmon).
    clearbody c1. unfold dispatch. rewrite M1, M2.
    destruct r; try (eexists; reflexivity). destruct (Hr s eq_refl).
Qed.

Lemma monitor_line_is_emitted_witness :
  exists c' margs,
    return_reply ascii_host (RStr ("1339518083.107412" +:+ " " +:+ "keys"))
      (set_monitoring true ready_client) = Return c'
    /\ last (trace c') = Some (Emit_monitor "1339518083.107412" margs).
Proof.
  destruct (monitor_line_is_emitted ascii_host "1339518083.107412" "keys"
              (set_monitoring true ready_client) eq_refl eq_refl eq_refl eq_refl)
    as ((c' & margs & E & L & _) & _).
  exists c', margs. split; assumption.
Defined.
